(** * Personal finance tracker: aggregation queries and receipt assets

    A shallow embedding of the dashboard queries of [app/routes.py], of the
    receipt helpers of [app/utils.py] and of the transaction routes that
    call them, together with the properties the specification states about
    them. *)

From Stdlib Require Import ZArith QArith Qcanon Qround Qabs String Ascii DecimalString DecimalZ DecimalPos List Permutation Lia.
From stdpp Require Import base option list sorting gmap strings.

Set Default Proof Using "Type".

Local Open Scope string_scope.
Local Open Scope list_scope.
Local Open Scope Z_scope.

(** Equality of two amounts given by numerals. *)
Ltac qc_eq := apply Qc_is_canon; reflexivity.

(** ** Data model *)

(** A calendar date, as the [date] column of a transaction holds it. *)
Record date := mkdate { year : Z; month : Z; day : Z }.

Module Category.
Record t := mk {
  id : Z;
  name : string;
  color : string;
  user_id : Z }.
End Category.

(** Modelled from the spec: the column types of [Transaction] are declared in
    [app/models.py], which is absent; the amount is the spec's decimal
    (a canonical rational here), the category reference and the receipt
    file name are nullable. *)
Module Transaction.
Record t := mk {
  id : Z;
  amount : Qc;
  description : string;
  transaction_type : string;
  date : date;
  category_id : option Z;
  receipt_filename : option string;
  notes : string;
  user_id : Z;
  created_at : Z }.
End Transaction.

Record database := mkdb {
  categories : list Category.t;
  transactions : list Transaction.t }.

(** The same database with another transaction table. *)
Definition with_transactions (db : database) (ts : list Transaction.t) : database :=
  mkdb (categories db) ts.

Definition set_date (d : date) (t : Transaction.t) : Transaction.t :=
  Transaction.mk (Transaction.id t) (Transaction.amount t) (Transaction.description t)
    (Transaction.transaction_type t) d (Transaction.category_id t)
    (Transaction.receipt_filename t) (Transaction.notes t) (Transaction.user_id t)
    (Transaction.created_at t).

Definition set_created_at (c : Z) (t : Transaction.t) : Transaction.t :=
  Transaction.mk (Transaction.id t) (Transaction.amount t) (Transaction.description t)
    (Transaction.transaction_type t) (Transaction.date t) (Transaction.category_id t)
    (Transaction.receipt_filename t) (Transaction.notes t) (Transaction.user_id t) c.

(** ** SQL aggregation helpers *)

Definition total (xs : list Qc) : Qc := foldr Qcplus 0%Qc xs.

(** [func.sum(...).scalar()]: SQL [SUM] over no rows is [NULL]. *)
Definition func_sum (xs : list Qc) : option Qc :=
  match xs with
  | [] => None
  | _ => Some (total xs)
  end.

(** Python's [x or 0] on the scalar: [None] and a zero sum are both falsy. *)
Definition or_0 (x : option Qc) : Qc :=
  match x with
  | None => 0%Qc
  | Some q => if decide (q = 0%Qc) then 0%Qc else q
  end.

Definition amounts (ts : list Transaction.t) : list Qc :=
  map Transaction.amount ts.

Definition filter_by (user : Z) (ty : string) (t : Transaction.t) : bool :=
  (Transaction.user_id t =? user) && String.eqb (Transaction.transaction_type t) ty.

Definition extract_month (t : Transaction.t) : Z := month (Transaction.date t).
Definition extract_year (t : Transaction.t) : Z := year (Transaction.date t).

Definition in_month (m y : Z) (t : Transaction.t) : bool :=
  (extract_month t =? m) && (extract_year t =? y).

(** ** The dashboard queries ([dashboard] in [app/routes.py]) *)

(** One monthly sum of [dashboard]: filter by owner and type, then by the
    month and the year of the [date] column, sum, and default to 0. *)
Definition monthly_sum (ty : string) (db : database) (user m y : Z) : Qc :=
  or_0 (func_sum (amounts
    (List.filter (in_month m y)
       (List.filter (filter_by user ty) (transactions db))))).

Definition monthly_income := monthly_sum "income".
Definition monthly_expenses := monthly_sum "expense".

Definition computeMonthlySummary (db : database) (user m y : Z) : Qc * Qc :=
  (monthly_income db user m y, monthly_expenses db user m y).

(** [Category JOIN Transaction]: the inner join on the foreign key
    [Transaction.category_id = Category.id]; a null reference joins nothing. *)
Definition join (db : database) : list (Category.t * Transaction.t) :=
  c ← categories db;
  t ← transactions db;
  if decide (Transaction.category_id t = Some (Category.id c)) then [(c, t)] else [].

(** The rows one category contributes to the join. *)
Definition block (ts : list Transaction.t) (c : Category.t) : list (Category.t * Transaction.t) :=
  t ← ts;
  if decide (Transaction.category_id t = Some (Category.id c)) then [(c, t)] else [].

(** [GROUP BY] on the first column with [SUM] on the second; SQL leaves the
    order of the groups open, first occurrence is used here. *)
Definition group_by_sum (rows : list (string * Qc)) : list (string * Qc) :=
  map (fun k => (k, total (map snd (List.filter (fun r => String.eqb (fst r) k) rows))))
      (remove_dups (map fst rows)).

Definition expense_in (user m y : Z) (t : Transaction.t) : bool :=
  (Transaction.user_id t =? user)
  && String.eqb (Transaction.transaction_type t) "expense"
  && (extract_month t =? m) && (extract_year t =? y).

Definition category_expenses (db : database) (user m y : Z) : list (string * Qc) :=
  group_by_sum
    (map (fun ct => (Category.name (fst ct), Transaction.amount (snd ct)))
       (List.filter (fun ct => expense_in user m y (snd ct)) (join db))).

(** Modelled from the spec: [User.get_balance] is defined in [app/models.py],
    which is absent.  The spec gives the signed total sum(amount where
    type=income) - sum(amount where type=expense) over all of the user's
    transactions, and 0 for a user without transactions. *)
Definition get_balance (db : database) (user : Z) : Qc :=
  (or_0 (func_sum (amounts (List.filter (filter_by user "income") (transactions db))))
   - or_0 (func_sum (amounts (List.filter (filter_by user "expense") (transactions db)))))%Qc.

Definition computeBalance := get_balance.

Definition computeCategoryBreakdown := category_expenses.

(** [a] was created no earlier than [b]. *)
Definition newer (a b : Transaction.t) : Prop :=
  Transaction.created_at b <= Transaction.created_at a.

Global Instance newer_dec : RelDecision newer.
Proof. intros a b. unfold newer. apply _. Defined.

(** [order_by(Transaction.created_at.desc()).limit(5)] over the user's rows. *)
Definition recent_transactions (db : database) (user : Z) : list Transaction.t :=
  take 5
    (merge_sort newer
       (List.filter (fun t => Transaction.user_id t =? user) (transactions db))).

(** What [dashboard] hands to its template for a request made on [now]:
    the recent rows, the income and the expenses of the current month, the
    expenses of the current month by category, and the balance. *)
Definition dashboard (db : database) (current_user : Z) (now : date)
  : list Transaction.t * Qc * Qc * list (string * Qc) * Qc :=
  let current_month := month now in
  let current_year := year now in
  (recent_transactions db current_user,
   monthly_income db current_user current_month current_year,
   monthly_expenses db current_user current_month current_year,
   category_expenses db current_user current_month current_year,
   get_balance db current_user).

(** ** Vocabulary of the statements *)

(** The rows of [user] of type [ty] whose date lies in month [m] of year [y]. *)
Definition dated (user : Z) (ty : string) (m y : Z) (t : Transaction.t) : bool :=
  bool_decide (Transaction.user_id t = user /\ Transaction.transaction_type t = ty
               /\ month (Transaction.date t) = m /\ year (Transaction.date t) = y).

(** The rows that refer to category [c]. *)
Definition in_category (c : Category.t) (t : Transaction.t) : bool :=
  bool_decide (Transaction.category_id t = Some (Category.id c)).

(** ** Python strings and paths *)

(** [c in s] for a one-character [c]. *)
Fixpoint contains (c : ascii) (s : string) : bool :=
  match s with
  | EmptyString => false
  | String a s' => Ascii.eqb a c || contains c s'
  end.

(** [s.rsplit(c, 1)]: the name split at its last [c], or the name alone. *)
Fixpoint rsplit (c : ascii) (s : string) : list string :=
  match s with
  | EmptyString => [EmptyString]
  | String a s' =>
      match rsplit c s' with
      | [pre; post] => [String a pre; post]
      | _ => if Ascii.eqb a c then [EmptyString; s'] else [s]
      end
  end.

Definition lower_ascii (a : ascii) : ascii :=
  let n := N_of_ascii a in
  if ((65 <=? n) && (n <=? 90))%N then ascii_of_N (n + 32) else a.

(** [s.lower()]; the names are byte strings here, so only A-Z change (no
    other character lowers to a letter of an allowed extension). *)
Fixpoint lower (s : string) : string :=
  match s with
  | EmptyString => EmptyString
  | String a s' => String (lower_ascii a) (lower s')
  end.

Definition startswith (pre s : string) : bool := String.prefix pre s.

Fixpoint last_char (s : string) : option ascii :=
  match s with
  | EmptyString => None
  | String a EmptyString => Some a
  | String _ s' => last_char s'
  end.

Definition endswith_sep (s : string) : bool :=
  match last_char s with
  | Some a => Ascii.eqb a "/"
  | None => false
  end.

(** [s.endswith(suf)]. *)
Definition endswith (s suf : string) : bool :=
  let n := String.length s in
  let k := String.length suf in
  (k <=? n)%nat && String.eqb (String.substring (n - k) k s) suf.

(** One round of the loop of [posixpath.join]. *)
Definition join_step (path b : string) : string :=
  if startswith "/" b then b
  else if String.eqb path "" || endswith_sep path then path +:+ b
  else path +:+ "/" +:+ b.

(** What a joined relative name is appended to: the directory, with a
    separator unless it is empty or ends with one. *)
Definition dir_prefix (path : string) : string :=
  if String.eqb path "" || endswith_sep path then path else path +:+ "/".

(** [os.path.join(a, *p)]. *)
Definition os_path_join (a : string) (p : list string) : string :=
  fold_left join_step p a.

(** [s.rfind(c)]: the index of the last [c], counted from [i]; -1 without. *)
Fixpoint rfind_from (c : ascii) (s : string) (i : Z) : Z :=
  match s with
  | EmptyString => -1
  | String a s' =>
      let r := rfind_from c s' (i + 1) in
      if 0 <=? r then r else if Ascii.eqb a c then i else -1
  end.

Definition rfind (c : ascii) (s : string) : Z := rfind_from c s 0.

(** The [while] loop of [genericpath._splitext]: is there a character other
    than a dot in [p[filenameIndex:dotIndex]], [n] being the distance left. *)
Fixpoint skip_leading_dots (p : string) (filenameIndex n : nat) : bool :=
  match n with
  | O => false
  | S n' =>
      match String.get filenameIndex p with
      | Some a =>
          if Ascii.eqb a "." then skip_leading_dots p (S filenameIndex) n' else true
      | None => true
      end
  end.

(** [os.path.splitext(p)]. *)
Definition splitext (p : string) : string * string :=
  let sepIndex := rfind "/" p in
  let dotIndex := rfind "." p in
  if (sepIndex <? dotIndex)
     && skip_leading_dots p (Z.to_nat (sepIndex + 1)) (Z.to_nat (dotIndex - (sepIndex + 1)))
  then (String.substring 0 (Z.to_nat dotIndex) p,
        String.substring (Z.to_nat dotIndex) (String.length p - Z.to_nat dotIndex) p)
  else (p, "").

(** [str(n)] for an integer. *)
Definition str (n : Z) : string := NilZero.string_of_int (Z.to_int n).

Definition hex_digit (n : N) : ascii :=
  match n with
  | 0 => "0" | 1 => "1" | 2 => "2" | 3 => "3" | 4 => "4" | 5 => "5" | 6 => "6"
  | 7 => "7" | 8 => "8" | 9 => "9" | 10 => "a" | 11 => "b" | 12 => "c"
  | 13 => "d" | 14 => "e" | _ => "f"
  end%N%char.

(** The [k] lowest hexadecimal digits of [n], most significant first. *)
Fixpoint hex_digits (k : nat) (n : N) (acc : string) : string :=
  match k with
  | O => acc
  | S k' => hex_digits k' (n / 16)%N (String (hex_digit (n mod 16)%N) acc)
  end.

(** [uuid.UUID.hex] of a 128-bit value: 32 digits. *)
Definition hex (uuid : N) : string := hex_digits 32 uuid "".

(** The first characters a decimal numeral can have are none of these. *)
Definition leading (a : ascii) : Prop :=
  a <> "."%char /\ a <> "/"%char /\ a <> "t"%char.

(** [str(d)] for a date: ISO format, zero padded. *)
Definition zfill (k : nat) (s : string) : string :=
  String.concat "" (repeat "0" (k - String.length s)) +:+ s.

Definition date_str (d : date) : string :=
  zfill 4 (str (year d)) +:+ "-" +:+ zfill 2 (str (month d)) +:+ "-" +:+ zfill 2 (str (day d)).

(** ** Files, pictures and the world the routes run in *)

(** What a file holds: a picture PIL can open, with its size ([writable] is
    false when PIL cannot write it back under the name's extension, as for
    a picture with transparency under .jpg), or bytes PIL cannot identify. *)
Inductive blob :=
  | Picture (width height : positive) (writable : bool)
  | Data (bytes : string).

Global Instance blob_eq_dec : EqDecision blob.
Proof. solve_decision. Defined.

(** werkzeug's [FileStorage]: the client's file name and the content. *)
Record FileStorage := mkfile { filename : string; stream : blob }.

Inductive exn :=
  | NotFound
  | FileNotFoundError (path : string)
  | IsADirectoryError (path : string)
  | UnidentifiedImageError (path : string)
  | OSError (msg : string)
  | OverflowError (msg : string).

Definition exn_str (e : exn) : string :=
  match e with
  | NotFound => "404 Not Found"
  | FileNotFoundError p => "No such file or directory: " +:+ p
  | IsADirectoryError p => "Is a directory: " +:+ p
  | UnidentifiedImageError p => "cannot identify image file " +:+ p
  | OSError msg => msg
  | OverflowError msg => msg
  end.

(** The world: the database, the files and the directories under the upload
    root, what was printed and what was flashed.  The file system is an
    ideal one: a write or a [makedirs] always succeeds. *)
Record world := mkworld {
  db : database;
  files : gmap string blob;
  dirs : gset string;
  stdout : list string;
  flashes : list (string * string) }.

Inductive result (A : Type) :=
  | Ok (a : A)
  | Raise (e : exn).
Arguments Ok {A} a.
Arguments Raise {A} e.

(** Statements run in a world and either return or raise; what they did to
    the world before raising stays done. *)
Definition M (A : Type) : Type := world -> result A * world.

Definition ret {A} (a : A) : M A := fun w => (Ok a, w).
Definition raise {A} (e : exn) : M A := fun w => (Raise e, w).

Definition bind {A B} (m : M A) (k : A -> M B) : M B :=
  fun w =>
    match m w with
    | (Ok a, w') => k a w'
    | (Raise e, w') => (Raise e, w')
    end.

(** [try: m except Exception as e: h(e)]. *)
Definition try_except {A} (m : M A) (h : exn -> M A) : M A :=
  fun w =>
    match m w with
    | (Ok a, w') => (Ok a, w')
    | (Raise e, w') => h e w'
    end.

Notation "'let*' x ':=' m 'in' k" := (bind m (fun x => k))
  (at level 10, x name, m at level 100, k at level 200).
Notation "m ';;' k" := (bind m (fun _ => k))
  (at level 100, k at level 200, right associativity).

Definition when (b : bool) (m : M unit) : M unit := if b then m else ret tt.

Definition get_world : M world := fun w => (Ok w, w).

Definition set_files (f : gmap string blob) : M unit :=
  fun w => (Ok tt, mkworld (db w) f (dirs w) (stdout w) (flashes w)).

Definition set_dirs (d : gset string) : M unit :=
  fun w => (Ok tt, mkworld (db w) (files w) d (stdout w) (flashes w)).

Definition set_db (d : database) : M unit :=
  fun w => (Ok tt, mkworld d (files w) (dirs w) (stdout w) (flashes w)).

Definition print (line : string) : M unit :=
  fun w => (Ok tt, mkworld (db w) (files w) (dirs w) (stdout w ++ [line]) (flashes w)).

Definition flash (message category : string) : M unit :=
  fun w => (Ok tt, mkworld (db w) (files w) (dirs w) (stdout w) (flashes w ++ [(message, category)])).

(** Running [m] leaves a file at [p] when there was one: [m] may overwrite
    the file, but does not remove it. *)
Definition keeps {A} (p : string) (m : M A) : Prop :=
  forall w r w', m w = (r, w') -> is_Some (files w !! p) -> is_Some (files w' !! p).

(** The directories [os.makedirs] makes sure of: the path and every prefix
    of it that ends before a separator. *)
Fixpoint path_prefixes (pre s : string) : list string :=
  match s with
  | EmptyString => [pre]
  | String a s' =>
      (if Ascii.eqb a "/" && negb (String.eqb pre "") then [pre] else [])
      ++ path_prefixes (pre +:+ String a EmptyString) s'
  end.

(** [os.makedirs(path, exist_ok=True)]. *)
Definition os_makedirs (path : string) : M unit :=
  fun w => set_dirs (dirs w ∪ list_to_set (path_prefixes "" path)) w.

(** [os.path.exists(path)]. *)
Definition os_path_exists (path : string) : M bool :=
  fun w => (Ok (bool_decide (is_Some (files w !! path)) || bool_decide (path ∈ dirs w)), w).

(** [os.remove(path)]: removes a file, raises on a directory or on nothing. *)
Definition os_remove (path : string) : M unit :=
  fun w =>
    match files w !! path with
    | Some _ => set_files (delete path (files w)) w
    | None =>
        if bool_decide (path ∈ dirs w) then (Raise (IsADirectoryError path), w)
        else (Raise (FileNotFoundError path), w)
    end.

(** [file.save(dst)]. *)
Definition file_save (file : FileStorage) (dst : string) : M unit :=
  fun w => set_files (<[dst := stream file]> (files w)) w.

(** ** Pillow *)

(** A picture in memory: its size and whether it can be written back. *)
Record Image := mkimage { img_width : positive; img_height : positive; img_writable : bool }.

(** [Image.open(path)]. *)
Definition Image_open (path : string) : M Image :=
  fun w =>
    match files w !! path with
    | Some (Picture wd ht wr) => (Ok (mkimage wd ht wr), w)
    | Some (Data _) => (Raise (UnidentifiedImageError path), w)
    | None => (Raise (FileNotFoundError path), w)
    end.

(** [round_aspect] of [Image.thumbnail]: of floor and ceiling, the first
    with the least key, and at least 1. *)
Definition round_aspect (number : Q) (key : Z -> Q) : Z :=
  let f := Qfloor number in
  let c := Qceiling number in
  Z.max (if Qle_bool (key f) (key c) then f else c) 1.

(** [preserve_aspect_ratio] of [Image.thumbnail], with exact fractions where
    Pillow computes in floating point; [None] when the picture already fits. *)
Definition preserve_aspect_ratio (size : Z * Z) (width height : positive) : option (Z * Z) :=
  let '(x, y) := size in
  if (Z.pos width <=? x) && (Z.pos height <=? y) then None
  else
    let aspect := (Z.pos width # height)%Q in
    if Qle_bool aspect (inject_Z x / inject_Z y)%Q then
      Some (round_aspect (inject_Z y * aspect)%Q
              (fun n => Qabs (aspect - inject_Z n / inject_Z y))%Q, y)
    else
      Some (x, round_aspect (inject_Z x / aspect)%Q
              (fun n => if n =? 0 then 0%Q else Qabs (aspect - inject_Z x / inject_Z n))%Q).

(** [img.thumbnail(size, resample)]: the picture resized in place to fit. *)
Definition Image_thumbnail (img : Image) (size : Z * Z) : Image :=
  match preserve_aspect_ratio size (img_width img) (img_height img) with
  | None => img
  | Some (x, y) => mkimage (Z.to_pos x) (Z.to_pos y) (img_writable img)
  end.

(** [img.save(path, optimize=True, quality=85)]. *)
Definition Image_save (img : Image) (path : string) : M unit :=
  fun w =>
    if img_writable img
    then set_files (<[path := Picture (img_width img) (img_height img) true]> (files w)) w
    else (Raise (OSError ("cannot write image as " +:+ path)), w).

(** Both sides of a picture are at most [bound]. *)
Definition fits (bound : Z) (i : Image) : Prop :=
  Z.pos (img_width i) <= bound /\ Z.pos (img_height i) <= bound.

(** [r] is the short side scaled by [bound / long], rounded down or up to a
    whole pixel, and at least one pixel. *)
Definition scaled (long short : positive) (bound r : Z) : Prop :=
  r = Z.max (bound * Z.pos short / Z.pos long) 1
  \/ r = Z.max (- (- (bound * Z.pos short) / Z.pos long)) 1.

(** [t] is [i] itself when [i] fits, else [i] with its longer side brought to
    [bound] and its shorter side scaled along. *)
Definition keeps_aspect (bound : Z) (i t : Image) : Prop :=
  (fits bound i /\ t = i)
  \/ (~ fits bound i /\ Z.pos (img_width i) <= Z.pos (img_height i)
      /\ Z.pos (img_height t) = bound
      /\ scaled (img_height i) (img_width i) bound (Z.pos (img_width t)))
  \/ (~ fits bound i /\ Z.pos (img_height i) < Z.pos (img_width i)
      /\ Z.pos (img_width t) = bound
      /\ scaled (img_width i) (img_height i) bound (Z.pos (img_height t))).

(** Content no thumbnail can be made of: PIL cannot open it, or cannot
    write it back. *)
Definition unusable (b : blob) : bool :=
  match b with
  | Picture _ _ writable => negb writable
  | Data _ => true
  end.

(** ** The transaction form ([app/forms.py]) *)

Module TransactionForm.
Record t := mk {
  amount : option Qc;
  description : string;
  transaction_type : string;
  category_id : option Z;
  date : option date;
  receipt : option FileStorage;
  notes : string }.
End TransactionForm.

(** A request to a route: the method, whether the CSRF token checks, and
    the submitted form data. *)
Record request := mkreq {
  method : string;
  csrf_ok : bool;
  form : TransactionForm.t }.

(** [bool(file)] of a [FileStorage]: whether it has a file name. *)
Definition file_bool (file : FileStorage) : bool := negb (String.eqb (filename file) "").

(** The truth value of a nullable string column. *)
Definition str_bool (s : option string) : bool :=
  match s with
  | Some x => negb (String.eqb x "")
  | None => false
  end.

Definition is_space (a : ascii) : bool :=
  let n := N_of_ascii a in
  ((9 <=? n) && (n <=? 13) || (28 <=? n) && (n <=? 32))%N.

(** Whether [s.strip()] is empty. *)
Fixpoint blank (s : string) : bool :=
  match s with
  | EmptyString => true
  | String a s' => is_space a && blank s'
  end.

(** The validators of [TransactionForm], field by field. *)
Definition validate_amount (a : option Qc) : bool :=
  match a with
  | Some x => negb (bool_decide (x = 0%Qc)) && bool_decide (Q2Qc (1 # 100) ≤ x)%Qc
  | None => false
  end.

Definition validate_description (s : string) : bool :=
  negb (blank s) && (String.length s <=? 200)%nat.

Definition validate_transaction_type (s : string) : bool :=
  bool_decide (s ∈ ["income"; "expense"]).

Definition validate_category_id (c : option Z) (choices : list (Z * string)) : bool :=
  match c with
  | Some x => bool_decide (x ∈ map fst choices)
  | None => false
  end.

(** [FileAllowed(['jpg', 'jpeg', 'png', 'pdf'])]. *)
Definition FileAllowed (upload_set : list string) (data : option FileStorage) : bool :=
  match data with
  | Some file =>
      if file_bool file
      then existsb (fun x => endswith (lower (filename file)) ("." +:+ x)) upload_set
      else true
  | None => true
  end.

Definition validate (f : TransactionForm.t) (choices : list (Z * string)) : bool :=
  validate_amount (TransactionForm.amount f)
  && validate_description (TransactionForm.description f)
  && validate_transaction_type (TransactionForm.transaction_type f)
  && validate_category_id (TransactionForm.category_id f) choices
  && bool_decide (is_Some (TransactionForm.date f))
  && FileAllowed ["jpg"; "jpeg"; "png"; "pdf"] (TransactionForm.receipt f)
  && (String.length (TransactionForm.notes f) <=? 500)%nat.

(** [form.validate_on_submit()]. *)
Definition validate_on_submit (req : request) (choices : list (Z * string)) : bool :=
  bool_decide (method req ∈ ["POST"; "PUT"; "PATCH"; "DELETE"])
  && csrf_ok req && validate (form req) choices.

(** [form.receipt.data]: the uploaded file when it has a name, else nothing. *)
Definition receipt_data (f : TransactionForm.t) : option FileStorage :=
  match TransactionForm.receipt f with
  | Some file => if file_bool file then Some file else None
  | None => None
  end.

(** What a route hands back to Flask. *)
Inductive response :=
  | render_template (template : string)
  | redirect (endpoint : string)
  | send_file (path : string) (download_name : string).


(** The integers the default SQLite database of [create_app] stores, and
    the ones its driver binds to a query: the signed 64-bit ones. *)
Definition sqlite_integer (n : Z) : bool :=
  (-9223372036854775808 <=? n) && (n <=? 9223372036854775807).

(** [Transaction.query.filter_by(id=.., user_id=..).first_or_404()].  The
    identifier comes from the URL, where [<int:transaction_id>] accepts
    every non-negative integer, and the driver raises [OverflowError] for
    one it cannot bind.  The user's number is the one of the logged-in
    user, which the database holds. *)
Definition first_or_404 (transaction_id user : Z) : M Transaction.t :=
  fun w =>
    if negb (sqlite_integer transaction_id) then
      (Raise (OverflowError "Python int too large to convert to SQLite INTEGER"), w)
    else
      match List.filter
              (fun t => (Transaction.id t =? transaction_id) && (Transaction.user_id t =? user))
              (transactions (db w)) with
      | t :: _ => (Ok t, w)
      | [] => (Raise NotFound, w)
      end.

(** [db.session.commit()] after the fields of [t] were assigned: the row
    with its primary key is rewritten. *)
Definition commit_update (t : Transaction.t) : M unit :=
  fun w =>
    set_db (mkdb (categories (db w))
              (map (fun r => if Transaction.id r =? Transaction.id t then t else r)
                   (transactions (db w)))) w.

(** [db.session.delete(t)] and [db.session.commit()]. *)
Definition commit_delete (t : Transaction.t) : M unit :=
  fun w =>
    set_db (mkdb (categories (db w))
              (List.filter (fun r => negb (Transaction.id r =? Transaction.id t))
                   (transactions (db w)))) w.

(** [Category.query.filter_by(user_id=..).all()] as the form's choices. *)
Definition choices_of (d : database) (user : Z) : list (Z * string) :=
  map (fun c => (Category.id c, Category.name c))
    (List.filter (fun c => Category.user_id c =? user) (categories d)).

Definition category_choices (user : Z) : M (list (Z * string)) :=
  fun w => (Ok (choices_of (db w) user), w).

(** The rows a query scoped by [user] can see. *)
Definition owned (user : Z) (d : database) : list Transaction.t :=
  List.filter (fun t => Transaction.user_id t =? user) (transactions d).

(** [s.split('.')[-1]]. *)
Definition split_last (c : ascii) (s : string) : string := List.last (rsplit c s) "".

Definition set_receipt_filename (t : Transaction.t) (r : option string) : Transaction.t :=
  Transaction.mk (Transaction.id t) (Transaction.amount t) (Transaction.description t)
    (Transaction.transaction_type t) (Transaction.date t) (Transaction.category_id t)
    r (Transaction.notes t) (Transaction.user_id t) (Transaction.created_at t).

(** The field assignments of [edit_transaction]; a validated form has an
    amount and a date, and a zero category is stored as null. *)
Definition update_fields (t : Transaction.t) (f : TransactionForm.t) : Transaction.t :=
  Transaction.mk (Transaction.id t)
    (default (Transaction.amount t) (TransactionForm.amount f))
    (TransactionForm.description f)
    (TransactionForm.transaction_type f)
    (default (Transaction.date t) (TransactionForm.date f))
    (match TransactionForm.category_id f with
     | Some c => if c =? 0 then None else Some c
     | None => None
     end)
    (Transaction.receipt_filename t)
    (TransactionForm.notes f)
    (Transaction.user_id t) (Transaction.created_at t).

(** ** werkzeug's [secure_filename], for the names of the examples *)

Definition safe_char (a : ascii) : bool :=
  let n := N_of_ascii a in
  ((48 <=? n) && (n <=? 57) || (65 <=? n) && (n <=? 90) || (97 <=? n) && (n <=? 122)
   || (n =? 95) || (n =? 46) || (n =? 45))%N.

(** [s.split()]: the words of [s], [cur] being the word read so far. *)
Fixpoint split_ws (s cur : list ascii) : list (list ascii) :=
  match s with
  | [] => match cur with [] => [] | _ => [rev cur] end
  | a :: s' =>
      if is_space a
      then match cur with [] => [] | _ => [rev cur] end ++ split_ws s' []
      else split_ws s' (a :: cur)
  end.

Fixpoint join_with (sep : ascii) (ws : list (list ascii)) : list ascii :=
  match ws with
  | [] => []
  | [w] => w
  | w :: ws' => w ++ sep :: join_with sep ws'
  end.

Fixpoint lstrip (s : list ascii) : list ascii :=
  match s with
  | a :: s' => if Ascii.eqb a "." || Ascii.eqb a "_" then lstrip s' else s
  | [] => []
  end.

(** The name made safe: bytes outside ASCII dropped, separators turned
    into spaces, white space runs into one underscore, every character
    outside [A-Za-z0-9_.-] dropped, dots and underscores stripped from
    both ends. *)
Definition werkzeug_secure_filename (name : string) : string :=
  let s := List.filter (fun a => (N_of_ascii a <? 128)%N) (list_ascii_of_string name) in
  let s := map (fun a => if Ascii.eqb a "/" then " "%char else a) s in
  let s := join_with "_" (split_ws s []) in
  let s := List.filter safe_char s in
  string_of_list_ascii (rev (lstrip (rev (lstrip s)))).

(** ** Example data *)

Definition example_root : string := "/srv/uploads".

(** The first 32 bits are abcdef12. *)
Definition example_uuid : N := 0xabcdef12345678900000000000000000%N.
Definition example_uuid' : N := 0x0badcafe345678900000000000000000%N.

Definition empty_world : world := mkworld (mkdb [] []) ∅ ∅ [] [].

Definition photo : FileStorage := mkfile "receipt.png" (Picture 400 300 true).
Definition scan : FileStorage := mkfile "invoice 03.PDF" (Data "%PDF-1.4").
Definition broken_photo : FileStorage := mkfile "receipt.png" (Data "not a picture").
Definition program : FileStorage := mkfile "setup.exe" (Data "MZ").
Definition nameless_photo : FileStorage := mkfile ".png" (Picture 400 300 true).

Definition food : Category.t := Category.mk 1 "Food" "#ff6b6b" 1.
Definition transport : Category.t := Category.mk 2 "Transport" "#4ecdc4" 1.

(** The scenario of the specification, with an expense without category
    and a row of another user added. *)
Definition salary_row : Transaction.t :=
  Transaction.mk 1 (Q2Qc 3000) "salary" "income" (mkdate 2024 1 5) None None "" 1 100.
Definition food_row : Transaction.t :=
  Transaction.mk 2 (Q2Qc 450) "groceries" "expense" (mkdate 2024 1 10) (Some 1) None "" 1 101.
Definition transport_row : Transaction.t :=
  Transaction.mk 3 (Q2Qc 80) "bus" "expense" (mkdate 2024 2 1) (Some 2) None "" 1 102.
Definition cash_row : Transaction.t :=
  Transaction.mk 4 (Q2Qc 20) "cash" "expense" (mkdate 2024 1 20) None None "" 1 103.
Definition other_row : Transaction.t :=
  Transaction.mk 5 (Q2Qc 999) "rent" "expense" (mkdate 2024 1 2) None None "" 2 104.

Definition example_db : database :=
  mkdb [food; transport] [salary_row; food_row; transport_row; cash_row; other_row].

(** A row of user 1 with a stored receipt and its thumbnail. *)
Definition receipt_row : Transaction.t :=
  Transaction.mk 7 (Q2Qc 450) "groceries" "expense" (mkdate 2024 1 10) (Some 1)
    (Some "1_abcdef12.png") "" 1 105.

Definition receipt_world : world :=
  mkworld (mkdb [food; transport] [receipt_row; other_row])
    (<["/srv/uploads/1/thumbnails/1_abcdef12_thumb.png" := Picture 200 150 true]>
       (<["/srv/uploads/1/1_abcdef12.png" := Picture 400 300 true]> ∅))
    (list_to_set ["/srv"; "/srv/uploads"; "/srv/uploads/1"; "/srv/uploads/1/thumbnails"])
    [] [].

Definition edit_form (receipt : option FileStorage) : TransactionForm.t :=
  TransactionForm.mk (Some (Q2Qc 475)) "groceries and bread" "expense" (Some 1)
    (Some (mkdate 2024 1 11)) receipt "corrected".

Definition edit_request (receipt : option FileStorage) : request :=
  mkreq "POST" true (edit_form receipt).

(** ** The transaction list ([transactions] in [app/routes.py]) *)

(** [a <= b] on dates, as Python compares them: by year, month, day. *)
Definition date_le (a b : date) : Prop :=
  year a < year b
  \/ (year a = year b
      /\ (month a < month b \/ (month a = month b /\ day a <= day b))).

(** [a] is dated no earlier than [b]: the order of [Transaction.date.desc()]. *)
Definition later (a b : Transaction.t) : Prop :=
  date_le (Transaction.date b) (Transaction.date a).

Global Instance later_dec : RelDecision later.
Proof. intros a b. unfold later, date_le. apply _. Defined.

(** [query.paginate(page=page, per_page=per_page, error_out=False)]: a page
    below 1 is read as page 1, a page past the end is empty. *)
Definition paginate {A} (items : list A) (page per_page : Z) : list A :=
  let page := if page <? 1 then 1 else page in
  take (Z.to_nat per_page) (drop (Z.to_nat ((page - 1) * per_page)) items).

(** [request.args.get('page', 1, type=int)]: the argument when it is there
    and reads as an integer, else 1. *)
Definition page_arg (arg : option Z) : Z := default 1 arg.

(** The rows [transactions] hands to its template. *)
Definition transactions_page (db : database) (current_user : Z) (arg : option Z)
  : list Transaction.t :=
  let page := page_arg arg in
  paginate
    (merge_sort later
       (List.filter (fun t => Transaction.user_id t =? current_user) (transactions db)))
    page 20.

(** ** Accounts ([login], [register] and [logout] in [app/routes.py]) *)

(** Modelled from the spec: the columns of [User] are declared in
    [app/models.py], which is absent; the spec gives an identity (unique
    username, unique email) and a credential (salted password hash). *)
Module User.
Record t := mk {
  id : Z;
  username : string;
  email : string;
  password_hash : string }.
End User.

Module LoginForm.
Record t := mk {
  username : string;
  password : string }.
End LoginForm.

Module RegisterForm.
Record t := mk {
  username : string;
  email : string;
  password : string;
  password2 : string }.
End RegisterForm.

(** A submitted form of either kind, with the method of the request and
    whether its CSRF token checks. *)
Record submission (F : Type) := mksub {
  sub_method : string;
  sub_csrf_ok : bool;
  sub_form : F }.
Arguments mksub {F} _ _ _.
Arguments sub_method {F} _.
Arguments sub_csrf_ok {F} _.
Arguments sub_form {F} _.

(** The user table, the user of the session if any, and the rest. *)
Record site := mksite {
  users : list User.t;
  session : option Z;
  state : world }.

(** The part of [form.validate_on_submit()] that is the same for every form:
    the request has a method that carries a form, and its CSRF token
    checks. *)
Definition is_submitted {F} (s : submission F) : bool :=
  bool_decide (sub_method s ∈ ["POST"; "PUT"; "PATCH"; "DELETE"]) && sub_csrf_ok s.

(** [DataRequired()] and [Length(min, max)] on a text field. *)
Definition DataRequired (s : string) : bool := negb (blank s).

Definition Length (lo hi : nat) (s : string) : bool :=
  (lo <=? String.length s)%nat && (String.length s <=? hi)%nat.

Definition LengthMin (lo : nat) (s : string) : bool := (lo <=? String.length s)%nat.

Definition validate_login (f : LoginForm.t) : bool :=
  DataRequired (LoginForm.username f) && Length 4 20 (LoginForm.username f)
  && DataRequired (LoginForm.password f).

(** The validators of [RegisterForm]; [Email] is the library's check of an
    address. *)
Definition validate_register (Email : string -> bool) (f : RegisterForm.t) : bool :=
  DataRequired (RegisterForm.username f) && Length 4 20 (RegisterForm.username f)
  && DataRequired (RegisterForm.email f) && Email (RegisterForm.email f)
  && DataRequired (RegisterForm.password f) && LengthMin 6 (RegisterForm.password f)
  && DataRequired (RegisterForm.password2 f)
  && String.eqb (RegisterForm.password2 f) (RegisterForm.password f).

(** [User.query.filter_by(username=..).first()], and the same by email. *)
Definition user_by_username (name : string) (us : list User.t) : option User.t :=
  List.find (fun u => String.eqb (User.username u) name) us.

Definition user_by_email (mail : string) (us : list User.t) : option User.t :=
  List.find (fun u => String.eqb (User.email u) mail) us.

Definition site_flash (message category : string) (s : site) : site :=
  mksite (users s) (session s) (snd (flash message category (state s))).

(** [login]; [check_password_hash] is werkzeug's check of a password
    against a stored hash, which [User.check_password] applies. *)
Definition login (check_password_hash : string -> string -> bool)
    (sub : submission LoginForm.t) (s : site) : response * site :=
  if bool_decide (is_Some (session s)) then (redirect "main.dashboard", s)
  else if is_submitted sub && validate_login (sub_form sub) then
    match user_by_username (LoginForm.username (sub_form sub)) (users s) with
    | Some user =>
        if check_password_hash (User.password_hash user) (LoginForm.password (sub_form sub))
        then (redirect "main.dashboard",
              site_flash "Logged in successfully!" "success"
                (mksite (users s) (Some (User.id user)) (state s)))
        else (render_template "login.html",
              site_flash "Invalid username or password" "error" s)
    | None =>
        (render_template "login.html", site_flash "Invalid username or password" "error" s)
    end
  else (render_template "login.html", s).

(** [logout], for a logged-in user. *)
Definition logout (s : site) : response * site :=
  (redirect "main.index",
   site_flash "You have been logged out." "info" (mksite (users s) None (state s))).

Definition default_categories : list (string * string) :=
  [("Food & Dining", "#ff6b6b"); ("Transportation", "#4ecdc4"); ("Shopping", "#45b7d1");
   ("Entertainment", "#f9ca24"); ("Bills & Utilities", "#f0932b");
   ("Healthcare", "#eb4d4b"); ("Salary", "#6c5ce7"); ("Other", "#a0a0a0")].

(** The rows the loop over [default_categories] adds for user [user_id],
    the database giving the [i]-th inserted row the identifier
    [category_id i]. *)
Definition default_category_rows (user_id : Z) (category_id : nat -> Z) : list Category.t :=
  imap (fun i nc => Category.mk (category_id i) (fst nc) (snd nc) user_id)
    default_categories.

Definition add_categories (cs : list Category.t) (w : world) : world :=
  mkworld (mkdb (categories (db w) ++ cs) (transactions (db w)))
    (files w) (dirs w) (stdout w) (flashes w).

(** [register]; [generate_password_hash] is werkzeug's, which
    [User.set_password] applies, [user_id] and [category_id] are the
    identifiers the database assigns to the new rows. *)
Definition register (generate_password_hash : string -> string) (Email : string -> bool)
    (sub : submission RegisterForm.t) (user_id : Z) (category_id : nat -> Z) (s : site)
  : response * site :=
  if bool_decide (is_Some (session s)) then (redirect "main.dashboard", s)
  else if is_submitted sub && validate_register Email (sub_form sub) then
    let f := sub_form sub in
    if bool_decide (is_Some (user_by_username (RegisterForm.username f) (users s))) then
      (render_template "register.html", site_flash "Username already exists" "error" s)
    else if bool_decide (is_Some (user_by_email (RegisterForm.email f) (users s))) then
      (render_template "register.html", site_flash "Email already registered" "error" s)
    else
      let user :=
        User.mk user_id (RegisterForm.username f) (RegisterForm.email f)
          (generate_password_hash (RegisterForm.password f)) in
      (redirect "main.login",
       site_flash "Registration successful! Please log in." "success"
         (mksite (users s ++ [user]) (session s)
            (add_categories (default_category_rows user_id category_id) (state s))))
  else (render_template "register.html", s).

(** ** The data model the routes keep *)

(** Transaction and category identifiers are unique, every amount is at
    least one cent and every type is income or expense, and a row that names
    a category names one of its own user. *)
Definition well_formed (d : database) : Prop :=
  NoDup (map Transaction.id (transactions d))
  /\ NoDup (map Category.id (categories d))
  /\ (forall t, In t (transactions d) ->
        (Q2Qc (1 # 100) <= Transaction.amount t)%Qc
        /\ In (Transaction.transaction_type t) ["income"; "expense"])
  /\ (forall c t, In c (categories d) -> In t (transactions d) ->
        Transaction.category_id t = Some (Category.id c) ->
        Category.user_id c = Transaction.user_id t).


(** The rows whose category is one of the table. *)
Definition categorised (d : database) (t : Transaction.t) : bool :=
  existsb (fun c => in_category c t) (categories d).

(** The first [n] pages of the transaction list, one after the other. *)
Definition first_pages (d : database) (current_user : Z) (n : nat) : list Transaction.t :=
  concat (map (fun k => transactions_page d current_user (Some (Z.of_nat k))) (seq 1 n)).

(** A user's category names are unique (the hypothesis of the breakdown). *)
Definition unique_names (cs : list Category.t) : Prop :=
  forall c1 c2, In c1 cs -> In c2 cs ->
    Category.user_id c1 = Category.user_id c2 ->
    Category.name c1 = Category.name c2 -> c1 = c2.

(** The login form a user fills in with the name and the password of a
    registration. *)
Definition login_with (f : RegisterForm.t) : submission LoginForm.t :=
  mksub "POST" true (LoginForm.mk (RegisterForm.username f) (RegisterForm.password f)).

(** What the pages of a user show: the dashboard on a day and a page of the
    transaction list. *)
Definition view (d : database) (user : Z) (now : date) (arg : option Z) :=
  (dashboard d user now, transactions_page d user arg).

(** ** Example accounts *)

Definition example_hash (password : string) : string := "hash:" +:+ password.

Definition example_check (hash password : string) : bool :=
  String.eqb hash (example_hash password).

Definition example_Email (address : string) : bool := contains "@" address.

Definition alice : User.t := User.mk 1 "alice" "alice@example.org" (example_hash "secret1").

Definition example_site : site := mksite [alice] None receipt_world.

Definition carol_form : submission RegisterForm.t :=
  mksub "POST" true (RegisterForm.mk "carol" "carol@example.org" "hunter22" "hunter22").

(** The identifiers the database gives to the categories of a new user. *)
Definition example_category_id (i : nat) : Z := 10 + Z.of_nat i.

(** The example database without the row of user 2. *)
Definition example_db_of_1 : database :=
  with_transactions example_db [salary_row; food_row; transport_row; cash_row].
Section App.

(** [current_app.config['UPLOAD_FOLDER']]. *)
Variable UPLOAD_FOLDER : string.

(** [werkzeug.utils.secure_filename]. *)
Variable secure_filename : string -> string.

(** ** The receipt helpers ([app/utils.py]) *)

Definition ALLOWED_EXTENSIONS : gset string := {[ "png"; "jpg"; "jpeg"; "pdf" ]}.

Definition allowed_file (filename : string) : bool :=
  contains "." filename
  && match rsplit "." filename !! 1%nat with
     | Some ext => bool_decide (lower ext ∈ ALLOWED_EXTENSIONS)
     | None => false
     end.

(** The [try] block of [create_thumbnail]. *)
Definition create_thumbnail_try (file_path : string) (user_id : Z) (filename : string)
  : M unit :=
  let* img := Image_open file_path in
  let img := Image_thumbnail img (200, 200) in
  let '(name, ext) := splitext filename in
  let thumb_filename := name +:+ "_thumb" +:+ ext in
  let thumb_dir := os_path_join UPLOAD_FOLDER [str user_id; "thumbnails"] in
  os_makedirs thumb_dir ;;
  let thumb_path := os_path_join thumb_dir [thumb_filename] in
  Image_save img thumb_path.

Definition create_thumbnail (file_path : string) (user_id : Z) (filename : string) : M unit :=
  try_except (create_thumbnail_try file_path user_id filename)
    (fun e => print ("Error creating thumbnail: " +:+ exn_str e)).

Definition save_receipt_file (file : FileStorage) (user_id : Z) (uuid4 : N)
  : M (option string) :=
  if file_bool file && allowed_file (filename file) then
    let filename := secure_filename (filename file) in
    let '(name, ext) := splitext filename in
    let unique_filename :=
      str user_id +:+ "_" +:+ String.substring 0 8 (hex uuid4) +:+ ext in
    let user_upload_dir := os_path_join UPLOAD_FOLDER [str user_id] in
    os_makedirs user_upload_dir ;;
    let file_path := os_path_join user_upload_dir [unique_filename] in
    file_save file file_path ;;
    when (bool_decide (lower ext ∈ [".png"; ".jpg"; ".jpeg"]))
      (try_except (create_thumbnail file_path user_id unique_filename)
         (fun e => print ("Error creating thumbnail: " +:+ exn_str e))) ;;
    ret (Some unique_filename)
  else ret None.

(** Where a receipt named [fname] of a user lies, and where the routes
    look for its thumbnail. *)
Definition receipt_path (user_id : Z) (fname : string) : string :=
  os_path_join UPLOAD_FOLDER [str user_id; fname].

Definition thumbnail_path (user_id : Z) (fname : string) : string :=
  os_path_join UPLOAD_FOLDER [str user_id; "thumbnails"; fname].

(** The generated name without its extension. *)
Definition receipt_stem (user_id : Z) (uuid4 : N) : string :=
  str user_id +:+ "_" +:+ String.substring 0 8 (hex uuid4).

(** The name [save_receipt_file] generates for an upload. *)
Definition unique_filename (file : FileStorage) (user_id : Z) (uuid4 : N) : string :=
  receipt_stem user_id uuid4 +:+ snd (splitext (secure_filename (filename file))).

(** The world once the upload is written under [fname], before any
    thumbnail. *)
Definition saved (file : FileStorage) (user_id : Z) (fname : string) (w : world) : world :=
  mkworld (db w)
    (<[receipt_path user_id fname := stream file]> (files w))
    (dirs w ∪ list_to_set (path_prefixes "" (os_path_join UPLOAD_FOLDER [str user_id])))
    (stdout w) (flashes w).

(** ** The transaction routes ([app/routes.py]) *)

Definition remove_if_exists (path : string) : M unit :=
  let* e := os_path_exists path in
  when e (os_remove path).

Definition edit_transaction (current_user transaction_id : Z) (req : request) (uuid4 : N)
  : M response :=
  let* transaction := first_or_404 transaction_id current_user in
  let* choices := category_choices current_user in
  if validate_on_submit req choices then
    let* transaction :=
      match receipt_data (form req) with
      | Some file =>
          when (str_bool (Transaction.receipt_filename transaction))
            (let old_file_path :=
               os_path_join UPLOAD_FOLDER
                 [str current_user; default "" (Transaction.receipt_filename transaction)] in
             remove_if_exists old_file_path) ;;
          let* receipt_filename := save_receipt_file file current_user uuid4 in
          ret (set_receipt_filename transaction receipt_filename)
      | None => ret transaction
      end in
    commit_update (update_fields transaction (form req)) ;;
    flash "Transaction updated successfully!" "success" ;;
    ret (redirect "main.transactions")
  else ret (render_template "edit_transaction.html").

Definition delete_transaction (current_user transaction_id : Z) : M response :=
  let* transaction := first_or_404 transaction_id current_user in
  when (str_bool (Transaction.receipt_filename transaction))
    (let fname := default "" (Transaction.receipt_filename transaction) in
     let file_path := os_path_join UPLOAD_FOLDER [str current_user; fname] in
     remove_if_exists file_path ;;
     let thumb_path := os_path_join UPLOAD_FOLDER [str current_user; "thumbnails"; fname] in
     remove_if_exists thumb_path) ;;
  commit_delete transaction ;;
  flash "Transaction deleted successfully!" "success" ;;
  ret (redirect "main.transactions").

Definition download_receipt (current_user transaction_id : Z) : M response :=
  let* transaction := first_or_404 transaction_id current_user in
  if negb (str_bool (Transaction.receipt_filename transaction)) then
    flash "No receipt found for this transaction." "error" ;;
    ret (redirect "main.transactions")
  else
    let fname := default "" (Transaction.receipt_filename transaction) in
    let file_path := os_path_join UPLOAD_FOLDER [str current_user; fname] in
    let* e := os_path_exists file_path in
    if negb e then
      flash "Receipt file not found." "error" ;;
      ret (redirect "main.transactions")
    else
      let* w := get_world in
      if bool_decide (is_Some (files w !! file_path)) then
        ret (send_file file_path
               ("receipt_" +:+ Transaction.description transaction +:+ "_"
                +:+ date_str (Transaction.date transaction) +:+ "."
                +:+ split_last "." fname))
      else raise (IsADirectoryError file_path).


(** The row [add_transaction] builds from a validated form; [new_id] is the
    identifier the database assigns and [now] the creation time stamp. *)
Definition new_transaction (f : TransactionForm.t) (receipt_filename : option string)
    (current_user new_id now : Z) : Transaction.t :=
  Transaction.mk new_id
    (default 0%Qc (TransactionForm.amount f))
    (TransactionForm.description f)
    (TransactionForm.transaction_type f)
    (default (mkdate 1 1 1) (TransactionForm.date f))
    (match TransactionForm.category_id f with
     | Some c => if c =? 0 then None else Some c
     | None => None
     end)
    receipt_filename
    (TransactionForm.notes f)
    current_user now.

(** [db.session.add(t)] and [db.session.commit()]. *)
Definition commit_add (t : Transaction.t) : M unit :=
  fun w => set_db (mkdb (categories (db w)) (transactions (db w) ++ [t])) w.

Definition add_transaction (current_user : Z) (req : request) (uuid4 : N) (new_id now : Z)
  : M response :=
  let* choices := category_choices current_user in
  if validate_on_submit req choices then
    let* receipt_filename :=
      match receipt_data (form req) with
      | Some file => save_receipt_file file current_user uuid4
      | None => ret None
      end in
    commit_add (new_transaction (form req) receipt_filename current_user new_id now) ;;
    flash "Transaction added successfully!" "success" ;;
    ret (redirect "main.transactions")
  else ret (render_template "add_transaction.html").


(** * Properties *)

(** ** Sums and filters *)

Lemma total_app (xs ys : list Qc) : total (xs ++ ys) = (total xs + total ys)%Qc.
Proof.
  induction xs as [|x xs IH]; simpl.
  - now rewrite Qcplus_0_l.
  - rewrite IH. apply Qcplus_assoc.
Qed.

Lemma total_Permutation (xs ys : list Qc) : Permutation xs ys -> total xs = total ys.
Proof.
  induction 1 as [|x xs ys _ IH|x y xs|xs ys zs _ IH1 _ IH2]; simpl.
  - reflexivity.
  - now rewrite IH.
  - ring.
  - now rewrite IH1.
Qed.

Lemma or_0_func_sum (xs : list Qc) : or_0 (func_sum xs) = total xs.
Proof.
  destruct xs as [|x xs]; [reflexivity|].
  unfold func_sum, or_0. destruct (decide (total (x :: xs) = 0%Qc)) as [E|_]; congruence.
Qed.

Lemma filter_Permutation_bool {A} (f : A -> bool) (xs ys : list A) :
  Permutation xs ys -> Permutation (List.filter f xs) (List.filter f ys).
Proof.
  induction 1 as [|x xs ys _ IH|x y xs|xs ys zs _ IH1 _ IH2]; simpl.
  - constructor.
  - destruct (f x); [now constructor | assumption].
  - destruct (f x), (f y); try reflexivity. apply perm_swap.
  - now transitivity (List.filter f ys).
Qed.

Lemma filter_map_comm {A B} (g : A -> B) (f : B -> bool) (xs : list A) :
  List.filter f (map g xs) = map g (List.filter (fun a => f (g a)) xs).
Proof.
  induction xs as [|x xs IH]; simpl; [reflexivity|].
  destruct (f (g x)); simpl; now rewrite IH.
Qed.

Lemma filter_nil_of_all_false {A} (f : A -> bool) (xs : list A) :
  (forall x, In x xs -> f x = false) -> List.filter f xs = [].
Proof.
  induction xs as [|x xs IH]; simpl; intros H; [reflexivity|].
  rewrite (H x (or_introl eq_refl)). apply IH. intros y Hy. apply H. now right.
Qed.

(** ** The balance *)

Lemma get_balance_total (d : database) (user : Z) :
  get_balance d user
  = (total (amounts (List.filter (filter_by user "income") (transactions d)))
     - total (amounts (List.filter (filter_by user "expense") (transactions d))))%Qc.
Proof. unfold get_balance. now rewrite !or_0_func_sum. Qed.

(** C1.  The balance of a user is the sum of the amounts of the user's income
    transactions minus the sum of the amounts of the user's expense
    transactions, over the whole table whatever the dates; it is 0 for a
    user without transactions, and it does not depend on the order in which
    the rows were inserted. *)
Theorem computeBalance_signed_total (d : database) (user : Z) :
  computeBalance d user
  = (total (amounts (List.filter (filter_by user "income") (transactions d)))
     - total (amounts (List.filter (filter_by user "expense") (transactions d))))%Qc
  /\ (forall f : Transaction.t -> date,
        computeBalance (with_transactions d (map (fun t => set_date (f t) t) (transactions d))) user
        = computeBalance d user)
  /\ ((forall t, In t (transactions d) -> Transaction.user_id t <> user) ->
      computeBalance d user = 0%Qc)
  /\ (forall ts, Permutation (transactions d) ts ->
        computeBalance (with_transactions d ts) user = computeBalance d user).
Proof.
  unfold computeBalance. split; [apply get_balance_total|]. split; [|split].
  - intros f. rewrite !get_balance_total. simpl.
    unfold amounts. rewrite !filter_map_comm, !map_map. reflexivity.
  - intros Hnone. rewrite get_balance_total.
    rewrite !filter_nil_of_all_false; [reflexivity| |];
      intros t Ht; unfold filter_by;
      (destruct (Z.eqb_spec (Transaction.user_id t) user) as [E|_];
       [now apply Hnone in Ht | reflexivity]).
  - intros ts Hp. rewrite !get_balance_total. simpl.
    assert (Hty : forall ty,
      total (amounts (List.filter (filter_by user ty) ts))
      = total (amounts (List.filter (filter_by user ty) (transactions d)))).
    { intros ty. apply total_Permutation, Permutation_map, filter_Permutation_bool.
      now symmetry. }
    now rewrite !Hty.
Qed.

(** ** The monthly summary *)

Lemma dated_filters (user : Z) (ty : string) (m y : Z) (t : Transaction.t) :
  dated user ty m y t = filter_by user ty t && in_month m y t.
Proof.
  clear secure_filename UPLOAD_FOLDER.
  unfold dated, filter_by, in_month, extract_month, extract_year.
  destruct (Z.eqb_spec (Transaction.user_id t) user),
           (String.eqb_spec (Transaction.transaction_type t) ty),
           (Z.eqb_spec (month (Transaction.date t)) m),
           (Z.eqb_spec (year (Transaction.date t)) y); simpl;
    first [ apply bool_decide_eq_true; tauto | apply bool_decide_eq_false; tauto ].
Qed.

Lemma filter_filter_andb {A} (f g : A -> bool) (xs : list A) :
  List.filter g (List.filter f xs) = List.filter (fun a => f a && g a) xs.
Proof.
  induction xs as [|x xs IH]; simpl; [reflexivity|].
  destruct (f x); simpl; [destruct (g x)|]; now rewrite IH.
Qed.

Lemma monthly_sum_total (ty : string) (d : database) (user m y : Z) :
  monthly_sum ty d user m y
  = total (amounts (List.filter (dated user ty m y) (transactions d))).
Proof.
  unfold monthly_sum. rewrite or_0_func_sum, filter_filter_andb.
  do 2 f_equal. apply List.filter_ext. intros t. now rewrite dated_filters.
Qed.

Lemma computeMonthlySummary_totals (d : database) (user m y : Z) :
  computeMonthlySummary d user m y
  = (total (amounts (List.filter (dated user "income" m y) (transactions d))),
     total (amounts (List.filter (dated user "expense" m y) (transactions d)))).
Proof.
  unfold computeMonthlySummary, monthly_income, monthly_expenses.
  now rewrite !monthly_sum_total.
Qed.

Lemma dated_other_month (user : Z) (ty : string) (m y : Z) (t : Transaction.t) :
  month (Transaction.date t) <> m \/ year (Transaction.date t) <> y ->
  dated user ty m y t = false.
Proof.
  clear secure_filename UPLOAD_FOLDER.
  intros H. apply bool_decide_eq_false. tauto. Qed.

(** C2.  The monthly summary of a user for month [m] of year [y] is the pair
    of the sums of the amounts of the user's income and expense rows whose
    date column has exactly that month and year.  A row dated in any other
    month (or year) is not counted: dropping it leaves the summary as it
    is.  The creation time stamp plays no part.  When no row of the user
    is dated in the month, the summary is (0, 0). *)
Theorem computeMonthlySummary_by_date (d : database) (user m y : Z) :
  computeMonthlySummary d user m y
  = (total (amounts (List.filter (dated user "income" m y) (transactions d))),
     total (amounts (List.filter (dated user "expense" m y) (transactions d))))
  /\ (forall pre t post,
        transactions d = pre ++ t :: post ->
        month (Transaction.date t) <> m \/ year (Transaction.date t) <> y ->
        computeMonthlySummary (with_transactions d (pre ++ post)) user m y
        = computeMonthlySummary d user m y)
  /\ (forall f : Transaction.t -> Z,
        computeMonthlySummary
          (with_transactions d (map (fun t => set_created_at (f t) t) (transactions d)))
          user m y
        = computeMonthlySummary d user m y)
  /\ ((forall t, In t (transactions d) -> Transaction.user_id t = user ->
         month (Transaction.date t) <> m \/ year (Transaction.date t) <> y) ->
      computeMonthlySummary d user m y = (0%Qc, 0%Qc)).
Proof.
  split; [apply computeMonthlySummary_totals|]. split; [|split].
  - intros pre t post E Hout. rewrite !computeMonthlySummary_totals, E. simpl.
    rewrite !List.filter_app. simpl.
    now rewrite !(dated_other_month _ _ _ _ _ Hout).
  - intros f. rewrite !computeMonthlySummary_totals. simpl.
    unfold amounts. rewrite !filter_map_comm, !map_map. reflexivity.
  - intros Hnone. rewrite computeMonthlySummary_totals.
    rewrite !filter_nil_of_all_false; [reflexivity| |];
      intros t Ht; apply bool_decide_eq_false; intros (Hu & _ & Hm & Hy);
      destruct (Hnone t Ht Hu); contradiction.
Qed.

(** ** The category breakdown *)

Lemma expense_in_dated (user m y : Z) (t : Transaction.t) :
  expense_in user m y t = dated user "expense" m y t.
Proof.
  rewrite dated_filters. unfold expense_in, filter_by, in_month.
  now rewrite <- !andb_assoc.
Qed.

Lemma In_join (d : database) (c : Category.t) (t : Transaction.t) :
  In (c, t) (join d)
  <-> In c (categories d) /\ In t (transactions d)
      /\ Transaction.category_id t = Some (Category.id c).
Proof.
  unfold join. rewrite <- !list_elem_of_In, list_elem_of_bind. split.
  - intros (c' & Hin & Hc'). apply list_elem_of_bind in Hin as (t' & Hin & Ht').
    destruct (decide _) as [E|]; [|now apply not_elem_of_nil in Hin].
    apply list_elem_of_singleton in Hin. injection Hin as -> ->. auto.
  - intros (Hc & Ht & E). exists c. split; [|assumption].
    apply list_elem_of_bind. exists t. split; [|assumption].
    rewrite decide_True by assumption. now apply list_elem_of_singleton.
Qed.

Lemma In_group_by_sum (rows : list (string * Qc)) (n : string) (s : Qc) :
  In (n, s) (group_by_sum rows)
  <-> In n (map fst rows)
      /\ s = total (map snd (List.filter (fun r => String.eqb (fst r) n) rows)).
Proof.
  unfold group_by_sum. rewrite in_map_iff. split.
  - intros (k & E & Hk). injection E as -> ->. split; [|reflexivity].
    rewrite <- list_elem_of_In in *. now rewrite elem_of_remove_dups in Hk.
  - intros (Hn & ->). exists n. split; [reflexivity|].
    rewrite <- list_elem_of_In in *. now rewrite elem_of_remove_dups.
Qed.

Lemma group_by_sum_NoDup (rows : list (string * Qc)) : NoDup (map fst (group_by_sum rows)).
Proof.
  unfold group_by_sum. rewrite map_map. simpl. rewrite map_id.
  apply NoDup_remove_dups.
Qed.

Lemma filter_block (q : Category.t * Transaction.t -> bool) (ts : list Transaction.t)
    (c : Category.t) :
  List.filter q (block ts c)
  = map (fun t => (c, t)) (List.filter (fun t => in_category c t && q (c, t)) ts).
Proof.
  unfold block, in_category. induction ts as [|t ts IH]; [reflexivity|].
  rewrite bind_cons, List.filter_app, IH. simpl.
  destruct (decide (Transaction.category_id t = Some (Category.id c))) as [E|E].
  - rewrite bool_decide_eq_true_2 by assumption. simpl. now destruct (q (c, t)).
  - now rewrite bool_decide_eq_false_2 by assumption.
Qed.

Lemma filter_blocks (q : Category.t * Transaction.t -> bool) (ts : list Transaction.t)
    (c : Category.t) (cs : list Category.t) :
  NoDup cs -> In c cs ->
  (forall c', In c' cs -> c' <> c -> List.filter q (block ts c') = []) ->
  List.filter q (cs ≫= block ts) = List.filter q (block ts c).
Proof.
  rewrite NoDup_ListNoDup.
  induction cs as [|a cs IH]; [intros _ []|].
  intros Hnd Hin Hothers. apply List.NoDup_cons_iff in Hnd as [Ha Hnd].
  rewrite bind_cons, List.filter_app.
  assert (Hrest : forall cs', ~ In c cs' ->
            (forall c', In c' cs' -> c' <> c -> List.filter q (block ts c') = []) ->
            List.filter q (cs' ≫= block ts) = []).
  { clear. induction cs' as [|b cs' IH']; [reflexivity|]. intros Hn Ho.
    rewrite bind_cons, List.filter_app, IH'.
    - rewrite Ho; [reflexivity|now left|]. intros ->. apply Hn. now left.
    - intros H. apply Hn. now right.
    - intros c' Hc'. apply Ho. now right. }
  destruct Hin as [->|Hin].
  - rewrite Hrest; [now rewrite app_nil_r|assumption|].
    intros c' Hc'. apply Hothers. now right.
  - rewrite (Hothers a); [|now left|intros ->; contradiction]. simpl.
    apply IH; [assumption..|]. intros c' Hc'. apply Hothers. now right.
Qed.

Lemma filter_nil_elim {A} (f : A -> bool) (xs : list A) :
  List.filter f xs <> [] -> exists x, In x xs /\ f x = true.
Proof.
  induction xs as [|x xs IH]; simpl; [congruence|].
  destruct (f x) eqn:E; [exists x; auto|].
  intros H. destruct (IH H) as (z & Hz & Ez). exists z. auto.
Qed.

Lemma dated_user (user : Z) (ty : string) (m y : Z) (t : Transaction.t) :
  dated user ty m y t = true -> Transaction.user_id t = user.
Proof.
  clear secure_filename UPLOAD_FOLDER.
  intros H. apply bool_decide_eq_true in H. tauto. Qed.

Lemma join_uncategorized (d : database) (pre post : list Transaction.t) (t : Transaction.t) :
  transactions d = pre ++ t :: post ->
  Transaction.category_id t = None ->
  join (with_transactions d (pre ++ post)) = join d.
Proof.
  intros E Hnull. unfold join. rewrite E. simpl.
  apply list_bind_ext; [|reflexivity]. intros c.
  rewrite !bind_app, bind_cons, Hnull.
  now rewrite decide_False by discriminate.
Qed.

Lemma category_sum (d : database) (user m y : Z) (c : Category.t) :
  NoDup (map Category.id (categories d)) ->
  (forall c1 c2, In c1 (categories d) -> In c2 (categories d) ->
     Category.user_id c1 = Category.user_id c2 -> Category.name c1 = Category.name c2 ->
     c1 = c2) ->
  (forall c1 t, In c1 (categories d) -> In t (transactions d) ->
     Transaction.category_id t = Some (Category.id c1) ->
     Category.user_id c1 = Transaction.user_id t) ->
  In c (categories d) ->
  (exists t, In t (transactions d) /\ in_category c t = true
             /\ dated user "expense" m y t = true) ->
  In (Category.name c,
      total (amounts (List.filter
               (fun t => dated user "expense" m y t && in_category c t) (transactions d))))
     (category_expenses d user m y).
Proof.
  intros Hids Hnames Hown Hc (t0 & Ht0 & Hcat0 & Hq0).
  apply bool_decide_eq_true in Hcat0.
  unfold category_expenses. apply In_group_by_sum. split.
  - apply in_map_iff. exists (Category.name c, Transaction.amount t0). split; [reflexivity|].
    apply in_map_iff. exists (c, t0). split; [reflexivity|].
    apply List.filter_In. split; [now apply In_join|].
    simpl. now rewrite expense_in_dated.
  - rewrite filter_map_comm, filter_filter_andb, map_map. simpl.
    change (join d) with (categories d ≫= block (transactions d)).
    rewrite (filter_blocks _ _ c); [|now apply NoDup_fmap_1 in Hids|assumption|].
    + rewrite filter_block, map_map. simpl. unfold amounts. do 2 f_equal.
      apply List.filter_ext. intros t.
      rewrite String.eqb_refl, expense_in_dated, andb_true_r. apply andb_comm.
    + intros c' Hc' Hne.
      destruct (List.filter _ (block (transactions d) c')) eqn:E; [reflexivity|].
      exfalso. apply Hne.
      assert (Hex : List.filter
                (fun ct => expense_in user m y (snd ct)
                           && String.eqb (Category.name (fst ct)) (Category.name c))
                (block (transactions d) c') <> []) by (rewrite E; discriminate).
      rewrite filter_block in Hex.
      assert (Hex' : List.filter
                (fun t => in_category c' t
                          && (expense_in user m y t
                              && String.eqb (Category.name c') (Category.name c)))
                (transactions d) <> []).
      { intros Hnil. apply Hex. simpl in *. now rewrite Hnil. }
      apply filter_nil_elim in Hex' as (t & Ht & Hq).
      apply andb_true_iff in Hq as [Hcat Hq]. apply andb_true_iff in Hq as [Hq Hn].
      apply bool_decide_eq_true in Hcat. apply String.eqb_eq in Hn.
      rewrite expense_in_dated in Hq.
      apply Hnames; [assumption..| |assumption].
      rewrite (Hown c' t), (Hown c t0) by assumption.
      now rewrite (dated_user _ _ _ _ _ Hq), (dated_user _ _ _ _ _ Hq0).
Qed.

(** C3.  The category breakdown of a user for a month holds at most one pair
    per category name, and every pair comes from a stored category that a
    qualifying expense row of the month refers to: a category without such
    a row does not appear, and rows with a null category make no entry.
    In a database that keeps the data model (category ids are unique, a
    user's category names are unique, a row refers to a category of its own
    user), every category with a qualifying row has its pair, with the sum
    of the amounts of its qualifying rows.  Dropping a row with a null
    category leaves the breakdown as it is, while the monthly expense total
    counts the row's amount when the row qualifies. *)
Theorem computeCategoryBreakdown_per_category (d : database) (user m y : Z) :
  NoDup (map fst (computeCategoryBreakdown d user m y))
  /\ (forall n s, In (n, s) (computeCategoryBreakdown d user m y) ->
        exists c t, In c (categories d) /\ In t (transactions d) /\ Category.name c = n
                    /\ Transaction.category_id t = Some (Category.id c)
                    /\ dated user "expense" m y t = true)
  /\ (NoDup (map Category.id (categories d)) ->
      (forall c1 c2, In c1 (categories d) -> In c2 (categories d) ->
         Category.user_id c1 = Category.user_id c2 ->
         Category.name c1 = Category.name c2 -> c1 = c2) ->
      (forall c1 t, In c1 (categories d) -> In t (transactions d) ->
         Transaction.category_id t = Some (Category.id c1) ->
         Category.user_id c1 = Transaction.user_id t) ->
      forall c, In c (categories d) ->
        (exists t, In t (transactions d) /\ in_category c t = true
                   /\ dated user "expense" m y t = true) ->
        In (Category.name c,
            total (amounts (List.filter
                     (fun t => dated user "expense" m y t && in_category c t)
                     (transactions d))))
           (computeCategoryBreakdown d user m y))
  /\ (forall pre t post,
        transactions d = pre ++ t :: post ->
        Transaction.category_id t = None ->
        computeCategoryBreakdown (with_transactions d (pre ++ post)) user m y
        = computeCategoryBreakdown d user m y
        /\ (dated user "expense" m y t = true ->
            snd (computeMonthlySummary d user m y)
            = (snd (computeMonthlySummary (with_transactions d (pre ++ post)) user m y)
               + Transaction.amount t)%Qc)).
Proof.
  unfold computeCategoryBreakdown. split; [apply group_by_sum_NoDup|]. split; [|split].
  - intros n s Hin. apply In_group_by_sum in Hin as [Hn _].
    rewrite map_map in Hn. apply in_map_iff in Hn as ([c t] & <- & Hct).
    apply List.filter_In in Hct as [Hj Hq]. apply In_join in Hj as (Hc & Ht & E).
    exists c, t. simpl in *. rewrite expense_in_dated in Hq. auto.
  - intros Hids Hnames Hown c Hc Hex. now apply category_sum.
  - intros pre t post E Hnull. split.
    + unfold category_expenses. now rewrite (join_uncategorized d pre post t).
    + intros Hq. rewrite !computeMonthlySummary_totals. simpl. rewrite E.
      rewrite !List.filter_app. simpl. rewrite Hq. unfold amounts.
      rewrite !map_app. simpl. rewrite !total_app. simpl. ring.
Qed.

(** [dashboard] shows these three aggregates and the balance, for the month
    and the year of the request. *)
Lemma dashboard_aggregates (d : database) (current_user : Z) (now : date) :
  dashboard d current_user now
  = (recent_transactions d current_user,
     fst (computeMonthlySummary d current_user (month now) (year now)),
     snd (computeMonthlySummary d current_user (month now) (year now)),
     computeCategoryBreakdown d current_user (month now) (year now),
     computeBalance d current_user).
Proof. reflexivity. Qed.

(** ** Strings and paths *)

Lemma contains_app (c : ascii) (a b : string) :
  contains c (a +:+ b) = contains c a || contains c b.
Proof.
  induction a as [|x a IH]; simpl; [reflexivity|].
  now rewrite IH, orb_assoc.
Qed.

Lemma rsplit_without (c : ascii) (s : string) : contains c s = false -> rsplit c s = [s].
Proof.
  induction s as [|x s IH]; simpl; [reflexivity|].
  intros H. apply orb_false_iff in H as [Hx Hs].
  now rewrite IH, Hx.
Qed.

Lemma rsplit_at_last (c : ascii) (stem ext : string) :
  contains c ext = false -> rsplit c (stem +:+ String c ext) = [stem; ext].
Proof.
  intros Hext. induction stem as [|x stem IH]; simpl.
  - now rewrite (rsplit_without c ext Hext), Ascii.eqb_refl.
  - now rewrite IH.
Qed.

Lemma rsplit_with (c : ascii) (s : string) :
  contains c s = true ->
  exists stem ext, s = stem +:+ String c ext /\ contains c ext = false.
Proof.
  induction s as [|x s IH]; simpl; [discriminate|].
  destruct (contains c s) eqn:Hs.
  - intros _. destruct (IH eq_refl) as (stem & ext & -> & Hext).
    now exists (String x stem), ext.
  - rewrite orb_false_r. intros Hx. apply Ascii.eqb_eq in Hx as ->.
    now exists EmptyString, s.
Qed.

Lemma length_app (a b : string) :
  String.length (a +:+ b) = (String.length a + String.length b)%nat.
Proof. induction a as [|x a IH]; simpl; [reflexivity|now rewrite IH]. Qed.

Lemma substring_all (s : string) : String.substring 0 (String.length s) s = s.
Proof. induction s as [|x s IH]; simpl; [reflexivity|now rewrite IH]. Qed.

Lemma substring_app_l (a b : string) : String.substring 0 (String.length a) (a +:+ b) = a.
Proof.
  induction a as [|x a IH]; simpl; [now destruct b|now rewrite IH].
Qed.

Lemma substring_app_r (a b : string) :
  String.substring (String.length a) (String.length b) (a +:+ b) = b.
Proof. induction a as [|x a IH]; simpl; [apply substring_all|assumption]. Qed.

Lemma contains_substring (c : ascii) (s : string) (i m : nat) :
  contains c s = false -> contains c (String.substring i m s) = false.
Proof.
  revert i m. induction s as [|x s IH]; intros i m H; simpl.
  - now destruct i, m.
  - simpl in H. apply orb_false_iff in H as [Hx Hs].
    destruct i as [|i]; [destruct m as [|m]|]; simpl; [reflexivity| |now apply IH].
    now rewrite Hx, IH.
Qed.

Lemma rfind_from_without (c : ascii) (s : string) (i : Z) :
  contains c s = false -> rfind_from c s i = -1.
Proof.
  revert i. induction s as [|x s IH]; intros i H; simpl; [reflexivity|].
  simpl in H. apply orb_false_iff in H as [Hx Hs].
  now rewrite IH, Hx.
Qed.

Lemma rfind_from_at_last (c : ascii) (a e : string) (i : Z) :
  0 <= i -> contains c e = false ->
  rfind_from c (a +:+ String c e) i = i + Z.of_nat (String.length a).
Proof.
  intros Hi He. revert i Hi. induction a as [|x a IH]; intros i Hi; simpl String.length.
  - simpl. rewrite (rfind_from_without c e _ He), Ascii.eqb_refl. simpl. lia.
  - change (String x a +:+ String c e) with (String x (a +:+ String c e)).
    cbn [rfind_from]. rewrite IH by lia.
    destruct (Z.leb_spec 0 (i + 1 + Z.of_nat (String.length a))); lia.
Qed.

Lemma last_char_app (a : string) (x : ascii) (b : string) :
  last_char (a +:+ String x b) = last_char (String x b).
Proof.
  induction a as [|y a IH]; [reflexivity|].
  change (String y a +:+ String x b) with (String y (a +:+ String x b)).
  cbn [last_char]. rewrite IH.
  destruct (a +:+ String x b) eqn:E; [|reflexivity].
  destruct a; discriminate.
Qed.

(** Decimal numerals hold neither a dot nor a separator, and start with a
    digit or the sign. *)
Lemma string_of_uint_plain (c : ascii) (u : Decimal.uint) :
  c = "."%char \/ c = "/"%char -> contains c (NilEmpty.string_of_uint u) = false.
Proof.
  intros [-> | ->]; induction u; simpl; auto.
Qed.

Lemma str_plain (c : ascii) (n : Z) :
  c = "."%char \/ c = "/"%char -> contains c (str n) = false.
Proof.
  intros Hc. unfold str, NilZero.string_of_int.
  destruct (Z.to_int n) as [u|u]; [|cbn [contains]; rewrite orb_false_iff; split;
    [destruct Hc as [-> | ->]; reflexivity|]];
    (unfold NilZero.string_of_uint; destruct u;
     try (destruct Hc as [-> | ->]; reflexivity);
     apply (string_of_uint_plain c _ Hc)).
Qed.

Lemma str_leading (n : Z) : exists a rest, str n = String a rest /\ leading a.
Proof.
  unfold str, NilZero.string_of_int, leading.
  destruct (Z.to_int n) as [u|u].
  - unfold NilZero.string_of_uint. destruct u; simpl; eexists _, _; (split; [reflexivity|]);
      repeat split; discriminate.
  - eexists _, _; (split; [reflexivity|]); repeat split; discriminate.
Qed.

Lemma hex_digit_plain (c : ascii) (d : N) :
  c = "."%char \/ c = "/"%char -> Ascii.eqb (hex_digit d) c = false.
Proof.
  intros Hc. unfold hex_digit.
  destruct d as [|p]; [destruct Hc as [-> | ->]; reflexivity|].
  do 4 (try destruct p as [p|p|]); destruct Hc as [-> | ->]; reflexivity.
Qed.

Lemma hex_digits_plain (c : ascii) (k : nat) (n : N) (acc : string) :
  c = "."%char \/ c = "/"%char -> contains c acc = false ->
  contains c (hex_digits k n acc) = false.
Proof.
  intros Hc. revert n acc. induction k as [|k IH]; intros n acc Hacc; simpl; [assumption|].
  apply IH. simpl. now rewrite hex_digit_plain, Hacc.
Qed.

Lemma string_app_assoc (a b c : string) : (a +:+ b) +:+ c = a +:+ (b +:+ c).
Proof.
  induction a as [|x a IH]; [reflexivity|].
  change ((String x a +:+ b) +:+ c) with (String x ((a +:+ b) +:+ c)).
  now rewrite IH.
Qed.

Lemma lower_ascii_plain (a c : ascii) :
  c = "."%char \/ c = "/"%char -> Ascii.eqb (lower_ascii a) c = Ascii.eqb a c.
Proof.
  intros [-> | ->]; destruct a as [[] [] [] [] [] [] [] []]; reflexivity.
Qed.

Lemma contains_lower (c : ascii) (s : string) :
  c = "."%char \/ c = "/"%char -> contains c (lower s) = contains c s.
Proof.
  intros Hc. induction s as [|x s IH]; simpl; [reflexivity|].
  now rewrite IH, lower_ascii_plain.
Qed.

(** An extension that lowers to one of the known ones is a dot followed by
    letters. *)
Lemma known_extension_shape (ext : string) :
  In (lower ext) [".png"; ".jpg"; ".jpeg"; ".pdf"] ->
  exists e, ext = String "." e /\ contains "." e = false /\ contains "/" e = false.
Proof.
  clear secure_filename UPLOAD_FOLDER.
  intros Hin. destruct ext as [|a e]; [simpl in Hin; intuition discriminate|].
  exists e.
  assert (Ha : Ascii.eqb (lower_ascii a) "." = true
               /\ contains "." (lower e) = false /\ contains "/" (lower e) = false).
  { simpl in Hin.
    destruct Hin as [H|[H|[H|[H|[]]]]]; injection H as H1 H2; rewrite <- H1, <- H2;
      repeat split; reflexivity. }
  destruct Ha as (Ha & Hd & Hs).
  rewrite lower_ascii_plain in Ha by auto. apply Ascii.eqb_eq in Ha as ->.
  rewrite contains_lower in Hd, Hs by auto. auto.
Qed.

Lemma splitext_stem_ext (stem e : string) :
  (exists a rest, stem = String a rest /\ leading a) ->
  contains "." stem = false -> contains "/" stem = false ->
  contains "." e = false -> contains "/" e = false ->
  splitext (stem +:+ String "." e) = (stem, String "." e).
Proof.
  intros (a & rest & -> & Ha & _) Hd Hs Hde Hse.
  unfold splitext, rfind.
  assert (Hall : contains "/" (String a rest +:+ String "." e) = false).
  { rewrite contains_app, Hs. cbn [orb contains]. now rewrite Hse. }
  rewrite (rfind_from_without "/") by assumption.
  rewrite rfind_from_at_last by (lia || assumption).
  set (stem := String a rest) in *.
  replace (Z.to_nat (-1 + 1)) with 0%nat by reflexivity.
  replace (Z.to_nat (0 + Z.of_nat (String.length stem) - (-1 + 1)))
    with (S (String.length rest)) by (subst stem; simpl String.length; lia).
  replace (Z.to_nat (0 + Z.of_nat (String.length stem))) with (String.length stem) by lia.
  destruct (Z.ltb_spec (-1) (0 + Z.of_nat (String.length stem))) as [_|]; [|lia].
  assert (Hskip : skip_leading_dots (stem +:+ String "." e) 0 (S (String.length rest)) = true).
  { subst stem. simpl. destruct (Ascii.eqb_spec a "."); [contradiction|reflexivity]. }
  rewrite Hskip. simpl andb. cbv iota.
  rewrite substring_app_l.
  replace (String.length (stem +:+ String "." e) - String.length stem)%nat
    with (String.length (String "." e)) by (rewrite length_app; lia).
  now rewrite substring_app_r.
Qed.

Lemma receipt_stem_plain (c : ascii) (user_id : Z) (uuid4 : N) :
  c = "."%char \/ c = "/"%char -> contains c (receipt_stem user_id uuid4) = false.
Proof.
  intros Hc. unfold receipt_stem. rewrite !contains_app, str_plain by assumption.
  rewrite contains_substring by (now apply hex_digits_plain).
  destruct Hc as [-> | ->]; reflexivity.
Qed.

Lemma receipt_stem_leading (user_id : Z) (uuid4 : N) :
  exists a rest, receipt_stem user_id uuid4 = String a rest /\ leading a.
Proof.
  unfold receipt_stem. destruct (str_leading user_id) as (a & rest & -> & Ha).
  now exists a, (rest +:+ "_" +:+ String.substring 0 8 (hex uuid4)).
Qed.

(** The generated name splits back into its stem and its extension. *)
Lemma splitext_unique_filename (user_id : Z) (uuid4 : N) (ext : string) :
  In (lower ext) [".png"; ".jpg"; ".jpeg"; ".pdf"] ->
  splitext (receipt_stem user_id uuid4 +:+ ext) = (receipt_stem user_id uuid4, ext).
Proof.
  intros Hext. destruct (known_extension_shape ext Hext) as (e & -> & Hd & Hs).
  apply splitext_stem_ext; auto using receipt_stem_leading, receipt_stem_plain.
Qed.

Lemma join_step_relative (path : string) (a : ascii) (rest : string) :
  a <> "/"%char -> join_step path (String a rest) = dir_prefix path +:+ String a rest.
Proof.
  intros Ha. unfold join_step, dir_prefix, startswith.
  change (String.prefix "/" (String a rest))
    with (if ascii_dec "/" a then String.prefix "" rest else false).
  destruct (ascii_dec "/" a) as [E|_]; [now subst|].
  destruct (_ || _); [reflexivity|]. now rewrite string_app_assoc.
Qed.

Lemma receipt_path_app (user_id : Z) (a : ascii) (rest : string) :
  a <> "/"%char ->
  receipt_path user_id (String a rest)
  = dir_prefix (join_step UPLOAD_FOLDER (str user_id)) +:+ String a rest.
Proof. intros Ha. unfold receipt_path. simpl. now apply join_step_relative. Qed.

Lemma thumbnail_path_app (user_id : Z) (a : ascii) (rest : string) :
  a <> "/"%char ->
  thumbnail_path user_id (String a rest)
  = dir_prefix (join_step UPLOAD_FOLDER (str user_id)) +:+ "thumbnails/" +:+ String a rest.
Proof.
  intros Ha. unfold thumbnail_path. simpl.
  rewrite (join_step_relative _ "t" "humbnails") by discriminate.
  rewrite join_step_relative by assumption.
  set (p := dir_prefix (join_step UPLOAD_FOLDER (str user_id))). unfold dir_prefix.
  replace (endswith_sep (p +:+ "thumbnails")) with false.
  - replace (String.eqb (p +:+ "thumbnails") "") with false.
    + simpl. rewrite !string_app_assoc. reflexivity.
    + symmetry. apply String.eqb_neq. destruct p; discriminate.
  - unfold endswith_sep.
    change "thumbnails" with ("thumbnail" +:+ "s").
    rewrite <- string_app_assoc, last_char_app. reflexivity.
Qed.

(** A receipt and a thumbnail never share a path when the receipt name
    starts like a decimal numeral. *)
Lemma receipt_path_not_thumbnail (user_id : Z) (a b : ascii) (r1 r2 : string) :
  leading a -> b <> "/"%char ->
  receipt_path user_id (String a r1) <> thumbnail_path user_id (String b r2).
Proof.
  intros (_ & Ha & Ht) Hb. rewrite receipt_path_app, thumbnail_path_app by assumption.
  intros E. apply String.app_inj in E. injection E as E _. now apply Ht.
Qed.

(** ** Thumbnails *)

Lemma Qfloor_frac (n : Z) (d : positive) : Qfloor (n # d) = n / Z.pos d.
Proof. reflexivity. Qed.

Lemma Qceiling_frac (n : Z) (d : positive) : Qceiling (n # d) = - (- n / Z.pos d).
Proof. reflexivity. Qed.

Lemma round_aspect_frac (n : Z) (d : positive) (key : Z -> Q) :
  round_aspect (n # d) key = Z.max (n / Z.pos d) 1
  \/ round_aspect (n # d) key = Z.max (- (- n / Z.pos d)) 1.
Proof.
  unfold round_aspect. rewrite Qfloor_frac, Qceiling_frac.
  destruct (Qle_bool _ _); auto.
Qed.

Lemma round_aspect_range (n : Z) (d : positive) (key : Z -> Q) (bound : Z) :
  0 < bound -> 0 <= n -> n <= bound * Z.pos d ->
  1 <= round_aspect (n # d) key <= bound.
Proof.
  intros Hb Hn Hle.
  assert (Hf : n / Z.pos d <= bound) by (apply Z.div_le_upper_bound; lia).
  assert (Hc : - bound <= - n / Z.pos d) by (apply Z.div_le_lower_bound; lia).
  destruct (round_aspect_frac n d key) as [-> | ->]; lia.
Qed.

Lemma Image_thumbnail_200 (i : Image) :
  fits 200 (Image_thumbnail i (200, 200))
  /\ keeps_aspect 200 i (Image_thumbnail i (200, 200))
  /\ img_writable (Image_thumbnail i (200, 200)) = img_writable i.
Proof.
  clear secure_filename UPLOAD_FOLDER.
  destruct i as [w h wr]. unfold Image_thumbnail, preserve_aspect_ratio, fits, keeps_aspect.
  cbn [img_width img_height img_writable].
  destruct (Z.leb_spec (Z.pos w) 200) as [Hw|Hw], (Z.leb_spec (Z.pos h) 200) as [Hh|Hh];
    cbn [andb]; [unfold fits; cbn; intuition lia| | |].
  all: change (inject_Z 200 / inject_Z 200)%Q with (200 # 200)%Q.
  all: change (inject_Z 200 * (Z.pos w # h))%Q with (200 * Z.pos w # h)%Q.
  all: change (inject_Z 200 / (Z.pos w # h))%Q with (200 * Z.pos h # w)%Q.
  all: destruct (Qle_bool (Z.pos w # h) (200 # 200)) eqn:Hcmp;
    [apply Qle_bool_iff in Hcmp | apply not_true_iff_false in Hcmp;
      rewrite Qle_bool_iff in Hcmp]; unfold Qle in Hcmp; cbn [Qnum Qden] in Hcmp;
    cbn [img_width img_height img_writable].
  all: match goal with
       | |- context [round_aspect (?n # ?d) ?key] =>
           pose proof (round_aspect_range n d key 200) as Hr;
           pose proof (round_aspect_frac n d key) as Hs;
           set (r := round_aspect (n # d) key) in *
       end.
  all: assert (Hr' : 1 <= r <= 200) by (apply Hr; lia).
  all: rewrite (Z2Pos.id r) by lia.
  all: split; [lia|]; split; [|reflexivity].
  all: unfold fits; cbn [img_width img_height].
  all: first [ right; left; split; [lia|split; [lia|split; [reflexivity|exact Hs]]]
             | right; right; split; [lia|split; [lia|split; [reflexivity|exact Hs]]] ].
Qed.

(** ** Storing a receipt *)

Lemma create_thumbnail_returns (file_path : string) (user_id : Z) (fname : string) (w : world) :
  fst (create_thumbnail file_path user_id fname w) = Ok tt.
Proof.
  unfold create_thumbnail, create_thumbnail_try, try_except, bind, Image_open,
    os_makedirs, set_dirs, Image_save, set_files, print.
  destruct (files w !! file_path) as [[wd ht wr| bytes]|]; try reflexivity.
  destruct (splitext fname) as [name ext]. cbn.
  destruct (img_writable _); reflexivity.
Qed.

Lemma unique_filename_assoc (file : FileStorage) (user_id : Z) (uuid4 : N) :
  str user_id +:+ "_" +:+ String.substring 0 8 (hex uuid4)
    +:+ snd (splitext (secure_filename (filename file)))
  = unique_filename file user_id uuid4.
Proof. unfold unique_filename, receipt_stem. now rewrite !string_app_assoc. Qed.

Lemma save_receipt_file_refused (file : FileStorage) (user_id : Z) (uuid4 : N) (w : world) :
  file_bool file && allowed_file (filename file) = false ->
  save_receipt_file file user_id uuid4 w = (Ok None, w).
Proof. intros H. unfold save_receipt_file. now rewrite H. Qed.

Lemma save_receipt_file_accepted (file : FileStorage) (user_id : Z) (uuid4 : N) (w : world) :
  file_bool file && allowed_file (filename file) = true ->
  let ext := snd (splitext (secure_filename (filename file))) in
  let fname := unique_filename file user_id uuid4 in
  save_receipt_file file user_id uuid4 w
  = (Ok (Some fname),
     if bool_decide (lower ext ∈ [".png"; ".jpg"; ".jpeg"])
     then snd (create_thumbnail (receipt_path user_id fname) user_id fname
                 (saved file user_id fname w))
     else saved file user_id fname w).
Proof.
  intros H ext fname. unfold save_receipt_file. rewrite H.
  subst ext fname. rewrite <- unique_filename_assoc.
  destruct (splitext (secure_filename (filename file))) as [name ext]. cbn [snd].
  set (fname := str user_id +:+ _).
  unfold bind at 1. unfold os_makedirs, set_dirs.
  unfold bind at 1. unfold file_save, set_files. cbn [files db dirs stdout flashes].
  change (mkworld _ _ _ _ _) with (saved file user_id fname w).
  unfold bind, when, ret.
  destruct (bool_decide _); [|reflexivity].
  unfold try_except.
  pose proof (create_thumbnail_returns (receipt_path user_id fname) user_id fname
                (saved file user_id fname w)) as Hok.
  change (os_path_join (os_path_join UPLOAD_FOLDER [str user_id]) [fname])
    with (receipt_path user_id fname).
  destruct (create_thumbnail _ _ _ _) as [[[]|e] w']; [reflexivity|discriminate].
Qed.

(** The world a successful [create_thumbnail] leaves. *)
Lemma create_thumbnail_picture (file_path : string) (user_id : Z) (fname : string)
    (w : world) (wd ht : positive) :
  files w !! file_path = Some (Picture wd ht true) ->
  let t := Image_thumbnail (mkimage wd ht true) (200, 200) in
  let thumb_filename := fst (splitext fname) +:+ "_thumb" +:+ snd (splitext fname) in
  create_thumbnail file_path user_id fname w
  = (Ok tt,
     mkworld (db w)
       (<[thumbnail_path user_id thumb_filename := Picture (img_width t) (img_height t) true]>
          (files w))
       (dirs w ∪ list_to_set
                   (path_prefixes "" (os_path_join UPLOAD_FOLDER [str user_id; "thumbnails"])))
       (stdout w) (flashes w)).
Proof.
  intros Hfile t thumb_filename. subst thumb_filename.
  unfold create_thumbnail, create_thumbnail_try, try_except, bind, Image_open.
  rewrite Hfile. destruct (splitext fname) as [name ext]. cbn [fst snd].
  unfold os_makedirs, set_dirs, Image_save, set_files. cbn [files db dirs stdout flashes].
  pose proof (Image_thumbnail_200 (mkimage wd ht true)) as (_ & _ & Hwr).
  fold t in Hwr |- *. cbn [img_writable] in Hwr. rewrite Hwr. reflexivity.
Qed.

(** When the [try] block raises, it has written no file, and
    [create_thumbnail] prints the exception and returns. *)
Lemma create_thumbnail_try_raises (file_path : string) (user_id : Z) (fname : string)
    (w w1 : world) (e : exn) :
  create_thumbnail_try file_path user_id fname w = (Raise e, w1) ->
  files w1 = files w /\ db w1 = db w /\ stdout w1 = stdout w.
Proof.
  unfold create_thumbnail_try, bind, Image_open.
  destruct (files w !! file_path) as [[wd ht wr|bytes]|].
  - destruct (splitext fname) as [name ext].
    unfold os_makedirs, set_dirs, Image_save, set_files.
    destruct (img_writable _); intros H; [discriminate|].
    injection H as _ <-. now cbn.
  - intros H. now injection H as _ <-.
  - intros H. now injection H as _ <-.
Qed.

Lemma create_thumbnail_caught (file_path : string) (user_id : Z) (fname : string)
    (w w1 : world) (e : exn) :
  create_thumbnail_try file_path user_id fname w = (Raise e, w1) ->
  create_thumbnail file_path user_id fname w
  = (Ok tt, mkworld (db w1) (files w1) (dirs w1)
              (stdout w1 ++ ["Error creating thumbnail: " +:+ exn_str e]) (flashes w1)).
Proof. intros H. unfold create_thumbnail, try_except. now rewrite H. Qed.

(** On a world that holds content [b] at [file_path], the [try] block raises
    exactly when no thumbnail can be made of [b]. *)
Lemma create_thumbnail_try_raises_iff (file_path : string) (user_id : Z) (fname : string)
    (w : world) (b : blob) :
  files w !! file_path = Some b ->
  (exists e w1, create_thumbnail_try file_path user_id fname w = (Raise e, w1))
  <-> unusable b = true.
Proof.
  intros Hfile. unfold create_thumbnail_try, bind, Image_open. rewrite Hfile.
  destruct b as [wd ht wr|bytes]; cbn [unusable].
  - destruct (splitext fname) as [name ext].
    unfold os_makedirs, set_dirs, Image_save, set_files.
    pose proof (Image_thumbnail_200 (mkimage wd ht wr)) as (_ & _ & Hwr).
    cbn [img_writable] in Hwr. rewrite Hwr.
    destruct wr; cbn [negb]; split; try discriminate; eauto.
    intros (e & w1 & H). discriminate.
  - split; eauto.
Qed.

Lemma unique_filename_leading (file : FileStorage) (user_id : Z) (uuid4 : N) :
  exists a rest, unique_filename file user_id uuid4 = String a rest /\ leading a.
Proof.
  unfold unique_filename. destruct (receipt_stem_leading user_id uuid4) as (a & rest & -> & Ha).
  now exists a, (rest +:+ snd (splitext (secure_filename (filename file)))).
Qed.

Lemma elem_of_image_ext (ext : string) :
  lower ext ∈ [".png"; ".jpg"; ".jpeg"] <-> In (lower ext) [".png"; ".jpg"; ".jpeg"].
Proof. apply list_elem_of_In. Qed.

(** Storing an allowed picture: the original and the thumbnail. *)
Lemma save_receipt_file_picture (file : FileStorage) (user_id : Z) (uuid4 : N) (w : world)
    (wd ht : positive) :
  file_bool file && allowed_file (filename file) = true ->
  In (lower (snd (splitext (secure_filename (filename file))))) [".png"; ".jpg"; ".jpeg"] ->
  stream file = Picture wd ht true ->
  let ext := snd (splitext (secure_filename (filename file))) in
  let fname := unique_filename file user_id uuid4 in
  let t := Image_thumbnail (mkimage wd ht true) (200, 200) in
  let thumb := thumbnail_path user_id (receipt_stem user_id uuid4 +:+ "_thumb" +:+ ext) in
  exists w', save_receipt_file file user_id uuid4 w = (Ok (Some fname), w')
    /\ files w'
       = <[thumb := Picture (img_width t) (img_height t) true]>
           (<[receipt_path user_id fname := stream file]> (files w))
    /\ receipt_path user_id fname <> thumb
    /\ db w' = db w /\ stdout w' = stdout w.
Proof.
  intros Hok Hext Hpic ext fname t thumb.
  rewrite (save_receipt_file_accepted file user_id uuid4 w Hok).
  fold ext fname. rewrite bool_decide_eq_true_2 by (now apply elem_of_image_ext).
  assert (Hsplit : splitext fname = (receipt_stem user_id uuid4, ext)).
  { apply splitext_unique_filename. simpl in Hext |- *. fold ext in Hext. tauto. }
  rewrite (create_thumbnail_picture _ _ _ _ wd ht).
  - rewrite Hsplit. cbn [fst snd]. eexists. split; [reflexivity|].
    cbn [files db stdout saved]. repeat split.
    destruct (unique_filename_leading file user_id uuid4) as (a & rest & E & Ha).
    destruct (receipt_stem_leading user_id uuid4) as (b & rest' & E' & Hb).
    fold fname in E. subst thumb. rewrite E, E'.
    apply receipt_path_not_thumbnail; [assumption|apply Hb].
  - unfold saved. cbn [files]. rewrite lookup_insert_eq. now rewrite Hpic.
Qed.

Lemma allowed_file_extension (name : string) :
  allowed_file name = true
  <-> exists stem ext, name = stem +:+ "." +:+ ext /\ contains "." ext = false
                       /\ In (lower ext) ["png"; "jpg"; "jpeg"; "pdf"].
Proof.
  clear secure_filename UPLOAD_FOLDER.
  unfold allowed_file. split.
  - intros H. apply andb_true_iff in H as [Hc H].
    destruct (rsplit_with _ _ Hc) as (stem & ext & E & Hext).
    rewrite E, rsplit_at_last in H by assumption. cbn in H.
    apply bool_decide_eq_true in H. unfold ALLOWED_EXTENSIONS in H.
    rewrite !elem_of_union, !elem_of_singleton in H.
    exists stem, ext. repeat split; [assumption..|]. simpl. intuition congruence.
  - intros (stem & ext & -> & Hext & Hin).
    change ("." +:+ ext) with (String "." ext).
    rewrite contains_app, rsplit_at_last by assumption.
    cbn [contains]. rewrite Ascii.eqb_refl, orb_true_r. cbn.
    apply bool_decide_eq_true. unfold ALLOWED_EXTENSIONS.
    rewrite !elem_of_union, !elem_of_singleton. simpl in Hin. intuition congruence.
Qed.

(** C7.  When the file name has no extension among png, jpg, jpeg and pdf
    (whatever way it is split at a dot into a stem and a dot-free
    extension, the extension in lower case is none of the four),
    [save_receipt_file] returns no reference and leaves the world,
    files and directories included, as it was. *)
Theorem save_receipt_file_disallowed (file : FileStorage) (user_id : Z) (uuid4 : N)
    (w : world) :
  (forall stem ext, filename file = stem +:+ "." +:+ ext -> contains "." ext = false ->
     ~ In (lower ext) ["png"; "jpg"; "jpeg"; "pdf"]) ->
  save_receipt_file file user_id uuid4 w = (Ok None, w).
Proof.
  intros Hext. apply save_receipt_file_refused, andb_false_iff. right.
  apply not_true_iff_false. intros Hallowed.
  apply allowed_file_extension in Hallowed as (stem & ext & E & Hdot & Hin).
  exact (Hext stem ext E Hdot Hin).
Qed.

(** C8.  When an allowed file with a picture extension is stored and the
    [try] block of [create_thumbnail] raises, whatever the exception,
    [save_receipt_file] still returns the generated name: the original is
    stored under it, no other file is written, and the exception is
    printed. *)
Theorem save_receipt_file_thumbnail_failure (file : FileStorage) (user_id : Z) (uuid4 : N)
    (w w1 : world) (e : exn) :
  file_bool file = true -> allowed_file (filename file) = true ->
  In (lower (snd (splitext (secure_filename (filename file))))) [".png"; ".jpg"; ".jpeg"] ->
  let fname := unique_filename file user_id uuid4 in
  create_thumbnail_try (receipt_path user_id fname) user_id fname
    (saved file user_id fname w) = (Raise e, w1) ->
  exists w', save_receipt_file file user_id uuid4 w = (Ok (Some fname), w')
    /\ files w' !! receipt_path user_id fname = Some (stream file)
    /\ files w' = <[receipt_path user_id fname := stream file]> (files w)
    /\ db w' = db w
    /\ stdout w' = stdout w ++ ["Error creating thumbnail: " +:+ exn_str e].
Proof.
  intros Hfile Hallowed Hext fname Hraise.
  rewrite save_receipt_file_accepted by (now rewrite Hfile, Hallowed).
  fold fname. rewrite bool_decide_eq_true_2 by (now apply elem_of_image_ext).
  rewrite (create_thumbnail_caught _ _ _ _ _ _ Hraise). cbn [snd].
  destruct (create_thumbnail_try_raises _ _ _ _ _ _ Hraise) as (Hfiles & Hdb & Hout).
  eexists. split; [reflexivity|]. cbn [files db stdout].
  rewrite Hfiles, Hdb, Hout. cbn [saved files db stdout]. rewrite lookup_insert_eq. auto.
Qed.

(** C4, amended.  Storing an allowed file whose sanitized name has the
    extension png, jpg or jpeg (in any case) and whose content is a picture
    PIL can write stores the original under the generated name
    stem + extension and a thumbnail under
    thumbnails/stem + "_thumb" + extension, and nothing else; neither side of
    the thumbnail exceeds 200 pixels, and it is the picture itself when that
    fits, else the picture with its longer side brought to 200 and its
    shorter side scaled along (rounded to a whole pixel).  Storing a file
    whose sanitized name has the extension pdf stores the original only. *)
Theorem save_receipt_file_thumbnail (file : FileStorage) (user_id : Z) (uuid4 : N)
    (w : world) :
  file_bool file = true -> allowed_file (filename file) = true ->
  let ext := snd (splitext (secure_filename (filename file))) in
  let fname := unique_filename file user_id uuid4 in
  let thumb := thumbnail_path user_id (receipt_stem user_id uuid4 +:+ "_thumb" +:+ ext) in
  (forall wd ht,
     In (lower ext) [".png"; ".jpg"; ".jpeg"] -> stream file = Picture wd ht true ->
     exists w' t,
       save_receipt_file file user_id uuid4 w = (Ok (Some fname), w')
       /\ files w' !! receipt_path user_id fname = Some (stream file)
       /\ files w' !! thumb = Some (Picture (img_width t) (img_height t) true)
       /\ fits 200 t /\ keeps_aspect 200 (mkimage wd ht true) t
       /\ forall p, p <> receipt_path user_id fname -> p <> thumb ->
            files w' !! p = files w !! p)
  /\ (lower ext = ".pdf" ->
      exists w', save_receipt_file file user_id uuid4 w = (Ok (Some fname), w')
        /\ files w' = <[receipt_path user_id fname := stream file]> (files w)).
Proof.
  intros Hfile Hallowed ext fname thumb.
  assert (Hok : file_bool file && allowed_file (filename file) = true)
    by (now rewrite Hfile, Hallowed).
  split.
  - intros wd ht Hext Hpic.
    destruct (save_receipt_file_picture file user_id uuid4 w wd ht Hok Hext Hpic)
      as (w' & E & Hfiles & Hne & _).
    fold ext fname thumb in E, Hfiles, Hne.
    exists w', (Image_thumbnail (mkimage wd ht true) (200, 200)).
    pose proof (Image_thumbnail_200 (mkimage wd ht true)) as (Hfit & Hasp & _).
    split; [exact E|]. rewrite Hfiles.
    split; [now rewrite lookup_insert_ne, lookup_insert_eq by auto|].
    split; [now rewrite lookup_insert_eq|].
    split; [exact Hfit|]. split; [exact Hasp|].
    intros p Hp1 Hp2. now rewrite !lookup_insert_ne by auto.
  - intros Hpdf. rewrite save_receipt_file_accepted by assumption.
    fold ext fname. rewrite bool_decide_eq_false_2.
    + eexists. split; reflexivity.
    + rewrite Hpdf. intros Hin. apply list_elem_of_In in Hin. simpl in Hin.
      intuition discriminate.
Qed.

(** ** The routes *)

Lemma first_or_404_absent (w : world) (user tid : Z) :
  sqlite_integer tid = true ->
  (forall t, In t (transactions (db w)) -> Transaction.id t = tid ->
     Transaction.user_id t <> user) ->
  first_or_404 tid user w = (Raise NotFound, w).
Proof.
  intros Hint Habs. unfold first_or_404. rewrite Hint. cbn [negb].
  rewrite filter_nil_of_all_false; [reflexivity|].
  intros t Ht. apply andb_false_iff.
  destruct (Z.eqb_spec (Transaction.id t) tid) as [E|]; [right|now left].
  apply Z.eqb_neq. now apply Habs.
Qed.

Lemma first_or_404_found (w : world) (user tid : Z) (t : Transaction.t) :
  first_or_404 tid user w = (Ok t, w) ->
  In t (transactions (db w)) /\ Transaction.id t = tid /\ Transaction.user_id t = user.
Proof.
  unfold first_or_404. destruct (negb (sqlite_integer tid)); [discriminate|].
  destruct (List.filter _ _) as [|t' ts] eqn:E; [discriminate|].
  intros H. injection H as ->.
  assert (Hin : In t (List.filter
            (fun t => (Transaction.id t =? tid) && (Transaction.user_id t =? user))
            (transactions (db w)))) by (rewrite E; now left).
  apply List.filter_In in Hin as [Hin Hq]. apply andb_true_iff in Hq as [H1 H2].
  apply Z.eqb_eq in H1, H2. auto.
Qed.

Lemma first_or_404_bound (w : world) (user tid : Z) (t : Transaction.t) :
  first_or_404 tid user w = (Ok t, w) -> sqlite_integer tid = true.
Proof.
  unfold first_or_404. destruct (sqlite_integer tid); [reflexivity|discriminate].
Qed.

Lemma first_or_404_overflow (w : world) (user tid : Z) :
  sqlite_integer tid = false ->
  first_or_404 tid user w
  = (Raise (OverflowError "Python int too large to convert to SQLite INTEGER"), w).
Proof. intros H. unfold first_or_404. now rewrite H. Qed.



Lemma NoDup_map_eq {A B} (f : A -> B) (l : list A) (x y : A) :
  NoDup (map f l) -> In x l -> In y l -> f x = f y -> x = y.
Proof.
  rewrite NoDup_ListNoDup. induction l as [|a l IH]; simpl; [intros _ []|].
  intros Hnd Hx Hy E. apply List.NoDup_cons_iff in Hnd as [Ha Hnd].
  destruct Hx as [->|Hx], Hy as [->|Hy]; [reflexivity| | |now apply IH].
  - exfalso. apply Ha. rewrite E. now apply in_map.
  - exfalso. apply Ha. rewrite <- E. now apply in_map.
Qed.

(** What an edit without upload does, case by case. *)
Lemma edit_transaction_without_upload (w : world) (user tid : Z) (req : request) (uuid4 : N) :
  receipt_data (form req) = None ->
  edit_transaction user tid req uuid4 w
  = if negb (sqlite_integer tid) then
      (Raise (OverflowError "Python int too large to convert to SQLite INTEGER"), w)
    else
    match List.filter
            (fun t => (Transaction.id t =? tid) && (Transaction.user_id t =? user))
            (transactions (db w)) with
    | [] => (Raise NotFound, w)
    | t :: _ =>
        if validate_on_submit req (choices_of (db w) user) then
          (Ok (redirect "main.transactions"),
           mkworld
             (mkdb (categories (db w))
                (map (fun r => if Transaction.id r =? Transaction.id t
                               then update_fields t (form req) else r)
                   (transactions (db w))))
             (files w) (dirs w) (stdout w)
             (flashes w ++ [("Transaction updated successfully!", "success")]))
        else (Ok (render_template "edit_transaction.html"), w)
    end.
Proof.
  intros Hnone. unfold edit_transaction, bind, first_or_404, category_choices.
  destruct (negb (sqlite_integer tid)); [reflexivity|].
  destruct (List.filter _ _) as [|t ts]; [reflexivity|].
  destruct (validate_on_submit _ _); [|reflexivity].
  rewrite Hnone. reflexivity.
Qed.

Lemma validate_fields (f : TransactionForm.t) (choices : list (Z * string)) :
  validate f choices = true ->
  is_Some (TransactionForm.amount f) /\ is_Some (TransactionForm.date f).
Proof.
  unfold validate. rewrite !andb_true_iff.
  intros ((((((Ha & _) & _) & _) & Hd) & _) & _). split.
  - unfold validate_amount in Ha. destruct (TransactionForm.amount f); [eauto|discriminate].
  - now apply bool_decide_eq_true in Hd.
Qed.

Lemma filter_updated (tid user : Z) (t1 : Transaction.t) (l : list Transaction.t) :
  Transaction.id t1 = tid -> Transaction.user_id t1 = user ->
  List.filter (fun t => (Transaction.id t =? tid) && (Transaction.user_id t =? user))
    (map (fun r => if Transaction.id r =? tid then t1 else r) l)
  = map (fun _ => t1) (List.filter (fun r => Transaction.id r =? tid) l).
Proof.
  intros Hid Hu. induction l as [|r l IH]; [reflexivity|]. simpl.
  destruct (Z.eqb_spec (Transaction.id r) tid) as [E|E].
  - rewrite Hid, Hu, !Z.eqb_refl. simpl. now rewrite IH.
  - apply Z.eqb_neq in E. rewrite E. simpl. exact IH.
Qed.

(** C10.  An edit without a new upload writes and removes no file and no
    directory, and the edited row keeps its receipt file name, while a
    validated submission gives the row the amount, description, type,
    date, category and notes of the form.  In a table with unique
    identifiers every row keeps its receipt file name. *)
Theorem edit_transaction_without_upload_keeps_receipt (w : world) (user tid : Z)
    (req : request) (uuid4 : N) :
  receipt_data (form req) = None ->
  let w' := snd (edit_transaction user tid req uuid4 w) in
  files w' = files w /\ dirs w' = dirs w
  /\ (forall t, first_or_404 tid user w = (Ok t, w) ->
        exists t', first_or_404 tid user w' = (Ok t', w')
          /\ Transaction.receipt_filename t' = Transaction.receipt_filename t
          /\ (validate_on_submit req (choices_of (db w) user) = true ->
              TransactionForm.amount (form req) = Some (Transaction.amount t')
              /\ Transaction.description t' = TransactionForm.description (form req)
              /\ Transaction.transaction_type t'
                 = TransactionForm.transaction_type (form req)
              /\ TransactionForm.date (form req) = Some (Transaction.date t')
              /\ Transaction.category_id t'
                 = match TransactionForm.category_id (form req) with
                   | Some c => if c =? 0 then None else Some c
                   | None => None
                   end
              /\ Transaction.notes t' = TransactionForm.notes (form req)))
  /\ (NoDup (map Transaction.id (transactions (db w))) ->
      map (fun r => (Transaction.id r, Transaction.receipt_filename r))
        (transactions (db w'))
      = map (fun r => (Transaction.id r, Transaction.receipt_filename r))
          (transactions (db w))).
Proof.
  intros Hnone w'. subst w'.
  rewrite (edit_transaction_without_upload w user tid req uuid4 Hnone).
  destruct (sqlite_integer tid) eqn:Hint; cbn [negb].
  2:{ cbn [snd]. repeat split. intros t Ht.
      rewrite (first_or_404_overflow w user tid Hint) in Ht. discriminate. }
  destruct (List.filter _ _) as [|t ts] eqn:Efilter.
  { cbn [snd]. repeat split. intros t Ht. unfold first_or_404 in Ht.
    rewrite Hint, Efilter in Ht. discriminate. }
  assert (Hfound : first_or_404 tid user w = (Ok t, w))
    by (unfold first_or_404; now rewrite Hint, Efilter).
  destruct (first_or_404_found w user tid t Hfound) as (Hin & Hid & Hu).
  destruct (validate_on_submit req (choices_of (db w) user)) eqn:Hvalid; cbn [snd].
  2:{ repeat split. intros t0 Ht0. rewrite Hfound in Ht0. injection Ht0 as <-.
      exists t. split; [assumption|]. split; [reflexivity|discriminate]. }
  cbn [files dirs db transactions]. repeat split.
  - intros t0 Ht0. rewrite Hfound in Ht0. injection Ht0 as <-.
    exists (update_fields t (form req)). split; [|split; [reflexivity|]].
    + unfold first_or_404. rewrite Hint. cbn [negb db transactions]. rewrite Hid.
      rewrite (filter_updated tid user) by assumption.
      destruct (List.filter (fun r => Transaction.id r =? tid) (transactions (db w)))
        as [|r rs] eqn:E; [|reflexivity].
      exfalso. assert (Hin' : In t (List.filter (fun r => Transaction.id r =? tid)
                                      (transactions (db w)))).
      { apply List.filter_In. split; [assumption|now apply Z.eqb_eq]. }
      now rewrite E in Hin'.
    + intros _. unfold validate_on_submit in Hvalid.
      apply andb_true_iff in Hvalid as [_ Hvalid].
      destruct (validate_fields _ _ Hvalid) as [[a Ha] [d Hd]].
      unfold update_fields. cbn. rewrite Ha, Hd. cbn. repeat split.
  - intros Hnd. rewrite map_map. apply map_ext_in. intros r Hr.
    destruct (Z.eqb_spec (Transaction.id r) (Transaction.id t)) as [E|_]; [|reflexivity].
    rewrite (NoDup_map_eq Transaction.id _ r t Hnd Hr Hin E). reflexivity.
Qed.

(** ** Which files the routes leave in place *)

Lemma keeps_ret {A} (p : string) (a : A) : keeps p (ret a).
Proof. intros w r w' H. now injection H as _ <-. Qed.

Lemma keeps_bind {A B} (p : string) (m : M A) (k : A -> M B) :
  keeps p m -> (forall a, keeps p (k a)) -> keeps p (bind m k).
Proof.
  intros Hm Hk w r w' H Hp. unfold bind in H.
  destruct (m w) as [[a|e] w1] eqn:E.
  - exact (Hk a w1 r w' H (Hm w _ w1 E Hp)).
  - injection H as _ <-. exact (Hm w _ w1 E Hp).
Qed.

Lemma keeps_when (p : string) (b : bool) (m : M unit) : keeps p m -> keeps p (when b m).
Proof. destruct b; [auto|intros _; apply keeps_ret]. Qed.

Lemma keeps_same_files {A} (p : string) (m : M A) :
  (forall w, files (snd (m w)) = files w) -> keeps p m.
Proof.
  intros Hm w r w' H Hp. specialize (Hm w). rewrite H in Hm. cbn in Hm. now rewrite Hm.
Qed.

Lemma keeps_remove_if_exists (p q : string) : p <> q -> keeps p (remove_if_exists q).
Proof.
  intros Hne w r w' H Hp. unfold remove_if_exists, bind, os_path_exists, when in H.
  destruct (_ || _).
  - unfold os_remove in H. destruct (files w !! q).
    + injection H as _ <-. cbn. now rewrite lookup_delete_ne by auto.
    + destruct (bool_decide _); now injection H as _ <-.
  - now injection H as _ <-.
Qed.

Lemma keeps_create_thumbnail (p file_path : string) (user_id : Z) (fname : string) :
  keeps p (create_thumbnail file_path user_id fname).
Proof.
  intros w r w' H Hp.
  unfold create_thumbnail, create_thumbnail_try, try_except, bind, Image_open in H.
  destruct (files w !! file_path) as [[wd ht wr|bytes]|].
  - destruct (splitext fname) as [name ext].
    unfold os_makedirs, set_dirs, Image_save, set_files, print in H.
    destruct (img_writable _); injection H as _ <-; cbn; [|assumption].
    apply lookup_insert_is_Some'. now right.
  - now injection H as _ <-.
  - now injection H as _ <-.
Qed.

Lemma keeps_save_receipt_file (p : string) (file : FileStorage) (user_id : Z) (uuid4 : N) :
  keeps p (save_receipt_file file user_id uuid4).
Proof.
  intros w r w' H Hp.
  destruct (file_bool file && allowed_file (filename file)) eqn:Hok.
  - rewrite (save_receipt_file_accepted file user_id uuid4 w Hok) in H.
    injection H as _ <-.
    assert (Hsaved : is_Some (files (saved file user_id
                                       (unique_filename file user_id uuid4) w) !! p)).
    { cbn. apply lookup_insert_is_Some'. now right. }
    destruct (bool_decide _); [|assumption].
    destruct (create_thumbnail _ _ _ _) as [r1 w1] eqn:E.
    exact (keeps_create_thumbnail p _ _ _ _ _ _ E Hsaved).
  - rewrite (save_receipt_file_refused file user_id uuid4 w Hok) in H.
    now injection H as _ <-.
Qed.

(** The thumbnail of a generated receipt name lies neither where the receipt
    lies nor where [delete_transaction] looks for a thumbnail. *)
Lemma thumbnail_elsewhere (user_id : Z) (uuid0 : N) (ext : string) :
  In (lower ext) [".png"; ".jpg"; ".jpeg"] ->
  let fname := receipt_stem user_id uuid0 +:+ ext in
  let thumb := thumbnail_path user_id (receipt_stem user_id uuid0 +:+ "_thumb" +:+ ext) in
  thumb <> receipt_path user_id fname /\ thumb <> thumbnail_path user_id fname.
Proof.
  clear secure_filename.
  intros Hext fname thumb. subst fname thumb.
  destruct (known_extension_shape ext) as (e & -> & _); [simpl in *; tauto|].
  destruct (receipt_stem_leading user_id uuid0) as (a & rest & -> & Ha).
  change (String a rest +:+ ?x) with (String a (rest +:+ x)). split.
  - intros E. symmetry in E. revert E. apply receipt_path_not_thumbnail; [assumption|apply Ha].
  - rewrite !thumbnail_path_app by apply Ha. intros E.
    do 2 apply String.app_inj in E. injection E as E. apply String.app_inj in E.
    discriminate.
Qed.

(** Whatever it answers, [delete_transaction] leaves in place the thumbnail
    that [create_thumbnail] wrote for the receipt of the deleted row. *)
Lemma delete_transaction_keeps_thumbnail (user tid : Z) (w : world) (t : Transaction.t)
    (uuid0 : N) (ext : string) (r : result response) (w' : world) :
  first_or_404 tid user w = (Ok t, w) ->
  Transaction.receipt_filename t = Some (receipt_stem user uuid0 +:+ ext) ->
  In (lower ext) [".png"; ".jpg"; ".jpeg"] ->
  let thumb := thumbnail_path user (receipt_stem user uuid0 +:+ "_thumb" +:+ ext) in
  delete_transaction user tid w = (r, w') ->
  is_Some (files w !! thumb) -> is_Some (files w' !! thumb).
Proof.
  intros Hfound Hname Hext thumb.
  destruct (thumbnail_elsewhere user uuid0 ext Hext) as [Hne1 Hne2].
  unfold delete_transaction. unfold bind at 1. rewrite Hfound, Hname.
  cbn [default]. fold thumb in Hne1, Hne2.
  change (os_path_join UPLOAD_FOLDER [str user; receipt_stem user uuid0 +:+ ext])
    with (receipt_path user (receipt_stem user uuid0 +:+ ext)).
  change (os_path_join UPLOAD_FOLDER [str user; "thumbnails"; receipt_stem user uuid0 +:+ ext])
    with (thumbnail_path user (receipt_stem user uuid0 +:+ ext)).
  apply keeps_bind.
  - apply keeps_when, keeps_bind; [|intros _]; now apply keeps_remove_if_exists.
  - intros _. apply keeps_bind; [now apply keeps_same_files|]. intros _.
    apply keeps_bind; [now apply keeps_same_files|]. intros _. apply keeps_ret.
Qed.

(** Whatever it answers, [edit_transaction] leaves in place the thumbnail
    that [create_thumbnail] wrote for the receipt the row had. *)
Lemma edit_transaction_keeps_thumbnail (user tid : Z) (req : request) (uuid4 : N)
    (w : world) (t : Transaction.t) (uuid0 : N) (ext : string) (r : result response)
    (w' : world) :
  first_or_404 tid user w = (Ok t, w) ->
  Transaction.receipt_filename t = Some (receipt_stem user uuid0 +:+ ext) ->
  In (lower ext) [".png"; ".jpg"; ".jpeg"] ->
  let thumb := thumbnail_path user (receipt_stem user uuid0 +:+ "_thumb" +:+ ext) in
  edit_transaction user tid req uuid4 w = (r, w') ->
  is_Some (files w !! thumb) -> is_Some (files w' !! thumb).
Proof.
  intros Hfound Hname Hext thumb.
  destruct (thumbnail_elsewhere user uuid0 ext Hext) as [Hne1 _].
  unfold edit_transaction. unfold bind at 1. rewrite Hfound, Hname.
  cbn [default]. fold thumb in Hne1.
  change (os_path_join UPLOAD_FOLDER [str user; receipt_stem user uuid0 +:+ ext])
    with (receipt_path user (receipt_stem user uuid0 +:+ ext)).
  apply keeps_bind; [now apply keeps_same_files|]. intros choices.
  destruct (validate_on_submit req choices); [|apply keeps_ret].
  apply keeps_bind.
  - destruct (receipt_data (form req)) as [file|]; [|apply keeps_ret].
    apply keeps_bind; [now apply keeps_when, keeps_remove_if_exists|]. intros _.
    apply keeps_bind; [apply keeps_save_receipt_file|]. intros name. apply keeps_ret.
  - intros t'. apply keeps_bind; [now apply keeps_same_files|]. intros _.
    apply keeps_bind; [now apply keeps_same_files|]. intros _. apply keeps_ret.
Qed.

(** * Further properties *)

(** ** Which names are accepted *)

(** X1.  [allowed_file] accepts a name exactly when the part after its last
    dot, in lower case, is png, jpg, jpeg or pdf: only the last extension
    counts, whatever stands before it, and a name without a dot is
    refused. *)
Theorem allowed_file_last_extension (name : string) :
  (allowed_file name = true
   <-> exists stem ext, name = stem +:+ "." +:+ ext /\ contains "." ext = false
                        /\ In (lower ext) ["png"; "jpg"; "jpeg"; "pdf"])
  /\ (contains "." name = false -> allowed_file name = false).
Proof.
  split; [apply allowed_file_extension|].
  intros H. unfold allowed_file. now rewrite H.
Qed.

Lemma lower_app (a b : string) : lower (a +:+ b) = lower a +:+ lower b.
Proof.
  induction a as [|x a IH]; [reflexivity|].
  change (String x a +:+ b) with (String x (a +:+ b)). cbn [lower]. now rewrite IH.
Qed.

Lemma length_lower (s : string) : String.length (lower s) = String.length s.
Proof. induction s as [|x s IH]; simpl; [reflexivity|now rewrite IH]. Qed.

Lemma substring_split (s : string) (i : nat) :
  (i <= String.length s)%nat ->
  s = String.substring 0 i s +:+ String.substring i (String.length s - i) s.
Proof.
  revert i. induction s as [|x s IH]; intros i Hi.
  - simpl in Hi. now replace i with 0%nat by lia.
  - destruct i as [|i]; simpl.
    + now rewrite substring_all.
    + change (String x ?a +:+ ?b) with (String x (a +:+ b)). f_equal.
      apply IH. simpl in Hi. lia.
Qed.

Lemma lower_substring (s : string) (i m : nat) :
  lower (String.substring i m s) = String.substring i m (lower s).
Proof.
  revert i m. induction s as [|x s IH]; intros i m.
  - now destruct i, m.
  - destruct i as [|i]; [destruct m as [|m]|]; simpl; [reflexivity| |apply IH].
    now rewrite IH.
Qed.

(** [endswith] holds exactly of the names that are something followed by
    the suffix. *)
Lemma endswith_app (s suf : string) :
  endswith s suf = true <-> exists pre, s = pre +:+ suf.
Proof.
  unfold endswith. split.
  - intros H. apply andb_true_iff in H as [Hk E].
    apply Nat.leb_le in Hk. apply String.eqb_eq in E.
    exists (String.substring 0 (String.length s - String.length suf) s).
    pose proof (substring_split s (String.length s - String.length suf) ltac:(lia)) as Hs.
    replace (String.length s - (String.length s - String.length suf))%nat
      with (String.length suf) in Hs by lia.
    now rewrite E in Hs.
  - intros (pre & ->). rewrite length_app.
    apply andb_true_iff. split; [apply Nat.leb_le; lia|].
    replace (String.length pre + String.length suf - String.length suf)%nat
      with (String.length pre) by lia.
    rewrite substring_app_r. apply String.eqb_refl.
Qed.

(** A name whose lower case ends with a dot and a dot-free [x] is a stem, a
    dot and an extension that lowers to [x]. *)
Lemma lower_endswith_extension (name x : string) :
  endswith (lower name) ("." +:+ x) = true ->
  exists stem ext, name = stem +:+ "." +:+ ext /\ lower ext = x.
Proof.
  intros H. apply endswith_app in H as (pre & E).
  assert (Hlen : String.length name = (String.length pre + S (String.length x))%nat).
  { rewrite <- length_lower, E, length_app. reflexivity. }
  pose proof (substring_split name (String.length pre) ltac:(lia)) as Hsplit.
  set (a := String.substring 0 (String.length pre) name) in *.
  set (b := String.substring (String.length pre)
              (String.length name - String.length pre) name) in *.
  assert (Hb : lower b = "." +:+ x).
  { subst b. rewrite lower_substring, E.
    replace (String.length name - String.length pre)%nat
      with (String.length ("." +:+ x))
      by (change ("." +:+ x) with (String "." x); cbn [String.length]; lia).
    apply substring_app_r. }
  destruct b as [|c ext]; [discriminate|].
  cbn [lower] in Hb. change ("." +:+ x) with (String "." x) in Hb.
  injection Hb as Hc Hext.
  assert (c = "."%char) as ->.
  { apply Ascii.eqb_eq. rewrite <- (lower_ascii_plain c ".") by auto.
    rewrite Hc. apply Ascii.eqb_refl. }
  now exists a, ext.
Qed.

Lemma FileAllowed_agrees (file : FileStorage) :
  file_bool file = true ->
  FileAllowed ["jpg"; "jpeg"; "png"; "pdf"] (Some file) = allowed_file (filename file).
Proof.
  clear secure_filename UPLOAD_FOLDER.
  intros Hfile. unfold FileAllowed. rewrite Hfile. apply eq_true_iff_eq. split.
  - intros H. apply existsb_exists in H as (x & Hx & Hend).
    apply lower_endswith_extension in Hend as (stem & ext & E & Hlow).
    apply allowed_file_extension. exists stem, ext. split; [exact E|].
    rewrite <- (contains_lower "." ext) by auto. rewrite Hlow.
    simpl in Hx. destruct Hx as [<-|[<-|[<-|[<-|[]]]]]; simpl; auto 10.
  - intros H. apply allowed_file_extension in H as (stem & ext & E & _ & Hin).
    apply existsb_exists. exists (lower ext). split.
    + simpl in Hin |- *. intuition auto.
    + apply endswith_app. exists (lower stem). rewrite E, lower_app.
      change ("." +:+ ext) with (String "." ext). reflexivity.
Qed.

(** X2.  On a file that has a name, the [FileAllowed] validator of the form
    and [allowed_file] of the receipt helper decide alike. *)
Theorem FileAllowed_allowed_file (file : FileStorage) :
  file_bool file = true ->
  FileAllowed ["jpg"; "jpeg"; "png"; "pdf"] (Some file) = allowed_file (filename file).
Proof. apply FileAllowed_agrees. Qed.

(** A validated form with an upload carries a file [save_receipt_file]
    accepts. *)
Lemma validated_upload_accepted (req : request) (choices : list (Z * string))
    (file : FileStorage) :
  validate_on_submit req choices = true ->
  receipt_data (form req) = Some file ->
  file_bool file && allowed_file (filename file) = true.
Proof.
  unfold validate_on_submit, validate, receipt_data. rewrite !andb_true_iff.
  intros (_ & (_ & Hallowed) & _) Hdata.
  destruct (TransactionForm.receipt (form req)) as [f|]; [|discriminate].
  destruct (file_bool f) eqn:Hf; [|discriminate]. injection Hdata as <-.
  now rewrite Hf, <- FileAllowed_agrees.
Qed.

(** ** Where receipts are stored *)

Lemma string_app_nil_r (s : string) : s +:+ "" = s.
Proof.
  induction s as [|x s IH]; [reflexivity|].
  change (String x s +:+ "") with (String x (s +:+ "")). now rewrite IH.
Qed.

Lemma rfind_from_negative (c : ascii) (s : string) (i : Z) :
  0 <= i -> rfind_from c s i < 0 -> contains c s = false.
Proof.
  revert i. induction s as [|x s IH]; intros i Hi; cbn [rfind_from contains]; [reflexivity|].
  destruct (Z.leb_spec 0 (rfind_from c s (i + 1))) as [Hr|Hr]; [lia|].
  destruct (Ascii.eqb x c); [lia|]. intros _. apply (IH (i + 1)); lia.
Qed.

Lemma rfind_from_found (c : ascii) (s : string) (i : Z) :
  0 <= i -> 0 <= rfind_from c s i ->
  exists a e, s = a +:+ String c e /\ contains c e = false
              /\ rfind_from c s i = i + Z.of_nat (String.length a).
Proof.
  revert i. induction s as [|x s IH]; intros i Hi; cbn [rfind_from]; [lia|].
  destruct (Z.leb_spec 0 (rfind_from c s (i + 1))) as [Hr|Hr].
  - intros _. destruct (IH (i + 1) ltac:(lia) Hr) as (a & e & -> & He & E).
    exists (String x a), e. repeat split; [assumption|].
    rewrite E. cbn [String.length]. lia.
  - destruct (Ascii.eqb_spec x c) as [->|_]; [|lia]. intros _.
    exists EmptyString, s. repeat split; [|simpl; lia].
    apply (rfind_from_negative c s (i + 1)); lia.
Qed.

Lemma rfind_from_at_least (c : ascii) (a e : string) (i : Z) :
  0 <= i -> contains c e = true ->
  i + Z.of_nat (String.length a) <= rfind_from c (a +:+ e) i.
Proof.
  intros Hi He. revert i Hi. induction a as [|x a IH]; intros i Hi.
  - change ("" +:+ e) with e. cbn [String.length].
    destruct (Z.le_gt_cases 0 (rfind_from c e i)) as [Hr|Hr].
    + destruct (rfind_from_found c e i Hi Hr) as (a & e' & _ & _ & ->). lia.
    + rewrite (rfind_from_negative c e i) in He by lia. discriminate.
  - change (String x a +:+ e) with (String x (a +:+ e)). cbn [rfind_from String.length].
    specialize (IH (i + 1) ltac:(lia)).
    destruct (Z.leb_spec 0 (rfind_from c (a +:+ e) (i + 1))); lia.
Qed.

(** [splitext] splits a path into a root and an extension that follows it;
    the extension holds no separator, and is empty or one dot and a
    dot-free rest. *)
Lemma splitext_extension (p : string) :
  fst (splitext p) +:+ snd (splitext p) = p
  /\ contains "/" (snd (splitext p)) = false
  /\ (snd (splitext p) = ""
      \/ exists e, snd (splitext p) = String "." e /\ contains "." e = false).
Proof.
  unfold splitext, rfind.
  destruct (_ && _) eqn:Hcond; cbn [fst snd];
    [|split; [apply string_app_nil_r|split; [reflexivity|now left]]].
  apply andb_true_iff in Hcond as [Hlt _]. apply Z.ltb_lt in Hlt.
  assert (Hsep : -1 <= rfind_from "/" p 0).
  { destruct (Z.le_gt_cases 0 (rfind_from "/" p 0)) as [H|H]; [lia|].
    rewrite rfind_from_without; [lia|]. apply (rfind_from_negative "/" p 0); lia. }
  destruct (rfind_from_found "." p 0) as (a & e & -> & He & E); [lia..|].
  rewrite E in *. replace (Z.to_nat (0 + Z.of_nat (String.length a)))
    with (String.length a) by lia.
  rewrite substring_app_l.
  replace (String.length (a +:+ String "." e) - String.length a)%nat
    with (String.length (String "." e)) by (rewrite length_app; lia).
  rewrite substring_app_r. split; [reflexivity|]. split; [|right; eauto].
  destruct (contains "/" (String "." e)) eqn:Hs; [exfalso|reflexivity].
  cbn [contains] in Hs. change (Ascii.eqb "." "/") with false in Hs. cbn [orb] in Hs.
  pose proof (rfind_from_at_least "/" (a +:+ ".") e 0 ltac:(lia) Hs) as Hge.
  rewrite string_app_assoc, length_app in Hge.
  change ("." +:+ e) with (String "." e) in Hge. simpl String.length in Hge. lia.
Qed.

Lemma last_char_contains (s : string) (a : ascii) :
  last_char s = Some a -> contains a s = true.
Proof.
  induction s as [|x s IH]; [discriminate|]. cbn [last_char contains].
  destruct s as [|y s].
  - intros H. injection H as ->. now rewrite Ascii.eqb_refl.
  - intros H. rewrite (IH H). apply orb_true_r.
Qed.

Lemma endswith_sep_str (pre : string) (n : Z) : endswith_sep (pre +:+ str n) = false.
Proof.
  unfold endswith_sep. destruct (str_leading n) as (a & rest & E & _).
  rewrite E, last_char_app. destruct (last_char (String a rest)) as [c|] eqn:Hc; [|reflexivity].
  apply last_char_contains in Hc. rewrite <- E in Hc.
  destruct (Ascii.eqb_spec c "/") as [->|]; [|reflexivity].
  now rewrite (str_plain "/" n) in Hc by auto.
Qed.

(** The directory of a user is the upload folder, a separator if needed,
    the user's number and a separator. *)
Lemma user_directory (user_id : Z) :
  dir_prefix (join_step UPLOAD_FOLDER (str user_id))
  = dir_prefix UPLOAD_FOLDER +:+ str user_id +:+ "/".
Proof.
  destruct (str_leading user_id) as (a & rest & E & Ha).
  rewrite E, join_step_relative by apply Ha. rewrite <- E.
  unfold dir_prefix at 1. rewrite endswith_sep_str.
  replace (String.eqb (dir_prefix UPLOAD_FOLDER +:+ str user_id) "") with false.
  - cbn [orb]. now rewrite string_app_assoc.
  - symmetry. apply String.eqb_neq. rewrite E.
    destruct (dir_prefix UPLOAD_FOLDER); discriminate.
Qed.

Lemma receipt_path_relative (user_id : Z) (a : ascii) (rest : string) :
  a <> "/"%char ->
  receipt_path user_id (String a rest)
  = dir_prefix UPLOAD_FOLDER +:+ str user_id +:+ "/" +:+ String a rest.
Proof.
  intros Ha. rewrite receipt_path_app, user_directory by assumption.
  now rewrite !string_app_assoc.
Qed.

Lemma thumbnail_path_relative (user_id : Z) (a : ascii) (rest : string) :
  a <> "/"%char ->
  thumbnail_path user_id (String a rest)
  = dir_prefix UPLOAD_FOLDER +:+ str user_id +:+ "/thumbnails/" +:+ String a rest.
Proof.
  intros Ha. rewrite thumbnail_path_app, user_directory by assumption.
  now rewrite !string_app_assoc.
Qed.

Lemma unique_filename_plain (file : FileStorage) (user_id : Z) (uuid4 : N) :
  contains "/" (unique_filename file user_id uuid4) = false.
Proof.
  unfold unique_filename. rewrite contains_app, receipt_stem_plain by auto.
  apply splitext_extension.
Qed.

(** X3.  Whatever name the client sends and whatever [secure_filename]
    makes of it, the name [save_receipt_file] generates holds no path
    separator, and the path it writes is the upload folder, the user's
    number and that name: the file lies directly in the user's own
    directory. *)
Theorem unique_filename_in_user_directory (file : FileStorage) (user_id : Z) (uuid4 : N) :
  contains "/" (unique_filename file user_id uuid4) = false
  /\ receipt_path user_id (unique_filename file user_id uuid4)
     = dir_prefix UPLOAD_FOLDER +:+ str user_id +:+ "/"
       +:+ unique_filename file user_id uuid4.
Proof.
  split; [apply unique_filename_plain|].
  destruct (unique_filename_leading file user_id uuid4) as (a & rest & -> & Ha).
  apply receipt_path_relative, Ha.
Qed.

Lemma str_inj (m n : Z) : str m = str n -> m = n.
Proof.
  unfold str. intros H. apply DecimalZ.to_int_inj.
  assert (Hnn : forall z, Z.to_int z <> Decimal.Pos Decimal.Nil
                          /\ Z.to_int z <> Decimal.Neg Decimal.Nil).
  { intros [|p|p]; split; try discriminate; cbn;
      intros E; injection E as E; now apply DecimalPos.Unsigned.to_uint_nonnil in E. }
  apply (f_equal NilZero.int_of_string) in H.
  rewrite !NilZero.isi in H by apply Hnn. now injection H.
Qed.

Lemma split_at_first_separator (a b x y : string) :
  contains "/" a = false -> contains "/" b = false ->
  a +:+ String "/" x = b +:+ String "/" y -> a = b /\ x = y.
Proof.
  revert b. induction a as [|c a IH]; intros [|d b] Ha Hb E.
  - now injection E.
  - injection E as <- _. discriminate.
  - injection E as -> _. discriminate.
  - change (String c a +:+ ?s) with (String c (a +:+ s)) in E.
    change (String d b +:+ ?s) with (String d (b +:+ s)) in E.
    injection E as -> E. cbn [contains] in Ha, Hb.
    apply orb_false_iff in Ha as [_ Ha]. apply orb_false_iff in Hb as [_ Hb].
    destruct (IH b Ha Hb E) as [-> ->]. auto.
Qed.

(** Paths under the upload folder tell the user and the name apart. *)
Lemma user_paths_inj (u1 u2 : Z) (x y : string) :
  dir_prefix UPLOAD_FOLDER +:+ str u1 +:+ String "/" x
  = dir_prefix UPLOAD_FOLDER +:+ str u2 +:+ String "/" y ->
  u1 = u2 /\ x = y.
Proof.
  intros E. apply String.app_inj in E.
  apply split_at_first_separator in E as [E ->]; [|now apply str_plain; auto..].
  split; [now apply str_inj|reflexivity].
Qed.

(** X4.  Receipts of different users never share a path: the path of a
    generated name tells the user and the name, and it is never a path in
    any user's thumbnails directory. *)
Theorem receipt_paths_separate_users (f1 f2 : FileStorage) (u1 u2 : Z) (n1 n2 : N) :
  (receipt_path u1 (unique_filename f1 u1 n1) = receipt_path u2 (unique_filename f2 u2 n2) ->
   u1 = u2 /\ unique_filename f1 u1 n1 = unique_filename f2 u2 n2)
  /\ (forall a rest, a <> "/"%char ->
        receipt_path u1 (unique_filename f1 u1 n1) <> thumbnail_path u2 (String a rest)).
Proof.
  destruct (unique_filename_leading f1 u1 n1) as (a1 & r1 & E1 & Ha1).
  destruct (unique_filename_leading f2 u2 n2) as (a2 & r2 & E2 & Ha2).
  pose proof (unique_filename_plain f1 u1 n1) as Hplain.
  rewrite E1, E2 in *. split.
  - rewrite !receipt_path_relative by (apply Ha1 || apply Ha2).
    change ("/" +:+ ?s) with (String "/" s). apply user_paths_inj.
  - intros a rest Ha. rewrite receipt_path_relative by apply Ha1.
    rewrite thumbnail_path_relative by assumption.
    change ("/" +:+ ?s) with (String "/" s).
    change ("/thumbnails/" +:+ ?s) with (String "/" ("thumbnails/" +:+ s)).
    intros E. apply user_paths_inj in E as [_ E]. rewrite E in Hplain.
    now rewrite contains_app in Hplain.
Qed.

(** ** What storing a receipt changes *)

(** [create_thumbnail] writes at most the thumbnail, and leaves the
    database alone. *)
Lemma create_thumbnail_frame (file_path : string) (user_id : Z) (fname : string) (w : world) :
  let thumb :=
    thumbnail_path user_id (fst (splitext fname) +:+ "_thumb" +:+ snd (splitext fname)) in
  db (snd (create_thumbnail file_path user_id fname w)) = db w
  /\ forall p, p <> thumb ->
       files (snd (create_thumbnail file_path user_id fname w)) !! p = files w !! p.
Proof.
  intros thumb. subst thumb.
  unfold create_thumbnail, create_thumbnail_try, try_except, bind, Image_open.
  destruct (files w !! file_path) as [[wd ht wr|bytes]|]; try (split; reflexivity).
  destruct (splitext fname) as [name ext]. cbn [fst snd].
  unfold os_makedirs, set_dirs, Image_save, set_files, print.
  destruct (img_writable _); cbn; split; try reflexivity.
  intros p Hp. now rewrite lookup_insert_ne by auto.
Qed.

Lemma save_receipt_file_effect (file : FileStorage) (user_id : Z) (uuid4 : N) (w : world) :
  file_bool file && allowed_file (filename file) = true ->
  let ext := snd (splitext (secure_filename (filename file))) in
  let fname := unique_filename file user_id uuid4 in
  let thumb := thumbnail_path user_id (receipt_stem user_id uuid4 +:+ "_thumb" +:+ ext) in
  exists w', save_receipt_file file user_id uuid4 w = (Ok (Some fname), w')
    /\ files w' !! receipt_path user_id fname = Some (stream file)
    /\ db w' = db w
    /\ (forall p, p <> receipt_path user_id fname -> p <> thumb ->
          files w' !! p = files w !! p)
    /\ (~ In (lower ext) [".png"; ".jpg"; ".jpeg"] ->
        files w' = <[receipt_path user_id fname := stream file]> (files w)).
Proof.
  intros Hok ext fname thumb.
  rewrite (save_receipt_file_accepted file user_id uuid4 w Hok). fold ext fname.
  destruct (bool_decide (lower ext ∈ [".png"; ".jpg"; ".jpeg"])) eqn:Himg.
  - apply bool_decide_eq_true, list_elem_of_In in Himg.
    assert (Hsplit : splitext fname = (receipt_stem user_id uuid4, ext)).
    { apply splitext_unique_filename. simpl in Himg |- *. tauto. }
    pose proof (create_thumbnail_frame (receipt_path user_id fname) user_id fname
                  (saved file user_id fname w)) as [Hdb Hframe].
    rewrite Hsplit in Hframe. cbn [fst snd] in Hframe. fold thumb in Hframe.
    eexists. split; [reflexivity|]. rewrite Hdb.
    assert (Hne : receipt_path user_id fname <> thumb).
    { destruct (unique_filename_leading file user_id uuid4) as (a & rest & E & Ha).
      destruct (receipt_stem_leading user_id uuid4) as (b & rest' & E' & Hb).
      fold fname in E. subst thumb. rewrite E, E'.
      apply receipt_path_not_thumbnail; [assumption|apply Hb]. }
    split; [|split; [reflexivity|split]].
    + rewrite Hframe by assumption. apply lookup_insert_eq.
    + intros p Hp1 Hp2. rewrite Hframe by assumption. cbn. now rewrite lookup_insert_ne by auto.
    + intros Hno. contradiction.
  - eexists. split; [reflexivity|]. cbn [saved files db].
    split; [apply lookup_insert_eq|]. split; [reflexivity|]. split; [|reflexivity].
    intros p Hp _. now rewrite lookup_insert_ne by auto.
Qed.

(** X5.  An accepted upload is stored under the generated name with the
    uploaded content; apart from that path and the path of its thumbnail no
    file changes, the database does not change, and no thumbnail is written
    unless the extension is png, jpg or jpeg. *)
Theorem save_receipt_file_writes_only_its_own (file : FileStorage) (user_id : Z) (uuid4 : N)
    (w : world) :
  file_bool file = true -> allowed_file (filename file) = true ->
  let ext := snd (splitext (secure_filename (filename file))) in
  let fname := unique_filename file user_id uuid4 in
  let thumb := thumbnail_path user_id (receipt_stem user_id uuid4 +:+ "_thumb" +:+ ext) in
  exists w', save_receipt_file file user_id uuid4 w = (Ok (Some fname), w')
    /\ files w' !! receipt_path user_id fname = Some (stream file)
    /\ db w' = db w
    /\ (forall p, p <> receipt_path user_id fname -> p <> thumb ->
          files w' !! p = files w !! p)
    /\ (~ In (lower ext) [".png"; ".jpg"; ".jpeg"] ->
        files w' = <[receipt_path user_id fname := stream file]> (files w)).
Proof.
  intros Hfile Hallowed. apply save_receipt_file_effect. now rewrite Hfile, Hallowed.
Qed.

(** ** Adding a transaction *)

Lemma add_transaction_invalid (user : Z) (req : request) (uuid4 : N) (new_id now : Z)
    (w : world) :
  validate_on_submit req (choices_of (db w) user) = false ->
  add_transaction user req uuid4 new_id now w
  = (Ok (render_template "add_transaction.html"), w).
Proof.
  intros H. unfold add_transaction, bind, category_choices. now rewrite H.
Qed.

(** What a validated [add_transaction] does. *)
Lemma add_transaction_valid (user : Z) (req : request) (uuid4 : N) (new_id now : Z)
    (w : world) :
  validate_on_submit req (choices_of (db w) user) = true ->
  exists w1 name,
    match receipt_data (form req) with
    | Some file =>
        save_receipt_file file user uuid4 w = (Ok name, w1)
        /\ name = Some (unique_filename file user uuid4)
    | None => w1 = w /\ name = None
    end
    /\ db w1 = db w
    /\ add_transaction user req uuid4 new_id now w
       = (Ok (redirect "main.transactions"),
          mkworld
            (mkdb (categories (db w))
               (transactions (db w) ++ [new_transaction (form req) name user new_id now]))
            (files w1) (dirs w1) (stdout w1)
            (flashes w1 ++ [("Transaction added successfully!", "success")])).
Proof.
  intros Hvalid. unfold add_transaction, bind at 1, category_choices. rewrite Hvalid.
  destruct (receipt_data (form req)) as [file|] eqn:Hdata.
  - pose proof (validated_upload_accepted req _ file Hvalid Hdata) as Hok.
    destruct (save_receipt_file_effect file user uuid4 w Hok) as (w1 & E & _ & Hdb & _).
    exists w1, (Some (unique_filename file user uuid4)).
    split; [now split|]. split; [assumption|].
    unfold bind. rewrite E. unfold commit_add, set_db, flash, ret. cbn. now rewrite Hdb.
  - exists w, None. split; [now split|]. split; reflexivity.
Qed.

Lemma validate_on_submit_fields (req : request) (choices : list (Z * string)) :
  validate_on_submit req choices = true ->
  exists a d, TransactionForm.amount (form req) = Some a
              /\ TransactionForm.date (form req) = Some d.
Proof.
  unfold validate_on_submit. intros H. apply andb_true_iff in H as [_ H].
  destruct (validate_fields _ _ H) as [[a Ha] [d Hd]]. eauto.
Qed.

(** X6.  [add_transaction] with a form that does not validate changes
    nothing; with a validated form it appends exactly one row, owned by the
    requesting user, with the identifier and time stamp of the insertion and
    the amount, description, type, date and notes of the form, and a
    receipt reference exactly when a file was uploaded, in which case the
    file is stored under that reference; without upload no file changes. *)
Theorem add_transaction_appends_one_row (user : Z) (req : request) (uuid4 : N)
    (new_id now : Z) (w : world) :
  (validate_on_submit req (choices_of (db w) user) = false ->
   add_transaction user req uuid4 new_id now w
   = (Ok (render_template "add_transaction.html"), w))
  /\ (validate_on_submit req (choices_of (db w) user) = true ->
      exists w' row,
        add_transaction user req uuid4 new_id now w = (Ok (redirect "main.transactions"), w')
        /\ transactions (db w') = transactions (db w) ++ [row]
        /\ categories (db w') = categories (db w)
        /\ Transaction.id row = new_id /\ Transaction.user_id row = user
        /\ Transaction.created_at row = now
        /\ TransactionForm.amount (form req) = Some (Transaction.amount row)
        /\ Transaction.description row = TransactionForm.description (form req)
        /\ Transaction.transaction_type row = TransactionForm.transaction_type (form req)
        /\ TransactionForm.date (form req) = Some (Transaction.date row)
        /\ Transaction.notes row = TransactionForm.notes (form req)
        /\ Transaction.receipt_filename row
           = option_map (fun file => unique_filename file user uuid4)
               (receipt_data (form req))
        /\ (forall file, receipt_data (form req) = Some file ->
              files w' !! receipt_path user (unique_filename file user uuid4)
              = Some (stream file))
        /\ (receipt_data (form req) = None -> files w' = files w)).
Proof.
  split; [apply add_transaction_invalid|]. intros Hvalid.
  destruct (add_transaction_valid user req uuid4 new_id now w Hvalid)
    as (w1 & name & Hname & Hdb & E).
  destruct (validate_on_submit_fields _ _ Hvalid) as (a & d & Ha & Hd).
  rewrite E. eexists _, _. split; [reflexivity|]. cbn [db transactions categories files].
  unfold new_transaction. cbn. rewrite Ha, Hd. cbn.
  repeat (split; [reflexivity|]).
  destruct (receipt_data (form req)) as [file|] eqn:Hdata.
  - destruct Hname as [Hsave ->]. split; [reflexivity|]. split; [|discriminate].
    intros f Hf. injection Hf as <-.
    pose proof (validated_upload_accepted req _ file Hvalid Hdata) as Hok.
    destruct (save_receipt_file_effect file user uuid4 w Hok) as (w2 & E2 & Hfile & _).
    rewrite Hsave in E2. now injection E2 as <-.
  - destruct Hname as [-> ->]. split; [reflexivity|]. split; [discriminate|reflexivity].
Qed.

(** X7.  After a validated [add_transaction], the monthly summary of every
    user, month and year is the one before, plus the amount of the form on
    the income or the expense side when the user is the requesting one and
    the date of the form lies in that month. *)
Theorem add_transaction_monthly_summary (user : Z) (req : request) (uuid4 : N)
    (new_id now : Z) (w : world) (a : Qc) (d : date) :
  validate_on_submit req (choices_of (db w) user) = true ->
  TransactionForm.amount (form req) = Some a ->
  TransactionForm.date (form req) = Some d ->
  forall v m y,
    let counted ty :=
      if bool_decide (v = user /\ TransactionForm.transaction_type (form req) = ty
                      /\ month d = m /\ year d = y)
      then a else 0%Qc in
    computeMonthlySummary (db (snd (add_transaction user req uuid4 new_id now w))) v m y
    = ((fst (computeMonthlySummary (db w) v m y) + counted "income")%Qc,
       (snd (computeMonthlySummary (db w) v m y) + counted "expense")%Qc).
Proof.
  intros Hvalid Ha Hd v m y counted.
  destruct (add_transaction_valid user req uuid4 new_id now w Hvalid)
    as (w1 & name & _ & _ & E).
  rewrite E. cbn [snd db]. rewrite !computeMonthlySummary_totals. cbn [fst snd transactions].
  rewrite !List.filter_app. unfold amounts. rewrite !map_app, !total_app.
  assert (Hrow : forall ty,
    total (map Transaction.amount
             (List.filter (dated v ty m y) [new_transaction (form req) name user new_id now]))
    = counted ty).
  { intros ty. subst counted. cbn [List.filter]. unfold dated, new_transaction.
    cbn. rewrite Ha, Hd. cbn.
    rewrite (bool_decide_ext _ (v = user /\ TransactionForm.transaction_type (form req) = ty
                                /\ month d = m /\ year d = y)) by intuition congruence.
    destruct (bool_decide _); cbn; [apply Qcplus_0_r|reflexivity]. }
  now rewrite !Hrow.
Qed.

(** ** What the routes do to the database *)

Lemma remove_if_exists_db (p : string) (w : world) : db (snd (remove_if_exists p w)) = db w.
Proof.
  unfold remove_if_exists, bind, os_path_exists, when, os_remove, ret.
  destruct (_ || _); [|reflexivity].
  destruct (files w !! p); [reflexivity|]. now destruct (bool_decide _).
Qed.

Lemma save_receipt_file_db (file : FileStorage) (user_id : Z) (uuid4 : N) (w : world) :
  db (snd (save_receipt_file file user_id uuid4 w)) = db w.
Proof.
  destruct (file_bool file && allowed_file (filename file)) eqn:Hok.
  - destruct (save_receipt_file_effect file user_id uuid4 w Hok) as (w' & E & _ & Hdb & _).
    now rewrite E.
  - now rewrite save_receipt_file_refused.
Qed.

Lemma first_or_404_cases (tid user : Z) (w : world) :
  (exists e, first_or_404 tid user w = (Raise e, w))
  \/ exists t, first_or_404 tid user w = (Ok t, w).
Proof.
  unfold first_or_404. destruct (negb (sqlite_integer tid)); [eauto|].
  destruct (List.filter _ _) as [|t ts]; eauto.
Qed.

(** The row an edit writes back: [t] with the fields of the form and the
    receipt reference [rf]. *)
Lemma edit_transaction_db (user tid : Z) (req : request) (uuid4 : N) (w : world) :
  db (snd (edit_transaction user tid req uuid4 w)) = db w
  \/ exists t rf,
       first_or_404 tid user w = (Ok t, w)
       /\ validate_on_submit req (choices_of (db w) user) = true
       /\ (receipt_data (form req) = None -> rf = Transaction.receipt_filename t)
       /\ db (snd (edit_transaction user tid req uuid4 w))
          = mkdb (categories (db w))
              (map (fun r => if Transaction.id r =? Transaction.id t
                             then update_fields (set_receipt_filename t rf) (form req)
                             else r)
                 (transactions (db w))).
Proof.
  remember (edit_transaction user tid req uuid4 w) as out eqn:Hout.
  unfold edit_transaction in Hout. unfold bind at 1 in Hout.
  destruct (first_or_404_cases tid user w) as [[e0 E]|[t E]]; rewrite E in Hout;
    [left; now subst out|].
  unfold bind at 1, category_choices in Hout.
  destruct (validate_on_submit req (choices_of (db w) user)) eqn:Hvalid;
    [|left; now subst out].
  destruct (receipt_data (form req)) as [file|] eqn:Hdata.
  - unfold bind at 1 in Hout. unfold bind at 1 in Hout.
    assert (Hwhen : exists r1 w1,
              when (str_bool (Transaction.receipt_filename t))
                (remove_if_exists
                   (os_path_join UPLOAD_FOLDER
                      [str user; default "" (Transaction.receipt_filename t)])) w = (r1, w1)
              /\ db w1 = db w).
    { unfold when. destruct (str_bool _).
      - match goal with |- context [remove_if_exists ?p w] =>
          pose proof (remove_if_exists_db p w) as Hrm;
          destruct (remove_if_exists p w) as [r1 w1] end. eauto.
      - unfold ret. eauto. }
    destruct Hwhen as (r1 & w1 & Hw & Hdb1). rewrite Hw in Hout.
    destruct r1 as [[]|e]; [|left; now subst out].
    unfold bind at 1 in Hout.
    pose proof (save_receipt_file_db file user uuid4 w1) as Hdb2.
    destruct (save_receipt_file file user uuid4 w1) as [[name|e] w2]; cbn [snd] in Hdb2;
      [|left; subst out; cbn; congruence].
    right. exists t, name. split; [exact E|]. split; [reflexivity|].
    split; [discriminate|]. subst out.
    unfold ret, bind, commit_update, set_db, flash. cbn. rewrite Hdb2, Hdb1.
    destruct t; reflexivity.
  - right. exists t, (Transaction.receipt_filename t). split; [exact E|].
    split; [reflexivity|]. split; [reflexivity|]. subst out.
    unfold ret, bind, commit_update, set_db, flash. cbn. destruct t; reflexivity.
Qed.

Lemma delete_transaction_db (user tid : Z) (w : world) :
  db (snd (delete_transaction user tid w)) = db w
  \/ exists t,
       first_or_404 tid user w = (Ok t, w)
       /\ fst (delete_transaction user tid w) = Ok (redirect "main.transactions")
       /\ db (snd (delete_transaction user tid w))
          = mkdb (categories (db w))
              (List.filter (fun r => negb (Transaction.id r =? Transaction.id t))
                 (transactions (db w))).
Proof.
  remember (delete_transaction user tid w) as out eqn:Hout.
  unfold delete_transaction in Hout. unfold bind at 1 in Hout.
  destruct (first_or_404_cases tid user w) as [[e0 E]|[t E]]; rewrite E in Hout;
    [left; now subst out|].
  unfold bind at 1 in Hout.
  match type of Hout with context [when ?b ?m w] =>
    assert (Hwhen : exists r1 w1, when b m w = (r1, w1) /\ db w1 = db w) end.
  { unfold when. destruct (str_bool _); [|unfold ret; eauto].
    unfold bind.
    match goal with |- context [remove_if_exists ?p w] =>
      pose proof (remove_if_exists_db p w) as H1;
      destruct (remove_if_exists p w) as [[[]|e] w1] end; cbn [snd] in H1; [|eauto].
    match goal with |- context [remove_if_exists ?p w1] =>
      pose proof (remove_if_exists_db p w1) as H2;
      destruct (remove_if_exists p w1) as [r2 w2] end; cbn [snd] in H2.
    exists r2, w2. split; [reflexivity|congruence]. }
  destruct Hwhen as (r1 & w1 & Hw & Hdb1). rewrite Hw in Hout.
  destruct r1 as [[]|e]; [|left; now subst out].
  right. exists t. split; [exact E|]. subst out.
  unfold bind, commit_delete, set_db, flash, ret. cbn. now rewrite Hdb1.
Qed.

(** A row that carries the amount, type and category of a validated form
    of [user] respects the data model. *)
Lemma validated_row (d : database) (user : Z) (req : request) (row : Transaction.t) :
  validate_on_submit req (choices_of d user) = true ->
  NoDup (map Category.id (categories d)) ->
  TransactionForm.amount (form req) = Some (Transaction.amount row) ->
  Transaction.transaction_type row = TransactionForm.transaction_type (form req) ->
  Transaction.category_id row
  = match TransactionForm.category_id (form req) with
    | Some c => if c =? 0 then None else Some c
    | None => None
    end ->
  Transaction.user_id row = user ->
  ((Q2Qc (1 # 100) <= Transaction.amount row)%Qc
   /\ In (Transaction.transaction_type row) ["income"; "expense"])
  /\ forall c, In c (categories d) ->
       Transaction.category_id row = Some (Category.id c) ->
       Category.user_id c = Transaction.user_id row.
Proof.
  intros Hvalid Hcats Hamount Htype Hcat Huser.
  unfold validate_on_submit, validate in Hvalid. rewrite !andb_true_iff in Hvalid.
  destruct Hvalid as (_ & ((((((Ha & _) & Hty) & Hc) & _) & _) & _)).
  split; [split|].
  - unfold validate_amount in Ha. rewrite Hamount in Ha.
    apply andb_true_iff in Ha as [_ Ha]. now apply bool_decide_eq_true in Ha.
  - rewrite Htype. apply bool_decide_eq_true in Hty. now apply list_elem_of_In.
  - intros c Hcin E. rewrite Hcat in E. unfold validate_category_id in Hc.
    destruct (TransactionForm.category_id (form req)) as [k|]; [|discriminate].
    destruct (k =? 0); [discriminate|]. injection E as ->.
    apply bool_decide_eq_true, list_elem_of_In in Hc.
    unfold choices_of in Hc. rewrite map_map in Hc. cbn [fst] in Hc.
    apply in_map_iff in Hc as (c' & Hid & Hc'). apply List.filter_In in Hc' as [Hc' Hu].
    apply Z.eqb_eq in Hu.
    rewrite (NoDup_map_eq Category.id _ c c' Hcats Hcin Hc' (eq_sym Hid)). congruence.
Qed.

Lemma NoDup_filter_map {A B} (f : A -> B) (p : A -> bool) (l : list A) :
  NoDup (map f l) -> NoDup (map f (List.filter p l)).
Proof.
  rewrite !NoDup_ListNoDup. induction l as [|x l IH]; [auto|]. cbn.
  intros H. apply List.NoDup_cons_iff in H as [Hx Hl].
  destruct (p x); [|auto]. cbn. apply List.NoDup_cons_iff. split; [|auto].
  intros Hin. apply Hx. apply in_map_iff in Hin as (y & E & Hy).
  apply List.filter_In in Hy as [Hy _]. apply in_map_iff. eauto.
Qed.

Lemma well_formed_update (d : database) (user : Z) (req : request) (t t' : Transaction.t) :
  well_formed d ->
  validate_on_submit req (choices_of d user) = true ->
  Transaction.user_id t = user ->
  Transaction.id t' = Transaction.id t ->
  TransactionForm.amount (form req) = Some (Transaction.amount t') ->
  Transaction.transaction_type t' = TransactionForm.transaction_type (form req) ->
  Transaction.category_id t'
  = match TransactionForm.category_id (form req) with
    | Some c => if c =? 0 then None else Some c
    | None => None
    end ->
  Transaction.user_id t' = Transaction.user_id t ->
  well_formed
    (mkdb (categories d)
       (map (fun r => if Transaction.id r =? Transaction.id t then t' else r)
          (transactions d))).
Proof.
  intros (Hids & Hcats & Hrows & Hown) Hvalid Huser Hid Ha Hty Hc Hu.
  destruct (validated_row d user req t' Hvalid Hcats Ha Hty Hc ltac:(congruence))
    as [Hrow Hcat].
  unfold well_formed. cbn [transactions categories]. split; [|split; [assumption|split]].
  - rewrite map_map.
    rewrite (map_ext_in _ Transaction.id); [assumption|].
    intros r _. destruct (Z.eqb_spec (Transaction.id r) (Transaction.id t)); congruence.
  - intros r Hr. apply in_map_iff in Hr as (r0 & <- & Hr0).
    destruct (Transaction.id r0 =? Transaction.id t); auto.
  - intros c r Hcin Hr. apply in_map_iff in Hr as (r0 & <- & Hr0).
    destruct (Transaction.id r0 =? Transaction.id t); auto.
Qed.

(** X8.  The transaction routes keep the data model: when identifiers are
    unique, amounts are at least one cent, types are income or expense and
    rows name categories of their own user, the same holds after
    [edit_transaction] and [delete_transaction], whatever the request and
    whatever they answer, and after [add_transaction] when the identifier of
    the new row is not in use. *)
Theorem routes_keep_data_model (user tid : Z) (req : request) (uuid4 : N) (new_id now : Z)
    (w : world) :
  well_formed (db w) ->
  well_formed (db (snd (edit_transaction user tid req uuid4 w)))
  /\ well_formed (db (snd (delete_transaction user tid w)))
  /\ ((forall t, In t (transactions (db w)) -> Transaction.id t <> new_id) ->
      well_formed (db (snd (add_transaction user req uuid4 new_id now w)))).
Proof.
  intros Hwf. split; [|split].
  - destruct (edit_transaction_db user tid req uuid4 w) as [->|(t & rf & Hfound & Hvalid & _ & ->)];
      [assumption|].
    destruct (first_or_404_found w user tid t Hfound) as (_ & _ & Hu).
    destruct (validate_on_submit_fields _ _ Hvalid) as (a & d & Ha & Hd).
    apply (well_formed_update (db w) user req t); try assumption;
      destruct t; cbn; try reflexivity. now rewrite Ha.
  - destruct (delete_transaction_db user tid w) as [->|(t & _ & _ & ->)]; [assumption|].
    destruct Hwf as (Hids & Hcats & Hrows & Hown).
    unfold well_formed. cbn [transactions categories].
    split; [now apply NoDup_filter_map|]. split; [assumption|]. split.
    + intros r Hr. apply List.filter_In in Hr as [Hr _]. auto.
    + intros c r Hc Hr. apply List.filter_In in Hr as [Hr _]. auto.
  - intros Hfresh.
    destruct (validate_on_submit req (choices_of (db w) user)) eqn:Hvalid;
      [|now rewrite add_transaction_invalid].
    destruct (add_transaction_valid user req uuid4 new_id now w Hvalid)
      as (w1 & name & _ & _ & ->).
    destruct (validate_on_submit_fields _ _ Hvalid) as (a & d & Ha & Hd).
    destruct Hwf as (Hids & Hcats & Hrows & Hown).
    destruct (validated_row (db w) user req (new_transaction (form req) name user new_id now)
                Hvalid Hcats) as [Hrow Hcat]; try reflexivity.
    { unfold new_transaction. cbn. now rewrite Ha. }
    unfold well_formed. cbn [snd db transactions categories].
    split; [|split; [assumption|split]].
    + rewrite map_app. cbn. apply NoDup_app. split; [assumption|].
      split; [|apply NoDup_singleton].
      intros x Hx Hx'. apply list_elem_of_singleton in Hx'. subst x.
      apply list_elem_of_In, in_map_iff in Hx as (t & E & Ht). exact (Hfresh t Ht E).
    + intros r Hr. apply in_app_iff in Hr as [Hr|[<-|[]]]; auto.
    + intros c r Hc Hr. apply in_app_iff in Hr as [Hr|[<-|[]]]; auto.
Qed.

(** X9.  In a table with unique identifiers, [edit_transaction] never
    changes which rows there are, who owns them or when they were created,
    and it never touches the categories, whatever the request. *)
Theorem edit_transaction_keeps_identity (user tid : Z) (req : request) (uuid4 : N)
    (w : world) :
  NoDup (map Transaction.id (transactions (db w))) ->
  map (fun t => (Transaction.id t, Transaction.user_id t, Transaction.created_at t))
    (transactions (db (snd (edit_transaction user tid req uuid4 w))))
  = map (fun t => (Transaction.id t, Transaction.user_id t, Transaction.created_at t))
      (transactions (db w))
  /\ categories (db (snd (edit_transaction user tid req uuid4 w))) = categories (db w).
Proof.
  intros Hids.
  destruct (edit_transaction_db user tid req uuid4 w) as [->|(t & rf & Hfound & _ & _ & ->)];
    [now split|].
  destruct (first_or_404_found w user tid t Hfound) as (Hin & _ & _).
  cbn [transactions categories]. split; [|reflexivity].
  rewrite map_map. apply map_ext_in. intros r Hr.
  destruct (Z.eqb_spec (Transaction.id r) (Transaction.id t)) as [E|_]; [|reflexivity].
  rewrite (NoDup_map_eq Transaction.id _ r t Hids Hr Hin E). now destruct t.
Qed.

(** ** Deleting, downloading and replacing *)

(** Away from directories, [remove_if_exists] removes the file if there is
    one and does nothing else. *)
Lemma remove_if_exists_file (p : string) (w : world) :
  p ∉ dirs w ->
  remove_if_exists p w
  = (Ok tt, mkworld (db w) (delete p (files w)) (dirs w) (stdout w) (flashes w)).
Proof.
  intros Hdir. unfold remove_if_exists, bind, os_path_exists, when, os_remove, ret, set_files.
  rewrite (bool_decide_eq_false_2 (p ∈ dirs w)) by assumption. rewrite orb_false_r.
  destruct (files w !! p) as [b|] eqn:E.
  - rewrite bool_decide_eq_true_2 by eauto. cbn. now rewrite E.
  - rewrite bool_decide_eq_false_2 by (intros [? ?]; discriminate).
    rewrite delete_id by assumption. now destruct w.
Qed.

Lemma first_or_404_after_delete (tid v : Z) (t : Transaction.t) (w w' : world) :
  sqlite_integer tid = true ->
  Transaction.id t = tid ->
  transactions (db w')
  = List.filter (fun r => negb (Transaction.id r =? Transaction.id t)) (transactions (db w)) ->
  first_or_404 tid v w' = (Raise NotFound, w').
Proof.
  intros Hint Hid E. apply first_or_404_absent; [assumption|]. rewrite E.
  intros r Hr Hr'. apply List.filter_In in Hr as [_ Hr].
  apply negb_true_iff, Z.eqb_neq in Hr. congruence.
Qed.

(** X10.  Deleting a row of the requesting user succeeds whether or not the
    receipt and the thumbnail it looks for are on disk, as long as neither
    path is a directory: every row with that identifier is gone and no user
    finds it any more, the other rows and the categories are as before, and
    the file system is the old one without those two paths. *)
Theorem delete_transaction_removes_row (user tid : Z) (w : world) (t : Transaction.t) :
  first_or_404 tid user w = (Ok t, w) ->
  let fname := default "" (Transaction.receipt_filename t) in
  (str_bool (Transaction.receipt_filename t) = true ->
   (receipt_path user fname ∉ dirs w) /\ (thumbnail_path user fname ∉ dirs w)) ->
  exists w',
    delete_transaction user tid w = (Ok (redirect "main.transactions"), w')
    /\ transactions (db w')
       = List.filter (fun r => negb (Transaction.id r =? tid)) (transactions (db w))
    /\ categories (db w') = categories (db w)
    /\ (forall v, first_or_404 tid v w' = (Raise NotFound, w'))
    /\ files w'
       = (if str_bool (Transaction.receipt_filename t)
          then delete (thumbnail_path user fname) (delete (receipt_path user fname) (files w))
          else files w)
    /\ dirs w' = dirs w
    /\ flashes w' = flashes w ++ [("Transaction deleted successfully!", "success")].
Proof.
  intros Hfound fname Hdirs.
  destruct (first_or_404_found w user tid t Hfound) as (_ & Hid & _).
  unfold delete_transaction. unfold bind at 1. rewrite Hfound.
  fold fname.
  change (os_path_join UPLOAD_FOLDER [str user; fname]) with (receipt_path user fname).
  change (os_path_join UPLOAD_FOLDER [str user; "thumbnails"; fname])
    with (thumbnail_path user fname).
  destruct (str_bool (Transaction.receipt_filename t)) eqn:Hrf.
  - destruct (Hdirs eq_refl) as [Hd1 Hd2].
    unfold when, bind. rewrite (remove_if_exists_file _ w Hd1).
    rewrite remove_if_exists_file by exact Hd2.
    unfold commit_delete, set_db, flash, ret. cbn. rewrite Hid.
    eexists. split; [reflexivity|]. cbn. repeat split.
    intros v. now apply (first_or_404_after_delete tid v t w);
      [apply (first_or_404_bound w user tid t Hfound)| |cbn; rewrite Hid].
  - unfold when, bind, ret, commit_delete, set_db, flash. cbn. rewrite Hid.
    eexists. split; [reflexivity|]. cbn. repeat split.
    intros v. now apply (first_or_404_after_delete tid v t w);
      [apply (first_or_404_bound w user tid t Hfound)| |cbn; rewrite Hid].
Qed.

(** What [download_receipt] answers for a row it finds. *)
Lemma download_receipt_found (user tid : Z) (w : world) (t : Transaction.t) :
  first_or_404 tid user w = (Ok t, w) ->
  let fname := default "" (Transaction.receipt_filename t) in
  let p := receipt_path user fname in
  download_receipt user tid w
  = if negb (str_bool (Transaction.receipt_filename t)) then
      (Ok (redirect "main.transactions"),
       snd (flash "No receipt found for this transaction." "error" w))
    else if bool_decide (is_Some (files w !! p)) then
      (Ok (send_file p
             ("receipt_" +:+ Transaction.description t +:+ "_"
              +:+ date_str (Transaction.date t) +:+ "." +:+ split_last "." fname)), w)
    else if bool_decide (p ∈ dirs w) then (Raise (IsADirectoryError p), w)
    else (Ok (redirect "main.transactions"), snd (flash "Receipt file not found." "error" w)).
Proof.
  intros Hfound fname p. unfold download_receipt. unfold bind at 1. rewrite Hfound.
  subst p. fold fname. unfold receipt_path, os_path_join. cbn [fold_left].
  destruct (str_bool _); cbn [negb]; [|reflexivity].
  unfold bind, os_path_exists, get_world, ret, raise, flash.
  destruct (bool_decide (is_Some _)) eqn:Hfile; cbn [orb negb]; [cbv beta; now rewrite Hfile|].
  destruct (bool_decide (_ ∈ dirs w)); cbn [negb]; [cbv beta; now rewrite Hfile|reflexivity].
Qed.

(** X11.  [download_receipt] changes nothing but the flashed messages, and
    what it sends is always a file that is on disk, at the path made of the
    upload folder, the requesting user's number and the receipt name of a
    row of that user with the requested identifier; when that row names a
    receipt that is not on disk, the answer is a redirect with the message
    that the file was not found, not an error. *)
Theorem download_receipt_serves_own_files (user tid : Z) (w : world) :
  (db (snd (download_receipt user tid w)) = db w
   /\ files (snd (download_receipt user tid w)) = files w
   /\ dirs (snd (download_receipt user tid w)) = dirs w
   /\ stdout (snd (download_receipt user tid w)) = stdout w)
  /\ (forall p name, fst (download_receipt user tid w) = Ok (send_file p name) ->
        is_Some (files w !! p)
        /\ exists t fname, In t (transactions (db w)) /\ Transaction.id t = tid
             /\ Transaction.user_id t = user
             /\ Transaction.receipt_filename t = Some fname
             /\ p = receipt_path user fname)
  /\ (forall t fname, first_or_404 tid user w = (Ok t, w) ->
        Transaction.receipt_filename t = Some fname -> fname <> "" ->
        files w !! receipt_path user fname = None ->
        receipt_path user fname ∉ dirs w ->
        download_receipt user tid w
        = (Ok (redirect "main.transactions"),
           snd (flash "Receipt file not found." "error" w))).
Proof.
  destruct (first_or_404_cases tid user w) as [[e E]|[t E]].
  - unfold download_receipt, bind. rewrite E. cbn. repeat split; discriminate.
  - rewrite (download_receipt_found user tid w t E).
    destruct (first_or_404_found w user tid t E) as (Hin & Hid & Hu).
    split; [|split].
    + destruct (negb _); [now cbn|]. destruct (bool_decide _); [now cbn|].
      destruct (bool_decide _); now cbn.
    + intros p name Hsend.
      destruct (str_bool (Transaction.receipt_filename t)) eqn:Hrf; cbn [negb] in Hsend;
        [|discriminate].
      destruct (bool_decide (is_Some _)) eqn:Hfile; cbn in Hsend.
      * inversion Hsend; subst p name. apply bool_decide_eq_true in Hfile.
        split; [assumption|].
        destruct (Transaction.receipt_filename t) as [fname|] eqn:Hname; [|discriminate].
        exists t, fname. auto 10.
      * destruct (bool_decide (_ ∈ dirs w)); cbn in Hsend; discriminate.
    + intros t0 fname Ht0 Hname Hne Hnone Hdir. rewrite E in Ht0. injection Ht0 as <-.
      rewrite Hname. cbn [default str_bool].
      replace (String.eqb fname "") with false by (symmetry; now apply String.eqb_neq).
      cbn [negb]. unfold id. rewrite bool_decide_eq_false_2 by (rewrite Hnone; intros [? ?]; discriminate).
      now rewrite bool_decide_eq_false_2.
Qed.



Lemma relative_name (fname : string) :
  fname <> "" -> contains "/" fname = false ->
  exists a rest, fname = String a rest /\ a <> "/"%char.
Proof.
  destruct fname as [|a rest]; [congruence|]. intros _ H. exists a, rest.
  split; [reflexivity|]. intros ->. discriminate.
Qed.

Lemma receipt_path_inj (user : Z) (f g : string) :
  f <> "" -> contains "/" f = false -> g <> "" -> contains "/" g = false ->
  receipt_path user f = receipt_path user g -> f = g.
Proof.
  intros Hf Hf' Hg Hg' E.
  destruct (relative_name f Hf Hf') as (a & r & -> & Ha).
  destruct (relative_name g Hg Hg') as (b & s & -> & Hb).
  rewrite !receipt_path_app in E by assumption. now apply String.app_inj in E.
Qed.

Lemma receipt_path_not_thumbnail_plain (user : Z) (f g : string) :
  f <> "" -> contains "/" f = false -> g <> "" -> contains "/" g = false ->
  receipt_path user f <> thumbnail_path user g.
Proof.
  intros Hf Hf' Hg Hg' E.
  destruct (relative_name f Hf Hf') as (a & r & -> & Ha).
  destruct (relative_name g Hg Hg') as (b & s & -> & Hb).
  rewrite receipt_path_app, thumbnail_path_app in E by assumption.
  apply String.app_inj in E. rewrite E in Hf'. now rewrite contains_app in Hf'.
Qed.

Lemma thumbnail_name_plain (file : FileStorage) (user_id : Z) (uuid4 : N) :
  let name := receipt_stem user_id uuid4 +:+ "_thumb"
              +:+ snd (splitext (secure_filename (filename file))) in
  name <> "" /\ contains "/" name = false.
Proof.
  cbv zeta. split.
  - destruct (receipt_stem_leading user_id uuid4) as (a & rest & -> & _). discriminate.
  - rewrite !contains_app, receipt_stem_plain by auto.
    destruct (splitext_extension (secure_filename (filename file))) as (_ & -> & _).
    reflexivity.
Qed.

Lemma first_or_404_updated (tid user : Z) (t t1 : Transaction.t) (w w' : world) :
  first_or_404 tid user w = (Ok t, w) ->
  Transaction.id t1 = tid -> Transaction.user_id t1 = user ->
  transactions (db w')
  = map (fun r => if Transaction.id r =? tid then t1 else r) (transactions (db w)) ->
  first_or_404 tid user w' = (Ok t1, w').
Proof.
  intros Hfound Hid Hu E.
  destruct (first_or_404_found w user tid t Hfound) as (Hin & Hidt & _).
  unfold first_or_404. rewrite (first_or_404_bound w user tid t Hfound). cbn [negb].
  rewrite E, (filter_updated tid user) by assumption.
  destruct (List.filter (fun r => Transaction.id r =? tid) (transactions (db w)))
    as [|r rs] eqn:Er; [|reflexivity].
  exfalso. assert (Hin' : In t (List.filter (fun r => Transaction.id r =? tid)
                                  (transactions (db w)))).
  { apply List.filter_In. split; [assumption|now apply Z.eqb_eq]. }
  now rewrite Er in Hin'.
Qed.

(** X13.  A validated edit that uploads a new receipt replaces the old one:
    the row found afterwards refers to the newly generated name, the file
    under that name holds the upload, and the original the row referred to
    before (a plain name other than the new one) is no longer on disk.  The
    path of the old original must not be a directory. *)
Theorem edit_transaction_replaces_receipt (user tid : Z) (req : request) (uuid4 : N)
    (w : world) (t : Transaction.t) (file : FileStorage) :
  first_or_404 tid user w = (Ok t, w) ->
  validate_on_submit req (choices_of (db w) user) = true ->
  receipt_data (form req) = Some file ->
  let old := default "" (Transaction.receipt_filename t) in
  let fname := unique_filename file user uuid4 in
  (str_bool (Transaction.receipt_filename t) = true -> receipt_path user old ∉ dirs w) ->
  exists w' t',
    edit_transaction user tid req uuid4 w = (Ok (redirect "main.transactions"), w')
    /\ first_or_404 tid user w' = (Ok t', w')
    /\ Transaction.receipt_filename t' = Some fname
    /\ files w' !! receipt_path user fname = Some (stream file)
    /\ (str_bool (Transaction.receipt_filename t) = true ->
        contains "/" old = false -> old <> fname ->
        files w' !! receipt_path user old = None).
Proof.
  intros Hfound Hvalid Hdata old fname Hdir.
  destruct (first_or_404_found w user tid t Hfound) as (Hin & Hid & Hu).
  pose proof (validated_upload_accepted req _ file Hvalid Hdata) as Hok.
  assert (Hwhen : exists w1,
            when (str_bool (Transaction.receipt_filename t))
              (remove_if_exists (receipt_path user old)) w = (Ok tt, w1)
            /\ db w1 = db w
            /\ (str_bool (Transaction.receipt_filename t) = true ->
                files w1 !! receipt_path user old = None)).
  { unfold when. destruct (str_bool (Transaction.receipt_filename t)).
    - rewrite remove_if_exists_file by auto. eexists. split; [reflexivity|].
      split; [reflexivity|]. intros _. cbn. apply lookup_delete_eq.
    - exists w. unfold ret. repeat split. discriminate. }
  destruct Hwhen as (w1 & Hw & Hdb1 & Hgone).
  destruct (save_receipt_file_effect file user uuid4 w1 Hok)
    as (w2 & Hsave & Hfile & Hdb2 & Hframe & _).
  remember (edit_transaction user tid req uuid4 w) as out eqn:Hout.
  unfold edit_transaction in Hout. unfold bind at 1 in Hout. rewrite Hfound in Hout.
  unfold bind at 1, category_choices in Hout. rewrite Hvalid, Hdata in Hout.
  unfold bind at 1 in Hout. unfold bind at 1 in Hout.
  change (os_path_join UPLOAD_FOLDER
            [str user; default "" (Transaction.receipt_filename t)])
    with (receipt_path user old) in Hout.
  rewrite Hw in Hout. unfold bind at 1 in Hout. rewrite Hsave in Hout.
  unfold ret, bind, commit_update, set_db, flash in Hout. cbn in Hout.
  subst out. eexists.
  exists (update_fields (set_receipt_filename t (Some fname)) (form req)).
  split; [reflexivity|].
  split; [|split; [|split]].
  - apply (first_or_404_updated tid user t _ w _ Hfound).
    + exact Hid.
    + exact Hu.
    + cbn. rewrite Hdb2, Hdb1, Hid. reflexivity.
  - reflexivity.
  - exact Hfile.
  - intros Hrf Hplain Hne. cbn [files].
    assert (Hold : old <> "").
    { unfold old. destruct (Transaction.receipt_filename t) as [[|a s]|];
        cbn in Hrf; discriminate. }
    destruct (thumbnail_name_plain file user uuid4) as [Hn Hp].
    assert (Hnew : fname <> "").
    { unfold fname. destruct (unique_filename_leading file user uuid4) as (a & r & -> & _).
      discriminate. }
    rewrite Hframe; [auto| |].
    + intros E. apply Hne. apply (receipt_path_inj user); auto.
      apply unique_filename_plain.
    + apply receipt_path_not_thumbnail_plain; auto.
Qed.

(** ** The lists and the aggregates of the dashboard *)

Lemma date_le_total (a b : date) : date_le a b \/ date_le b a.
Proof. unfold date_le. lia. Qed.

Lemma date_le_trans (a b c : date) : date_le a b -> date_le b c -> date_le a c.
Proof. unfold date_le. lia. Qed.

Lemma later_total : Total later.
Proof. intros a b. unfold later. apply date_le_total. Qed.

Lemma later_trans : Transitive later.
Proof. intros a b c Hab Hbc. unfold later in *. eapply date_le_trans; eassumption. Qed.

Lemma newer_total : Total newer.
Proof. intros a b. unfold newer. lia. Qed.

Lemma newer_trans : Transitive newer.
Proof. intros a b c. unfold newer. lia. Qed.

Lemma StronglySorted_take {A} (R : relation A) (n : nat) (l : list A) :
  StronglySorted R l -> StronglySorted R (take n l).
Proof.
  intros H. rewrite <- (take_drop n l) in H. now apply StronglySorted_app_1_l in H.
Qed.

Lemma StronglySorted_drop {A} (R : relation A) (n : nat) (l : list A) :
  StronglySorted R l -> StronglySorted R (drop n l).
Proof.
  intros H. rewrite <- (take_drop n l) in H. now apply StronglySorted_app_1_r in H.
Qed.

Lemma sorted_by_date (d : database) (user : Z) :
  StronglySorted later (merge_sort later (owned user d))
  /\ merge_sort later (owned user d) ≡ₚ owned user d.
Proof.
  split; [|apply merge_sort_Permutation].
  pose proof later_total. pose proof later_trans. now apply StronglySorted_merge_sort.
Qed.

Lemma transactions_page_slice (d : database) (user : Z) (arg : option Z) :
  exists k, transactions_page d user arg
            = take 20 (drop k (merge_sort later (owned user d))).
Proof. unfold transactions_page, paginate. eexists. reflexivity. Qed.

Lemma first_pages_take (d : database) (user : Z) (n : nat) :
  first_pages d user n = take (20 * n) (merge_sort later (owned user d)).
Proof.
  unfold first_pages. induction n as [|n IH].
  - reflexivity.
  - rewrite seq_S, map_app, concat_app, IH. cbn [map concat]. rewrite app_nil_r.
    unfold transactions_page, paginate, page_arg. cbn [default]. unfold id.
    replace (Z.of_nat (1 + n) <? 1) with false by (symmetry; apply Z.ltb_ge; lia).
    change (owned user d)
      with (List.filter (fun t => Transaction.user_id t =? user) (transactions d)).
    replace (Z.to_nat ((Z.of_nat (1 + n) - 1) * 20)) with (20 * n)%nat by lia.
    change (Z.to_nat 20) with 20%nat.
    rewrite take_take_drop. f_equal. lia.
Qed.

(** X14.  The transaction list is paged twenty rows at a time over the
    requesting user's rows ordered by date, newest first: a page holds at
    most twenty rows, all of them rows of the user; a missing page number
    and one below 1 give page 1; the first [n] pages one after the other
    are in date order, so that no row of a later page is dated after a row
    of an earlier one; and once they reach the end they hold exactly the
    user's rows, each as often as the table has it. *)
Theorem transactions_page_pages (d : database) (user : Z) :
  (forall arg,
     (length (transactions_page d user arg) <= 20)%nat
     /\ forall t, In t (transactions_page d user arg) ->
          In t (transactions d) /\ Transaction.user_id t = user)
  /\ transactions_page d user None = transactions_page d user (Some 1)
  /\ (forall p, p < 1 -> transactions_page d user (Some p) = transactions_page d user (Some 1))
  /\ (forall n, StronglySorted later (first_pages d user n))
  /\ (forall n, (length (owned user d) <= 20 * n)%nat ->
        first_pages d user n ≡ₚ owned user d).
Proof.
  destruct (sorted_by_date d user) as [Hsorted Hperm].
  split; [|split; [|split; [|split]]].
  - intros arg. destruct (transactions_page_slice d user arg) as [k ->]. split.
    + rewrite length_take. lia.
    + intros t Ht. apply list_elem_of_In in Ht.
      apply (subseteq_take 20), (subseteq_drop k) in Ht. rewrite Hperm in Ht.
      apply list_elem_of_In, List.filter_In in Ht as [Hin Hu].
      split; [assumption|now apply Z.eqb_eq].
  - reflexivity.
  - intros p Hp. unfold transactions_page, paginate, page_arg. cbn [default]. unfold id.
    apply Z.ltb_lt in Hp. now rewrite Hp.
  - intros n. rewrite first_pages_take. now apply StronglySorted_take.
  - intros n Hn. rewrite first_pages_take, firstn_all2; [assumption|].
    now rewrite Hperm.
Qed.

(** X15.  The dashboard's recent rows are the five most recently created
    rows of the user, or all of them when there are fewer: they are in
    order of creation, newest first, and the rows of the user split into
    them and a rest none of which was created after any of them. *)
Theorem recent_transactions_newest (d : database) (user : Z) :
  length (recent_transactions d user) = Nat.min 5 (length (owned user d))
  /\ StronglySorted newer (recent_transactions d user)
  /\ exists rest,
       recent_transactions d user ++ rest ≡ₚ owned user d
       /\ forall a b, In a (recent_transactions d user) -> In b rest -> newer a b.
Proof.
  pose proof newer_total. pose proof newer_trans.
  assert (Hsorted : StronglySorted newer (merge_sort newer (owned user d)))
    by now apply StronglySorted_merge_sort.
  pose proof (merge_sort_Permutation newer (owned user d)) as Hperm.
  unfold recent_transactions. fold (owned user d).
  split; [|split].
  - rewrite length_take. now rewrite Hperm.
  - now apply StronglySorted_take.
  - exists (drop 5 (merge_sort newer (owned user d))). rewrite take_drop.
    split; [assumption|]. intros a b Ha Hb.
    rewrite <- (take_drop 5 (merge_sort newer (owned user d))) in Hsorted.
    apply (StronglySorted_app_1_elem_of newer _ _ a b Hsorted);
      now apply list_elem_of_In.
Qed.

Lemma filter_owned (f : Transaction.t -> bool) (user : Z) (d : database) :
  (forall t, f t = true -> Transaction.user_id t = user) ->
  List.filter f (transactions d) = List.filter f (owned user d).
Proof.
  intros Hf. unfold owned. rewrite filter_filter_andb. apply List.filter_ext_in.
  intros t _. destruct (f t) eqn:E; [|now rewrite andb_false_r].
  apply Hf in E. apply Z.eqb_eq in E. now rewrite E.
Qed.

Lemma filter_by_user (user : Z) (ty : string) (t : Transaction.t) :
  filter_by user ty t = true -> Transaction.user_id t = user.
Proof.
  unfold filter_by. intros H. apply andb_true_iff in H as [H _]. now apply Z.eqb_eq.
Qed.

Lemma expense_in_user (user m y : Z) (t : Transaction.t) :
  expense_in user m y t = true -> Transaction.user_id t = user.
Proof. rewrite expense_in_dated. apply dated_user. Qed.

Lemma join_owned (cs : list Category.t) (user m y : Z) (d : database) :
  List.filter (fun ct => expense_in user m y (snd ct)) (cs ≫= block (transactions d))
  = List.filter (fun ct => expense_in user m y (snd ct)) (cs ≫= block (owned user d)).
Proof.
  induction cs as [|c cs IH]; [reflexivity|].
  rewrite !bind_cons, !List.filter_app, IH, !filter_block. do 2 f_equal.
  apply (filter_owned (fun t => in_category c t && expense_in user m y t)).
  intros t Ht. apply andb_true_iff in Ht as [_ Ht]. now apply expense_in_user in Ht.
Qed.

Lemma aggregates_of_owned (d d' : database) (user : Z) :
  categories d = categories d' -> owned user d = owned user d' ->
  (forall ty m y, monthly_sum ty d user m y = monthly_sum ty d' user m y)
  /\ (forall m y, category_expenses d user m y = category_expenses d' user m y)
  /\ get_balance d user = get_balance d' user
  /\ recent_transactions d user = recent_transactions d' user
  /\ (forall arg, transactions_page d user arg = transactions_page d' user arg).
Proof.
  intros Hc Ho. split; [|split; [|split; [|split]]].
  - intros ty m y. unfold monthly_sum.
    rewrite (filter_owned _ user d), (filter_owned _ user d'), Ho;
      [reflexivity|apply filter_by_user..].
  - intros m y. unfold category_expenses, join.
    change (categories d ≫= _) with (categories d ≫= block (transactions d)).
    change (categories d' ≫= _) with (categories d' ≫= block (transactions d')).
    now rewrite (join_owned _ user m y d), (join_owned _ user m y d'), Hc, Ho.
  - unfold get_balance.
    rewrite !(filter_owned _ user d), !(filter_owned _ user d'), Ho;
      [reflexivity|apply filter_by_user..].
  - unfold recent_transactions. fold (owned user d) (owned user d'). now rewrite Ho.
  - intros arg. unfold transactions_page. fold (owned user d) (owned user d').
    now rewrite Ho.
Qed.

(** X16.  What a user sees depends on no row of another user: two databases
    with the same categories and the same rows of this user give the same
    dashboard (recent rows, income and expenses of the month, expenses by
    category, balance) and the same pages of the transaction list. *)
Theorem dashboard_only_own_rows (d d' : database) (user : Z) (now : date) :
  categories d = categories d' -> owned user d = owned user d' ->
  dashboard d user now = dashboard d' user now
  /\ forall arg, transactions_page d user arg = transactions_page d' user arg.
Proof.
  intros Hc Ho.
  destruct (aggregates_of_owned d d' user Hc Ho) as (Hm & Hcat & Hb & Hr & Hp).
  split; [|exact Hp]. unfold dashboard, monthly_income, monthly_expenses.
  now rewrite Hr, !Hm, Hcat, Hb.
Qed.

Lemma total_filter_split {A} (a : A -> Qc) (f g : A -> bool) (xs : list A) :
  (forall x, In x xs -> f x && g x = false) ->
  (total (map a (List.filter f xs)) + total (map a (List.filter g xs)))%Qc
  = total (map a (List.filter (fun x => f x || g x) xs)).
Proof.
  induction xs as [|x xs IH]; intros Hd.
  - cbn. ring.
  - assert (Hx := Hd x (or_introl eq_refl)).
    assert (IH' := IH (fun z Hz => Hd z (or_intror Hz))).
    cbn [List.filter]. destruct (f x), (g x); try discriminate; cbn [orb map total foldr];
      fold (total (map a (List.filter f xs))) (total (map a (List.filter g xs)))
           (total (map a (List.filter (fun x => f x || g x) xs)));
      rewrite <- IH'; ring.
Qed.

Lemma filter_all_true {A} (f : A -> bool) (xs : list A) :
  (forall x, In x xs -> f x = true) -> List.filter f xs = xs.
Proof.
  induction xs as [|x xs IH]; intros H; [reflexivity|]. cbn.
  rewrite (H x (or_introl eq_refl)), IH; [reflexivity|]. intros z Hz. apply H. now right.
Qed.

Lemma total_group_by_sum (rows : list (string * Qc)) :
  total (map snd (group_by_sum rows)) = total (map snd rows).
Proof.
  unfold group_by_sum. rewrite map_map. cbn [snd].
  assert (Hkeys : forall ks, NoDup ks ->
            total (map (fun k => total (map snd (List.filter
                                   (fun r => String.eqb (fst r) k) rows))) ks)
            = total (map snd (List.filter
                       (fun r => existsb (String.eqb (fst r)) ks) rows))).
  { induction ks as [|k ks IH]; intros Hnd.
    - cbn. rewrite filter_nil_of_all_false; [reflexivity|auto].
    - apply NoDup_cons in Hnd as [Hk Hnd]. cbn [map total foldr existsb].
      fold (total (map (fun k => total (map snd (List.filter
                                  (fun r => String.eqb (fst r) k) rows))) ks)).
      rewrite (IH Hnd). apply total_filter_split. intros r _.
      destruct (String.eqb_spec (fst r) k) as [->|]; [|reflexivity].
      cbn. apply not_true_is_false. intros Hex. apply existsb_exists in Hex as (k' & Hk' & E).
      apply String.eqb_eq in E. subst k'. apply Hk. now apply list_elem_of_In. }
  rewrite Hkeys by apply NoDup_remove_dups. f_equal. f_equal.
  apply filter_all_true. intros r Hr.
  apply existsb_exists. exists (fst r). split; [|apply String.eqb_refl].
  apply list_elem_of_In, elem_of_remove_dups, list_elem_of_In, in_map, Hr.
Qed.

Lemma total_join (cs : list Category.t) (ts : list Transaction.t)
    (p : Transaction.t -> bool) :
  NoDup (map Category.id cs) ->
  total (map (fun ct => Transaction.amount (snd ct))
           (List.filter (fun ct => p (snd ct)) (cs ≫= block ts)))
  = total (amounts (List.filter
                      (fun t => existsb (fun c => in_category c t) cs && p t) ts)).
Proof.
  induction cs as [|c cs IH]; intros Hnd.
  - cbn. rewrite filter_nil_of_all_false; [reflexivity|auto].
  - cbn [map] in Hnd. apply NoDup_cons in Hnd as [Hc Hnd].
    rewrite bind_cons, List.filter_app, map_app, total_app, (IH Hnd), filter_block, map_map.
    cbn [snd existsb]. unfold amounts.
    rewrite (total_filter_split Transaction.amount).
    + do 2 f_equal. apply List.filter_ext. intros t.
      now destruct (in_category c t), (existsb _ cs), (p t).
    + intros t _. destruct (p t); [|now rewrite !andb_false_r]. rewrite !andb_true_r.
      destruct (in_category c t) eqn:E1; [|reflexivity].
      destruct (existsb (fun c0 => in_category c0 t) cs) eqn:E2; [|reflexivity].
      exfalso. apply existsb_exists in E2 as (c' & Hc' & E2).
      apply bool_decide_eq_true in E1, E2. apply Hc.
      assert (E : Category.id c = Category.id c') by congruence.
      rewrite E. apply list_elem_of_In, in_map, Hc'.
Qed.

Lemma breakdown_total (d : database) (user m y : Z) :
  NoDup (map Category.id (categories d)) ->
  total (map snd (category_expenses d user m y))
  = total (amounts (List.filter
                      (fun t => dated user "expense" m y t && categorised d t)
                      (transactions d))).
Proof.
  intros Hnd. unfold category_expenses. rewrite total_group_by_sum, map_map. cbn [snd].
  change (join d) with (categories d ≫= block (transactions d)).
  rewrite (total_join _ _ (expense_in user m y) Hnd). do 2 f_equal.
  apply List.filter_ext. intros t. unfold categorised.
  rewrite expense_in_dated. apply andb_comm.
Qed.

(** X17.  With unique category identifiers the dashboard's figures add up:
    the month's expenses are the sum of the amounts of the category
    breakdown and the amounts of the user's expense rows of the month that
    name no category of the table.  When every such row names one, the
    breakdown sums to the month's expenses. *)
Theorem category_expenses_add_up (d : database) (user m y : Z) :
  NoDup (map Category.id (categories d)) ->
  monthly_expenses d user m y
  = (total (map snd (category_expenses d user m y))
     + total (amounts (List.filter
                         (fun t => dated user "expense" m y t && negb (categorised d t))
                         (transactions d))))%Qc
  /\ ((forall t, In t (transactions d) -> dated user "expense" m y t = true ->
         categorised d t = true) ->
      total (map snd (category_expenses d user m y)) = monthly_expenses d user m y).
Proof.
  intros Hnd. unfold monthly_expenses. rewrite monthly_sum_total, breakdown_total by assumption.
  unfold amounts. split.
  - rewrite total_filter_split.
    + do 2 f_equal. apply List.filter_ext. intros t.
      now destruct (dated user "expense" m y t), (categorised d t).
    + intros t _. now destruct (dated user "expense" m y t), (categorised d t).
  - intros Hall. do 2 f_equal. apply List.filter_ext_in. intros t Ht.
    destruct (dated user "expense" m y t) eqn:E; [|reflexivity]. now rewrite (Hall t Ht E).
Qed.

(** ** Accounts *)

Lemma user_by_username_None (name : string) (us : list User.t) :
  user_by_username name us = None -> name ∉ map User.username us.
Proof.
  unfold user_by_username. intros H Hin. apply list_elem_of_In, in_map_iff in Hin as (u & E & Hu).
  apply (find_none _ _ H) in Hu. rewrite E, String.eqb_refl in Hu. discriminate.
Qed.

Lemma user_by_email_None (mail : string) (us : list User.t) :
  user_by_email mail us = None -> mail ∉ map User.email us.
Proof.
  unfold user_by_email. intros H Hin. apply list_elem_of_In, in_map_iff in Hin as (u & E & Hu).
  apply (find_none _ _ H) in Hu. rewrite E, String.eqb_refl in Hu. discriminate.
Qed.

Lemma not_is_Some {A} (x : option A) : bool_decide (is_Some x) = false -> x = None.
Proof.
  destruct x; [|reflexivity]. intros H. apply bool_decide_eq_false in H.
  exfalso. apply H. eauto.
Qed.

(** The two ways [register] ends: with the redirect to the login page and a
    new account, or with accounts and data as they were. *)
Lemma register_cases (generate_password_hash : string -> string) (Email : string -> bool)
    (sub : submission RegisterForm.t) (user_id : Z) (category_id : nat -> Z) (s : site) :
  let f := sub_form sub in
  let out := register generate_password_hash Email sub user_id category_id s in
  (fst out = redirect "main.login"
   /\ session s = None
   /\ is_submitted sub = true /\ validate_register Email f = true
   /\ user_by_username (RegisterForm.username f) (users s) = None
   /\ user_by_email (RegisterForm.email f) (users s) = None
   /\ snd out
      = site_flash "Registration successful! Please log in." "success"
          (mksite
             (users s ++ [User.mk user_id (RegisterForm.username f) (RegisterForm.email f)
                            (generate_password_hash (RegisterForm.password f))])
             (session s)
             (add_categories (default_category_rows user_id category_id) (state s))))
  \/ (fst out <> redirect "main.login"
      /\ users (snd out) = users s /\ session (snd out) = session s
      /\ db (state (snd out)) = db (state s) /\ files (state (snd out)) = files (state s)
      /\ dirs (state (snd out)) = dirs (state s)).
Proof.
  cbv zeta. unfold register.
  destruct (bool_decide (is_Some (session s))) eqn:Hs;
    [right; cbn; repeat split; discriminate|].
  destruct (is_submitted sub) eqn:Hsub; [|right; cbn; repeat split; discriminate].
  destruct (validate_register Email (sub_form sub)) eqn:Hv;
    [|right; cbn; repeat split; discriminate].
  cbn [andb].
  destruct (bool_decide (is_Some (user_by_username _ _))) eqn:Hu;
    [right; cbn; repeat split; discriminate|].
  destruct (bool_decide (is_Some (user_by_email _ _))) eqn:He;
    [right; cbn; repeat split; discriminate|].
  left. cbn [fst snd]. apply not_is_Some in Hs, Hu, He. repeat split; assumption.
Qed.

(** X18.  [register] keeps user names and e-mail addresses unique and
    touches nothing else: the session, the transactions and the stored
    files stay as they are; when it redirects to the login page nobody was
    logged in, the form validated, and exactly one account with the name
    and the address of the form and the hash of its password was added
    after the others, with the default categories after the stored ones;
    in every other case accounts and data are unchanged. *)
Theorem register_keeps_accounts_unique (generate_password_hash : string -> string)
    (Email : string -> bool) (sub : submission RegisterForm.t) (user_id : Z)
    (category_id : nat -> Z) (s : site) :
  let f := sub_form sub in
  let out := register generate_password_hash Email sub user_id category_id s in
  session (snd out) = session s
  /\ transactions (db (state (snd out))) = transactions (db (state s))
  /\ files (state (snd out)) = files (state s)
  /\ (NoDup (map User.username (users s)) -> NoDup (map User.username (users (snd out))))
  /\ (NoDup (map User.email (users s)) -> NoDup (map User.email (users (snd out))))
  /\ (fst out = redirect "main.login" ->
      session s = None /\ validate_register Email f = true
      /\ users (snd out)
         = users s ++ [User.mk user_id (RegisterForm.username f) (RegisterForm.email f)
                         (generate_password_hash (RegisterForm.password f))]
      /\ categories (db (state (snd out)))
         = categories (db (state s)) ++ default_category_rows user_id category_id)
  /\ (fst out <> redirect "main.login" ->
      users (snd out) = users s /\ db (state (snd out)) = db (state s)).
Proof.
  cbv zeta.
  destruct (register_cases generate_password_hash Email sub user_id category_id s)
    as [(Hr & Hs & _ & Hv & Hu & He & ->)|(Hr & Hus & Hs & Hdb & Hf & _)].
  - cbn [snd site_flash users session state flash add_categories db transactions files
         categories].
    split; [reflexivity|]. split; [reflexivity|]. split; [reflexivity|].
    split; [|split; [|split]].
    + intros Hnd. rewrite map_app. apply NoDup_app. split; [assumption|]. split.
      * intros x Hx Hx'. cbn in Hx'. apply list_elem_of_singleton in Hx'. subst x.
        now apply user_by_username_None in Hu.
      * apply NoDup_singleton.
    + intros Hnd. rewrite map_app. apply NoDup_app. split; [assumption|]. split.
      * intros x Hx Hx'. cbn in Hx'. apply list_elem_of_singleton in Hx'. subst x.
        now apply user_by_email_None in He.
      * apply NoDup_singleton.
    + intros _. repeat split; assumption.
    + intros Hne. now rewrite Hr in Hne.
  - rewrite Hus, Hs, Hdb, Hf. repeat split; auto; contradiction.
Qed.

Lemma In_default_category_rows (user_id : Z) (category_id : nat -> Z) (c : Category.t) :
  In c (default_category_rows user_id category_id) ->
  Category.user_id c = user_id
  /\ exists i nc, default_categories !! i = Some nc
       /\ c = Category.mk (category_id i) (fst nc) (snd nc) user_id.
Proof.
  unfold default_category_rows. intros H. apply list_elem_of_In in H.
  apply elem_of_lookup_imap in H as (i & nc & -> & Hi). split; [reflexivity|]. eauto.
Qed.

Lemma default_categories_names (i j : nat) (a b : string * string) :
  default_categories !! i = Some a -> default_categories !! j = Some b ->
  fst a = fst b -> i = j.
Proof.
  intros Hi Hj E.
  assert (Hlt : (i < 8)%nat) by (apply lookup_lt_Some in Hi; exact Hi).
  assert (Hlt' : (j < 8)%nat) by (apply lookup_lt_Some in Hj; exact Hj).
  do 8 (destruct i as [|i]; [do 8 (destruct j as [|j];
          [cbn in Hi, Hj; injection Hi as <-; injection Hj as <-;
           first [reflexivity|discriminate E]|]); lia|]).
  lia.
Qed.

(** X19.  A successful registration of a user who has no category yet gives
    this user the eight default categories as choices, in the order of the
    source, and leaves the choices of every other user alone; it keeps the
    names of each user's categories unique, and keeps category identifiers
    unique when the database assigns identifiers that are new. *)
Theorem register_default_categories (generate_password_hash : string -> string)
    (Email : string -> bool) (sub : submission RegisterForm.t) (user_id : Z)
    (category_id : nat -> Z) (s : site) :
  let out := register generate_password_hash Email sub user_id category_id s in
  let d := db (state s) in
  let d' := db (state (snd out)) in
  fst out = redirect "main.login" ->
  (forall c, In c (categories d) -> Category.user_id c <> user_id) ->
  choices_of d' user_id = imap (fun i nc => (category_id i, fst nc)) default_categories
  /\ (forall v, v <> user_id -> choices_of d' v = choices_of d v)
  /\ (unique_names (categories d) -> unique_names (categories d'))
  /\ (NoDup (map Category.id (categories d)) ->
      NoDup (map category_id (seq 0 8)) ->
      (forall i, (i < 8)%nat -> category_id i ∉ map Category.id (categories d)) ->
      NoDup (map Category.id (categories d'))).
Proof.
  cbv zeta. intros Hr Hfresh.
  destruct (register_cases generate_password_hash Email sub user_id category_id s)
    as [(_ & _ & _ & _ & _ & _ & ->)|(Hne & _)]; [|contradiction].
  cbn [snd site_flash users session state flash add_categories db categories].
  split; [|split; [|split]].
  - unfold choices_of. cbn [categories]. rewrite List.filter_app, map_app.
    rewrite filter_nil_of_all_false.
    + cbn [map app]. unfold default_category_rows, default_categories.
      cbn. rewrite !Z.eqb_refl. reflexivity.
    + intros c Hc. apply Z.eqb_neq. now apply Hfresh.
  - intros v Hv. unfold choices_of. cbn [categories]. rewrite List.filter_app, map_app.
    rewrite (filter_nil_of_all_false _ (default_category_rows _ _)).
    + now rewrite app_nil_r.
    + intros c Hc. apply In_default_category_rows in Hc as [-> _].
      apply Z.eqb_neq. congruence.
  - intros Huniq c1 c2 H1 H2 Hu Hn. cbn [categories] in H1, H2.
    apply in_app_or in H1, H2. destruct H1 as [H1|H1], H2 as [H2|H2].
    + now apply Huniq.
    + exfalso. apply In_default_category_rows in H2 as [H2 _].
      apply (Hfresh c1 H1). congruence.
    + exfalso. apply In_default_category_rows in H1 as [H1 _].
      apply (Hfresh c2 H2). congruence.
    + apply In_default_category_rows in H1 as (_ & i & a & Hi & ->).
      apply In_default_category_rows in H2 as (_ & j & b & Hj & ->).
      cbn in Hn. pose proof (default_categories_names i j a b Hi Hj Hn) as ->.
      rewrite Hi in Hj. now injection Hj as ->.
  - intros Hnd Hinj Hnew. cbn [categories]. rewrite map_app. apply NoDup_app.
    split; [assumption|]. split.
    + intros x Hx Hx'. apply list_elem_of_In, in_map_iff in Hx' as (c & <- & Hc).
      apply In_default_category_rows in Hc as (_ & i & a & Hi & ->). cbn in Hx.
      apply lookup_lt_Some in Hi. now apply (Hnew i Hi).
    + exact Hinj.
Qed.

(** X20.  [login] changes only the session and the flashed messages, never
    accounts or data.  It opens a session for a user only when the form
    validated, an account with the submitted name exists, and the
    submitted password checks against the hash of that account.  A
    validated attempt that fails gives the same page and the same message
    whether the name is unknown or the password is wrong. *)
Theorem login_checks_credentials (check_password_hash : string -> string -> bool)
    (sub : submission LoginForm.t) (s : site) :
  let out := login check_password_hash sub s in
  users (snd out) = users s
  /\ db (state (snd out)) = db (state s)
  /\ files (state (snd out)) = files (state s)
  /\ (session s = None -> forall uid, session (snd out) = Some uid ->
        is_submitted sub = true /\ validate_login (sub_form sub) = true
        /\ exists u, user_by_username (LoginForm.username (sub_form sub)) (users s) = Some u
             /\ User.id u = uid
             /\ check_password_hash (User.password_hash u)
                  (LoginForm.password (sub_form sub)) = true)
  /\ (session s = None -> is_submitted sub = true -> validate_login (sub_form sub) = true ->
      session (snd out) = None ->
      out = (render_template "login.html",
             site_flash "Invalid username or password" "error" s)).
Proof.
  cbv zeta. unfold login.
  destruct (session s) as [v|] eqn:Hs.
  { rewrite bool_decide_eq_true_2 by eauto. cbn [snd fst]. rewrite Hs.
    repeat split; discriminate. }
  rewrite bool_decide_eq_false_2 by (intros [? ?]; discriminate).
  destruct (is_submitted sub) eqn:Hsub; cbn [andb].
  2:{ cbn [snd]. rewrite Hs. repeat split; discriminate. }
  destruct (validate_login (sub_form sub)) eqn:Hv.
  2:{ cbn [snd]. rewrite Hs. repeat split; discriminate. }
  destruct (user_by_username _ (users s)) as [u|] eqn:Hu.
  - destruct (check_password_hash _ _) eqn:Hc; cbn.
    + do 3 (split; [reflexivity|]). split.
      * intros _ uid E. injection E as <-. do 2 (split; [reflexivity|]).
        exists u. auto.
      * intros _ _ _ E. discriminate.
    + rewrite Hs. repeat split; discriminate.
  - cbn. rewrite Hs. repeat split; discriminate.
Qed.

Lemma validate_register_login (Email : string -> bool) (f : RegisterForm.t) :
  validate_register Email f = true ->
  validate_login (LoginForm.mk (RegisterForm.username f) (RegisterForm.password f)) = true.
Proof.
  clear secure_filename UPLOAD_FOLDER.
  unfold validate_register, validate_login.
  cbn [LoginForm.username LoginForm.password]. intros H.
  rewrite !andb_true_iff in H. rewrite !andb_true_iff. tauto.
Qed.

Lemma user_by_username_new (name : string) (us : list User.t) (u : User.t) :
  user_by_username name us = None -> User.username u = name ->
  user_by_username name (us ++ [u]) = Some u.
Proof.
  unfold user_by_username. intros Hnone Hname. induction us as [|x us IH]; cbn in *.
  - now rewrite Hname, String.eqb_refl.
  - destruct (String.eqb (User.username x) name); [discriminate|]. now apply IH.
Qed.

(** X21.  An account that [register] has just created can log in: with a
    password check that accepts a password against its own hash, [login]
    with the name and the password of the registration opens the session
    of the new user and redirects to the dashboard. *)
Theorem register_then_login (generate_password_hash : string -> string)
    (check_password_hash : string -> string -> bool) (Email : string -> bool)
    (sub : submission RegisterForm.t) (user_id : Z) (category_id : nat -> Z) (s : site) :
  (forall p, check_password_hash (generate_password_hash p) p = true) ->
  fst (register generate_password_hash Email sub user_id category_id s)
  = redirect "main.login" ->
  let s' := snd (register generate_password_hash Email sub user_id category_id s) in
  fst (login check_password_hash (login_with (sub_form sub)) s') = redirect "main.dashboard"
  /\ session (snd (login check_password_hash (login_with (sub_form sub)) s')) = Some user_id.
Proof.
  intros Hcheck Hr. cbv zeta.
  destruct (register_cases generate_password_hash Email sub user_id category_id s)
    as [(_ & Hs & _ & Hv & Hu & _ & ->)|(Hne & _)]; [|contradiction].
  unfold login. cbn [site_flash session users state].
  rewrite Hs. rewrite bool_decide_eq_false_2 by (intros [? ?]; discriminate).
  change (is_submitted (login_with (sub_form sub))) with true.
  change (sub_form (login_with (sub_form sub)))
    with (LoginForm.mk (RegisterForm.username (sub_form sub))
            (RegisterForm.password (sub_form sub))).
  rewrite (validate_register_login Email _ Hv). cbn [andb LoginForm.username LoginForm.password].
  rewrite (user_by_username_new _ _ (User.mk user_id _ _ _) Hu eq_refl).
  cbn [User.password_hash].
  rewrite Hcheck. split; reflexivity.
Qed.

(** ** What a request does to the other users *)

Lemma owned_after_update (v : Z) (t t' : Transaction.t) (ts : list Transaction.t) :
  (forall r, In r ts -> Transaction.id r = Transaction.id t -> Transaction.user_id r <> v) ->
  Transaction.user_id t' <> v ->
  List.filter (fun r => Transaction.user_id r =? v)
    (map (fun r => if Transaction.id r =? Transaction.id t then t' else r) ts)
  = List.filter (fun r => Transaction.user_id r =? v) ts.
Proof.
  intros Hts Ht'. induction ts as [|r ts IH]; [reflexivity|]. cbn [map List.filter].
  rewrite IH by (intros z Hz; apply Hts; now right).
  destruct (Z.eqb_spec (Transaction.id r) (Transaction.id t)) as [E|_]; [|reflexivity].
  apply Z.eqb_neq in Ht'. rewrite Ht'.
  pose proof (Hts r (or_introl eq_refl) E) as Hr. apply Z.eqb_neq in Hr. now rewrite Hr.
Qed.

Lemma owned_after_delete (v : Z) (t : Transaction.t) (ts : list Transaction.t) :
  (forall r, In r ts -> Transaction.id r = Transaction.id t -> Transaction.user_id r <> v) ->
  List.filter (fun r => Transaction.user_id r =? v)
    (List.filter (fun r => negb (Transaction.id r =? Transaction.id t)) ts)
  = List.filter (fun r => Transaction.user_id r =? v) ts.
Proof.
  intros Hts. induction ts as [|r ts IH]; [reflexivity|]. cbn [List.filter].
  specialize (IH (fun z Hz => Hts z (or_intror Hz))).
  destruct (Z.eqb_spec (Transaction.id r) (Transaction.id t)) as [E|_]; cbn [negb].
  - pose proof (Hts r (or_introl eq_refl) E) as Hr. apply Z.eqb_neq in Hr. now rewrite Hr.
  - cbn [List.filter]. now rewrite IH.
Qed.

Lemma same_id_same_owner (w : world) (user tid : Z) (t : Transaction.t) (v : Z) :
  NoDup (map Transaction.id (transactions (db w))) -> v <> user ->
  first_or_404 tid user w = (Ok t, w) ->
  forall r, In r (transactions (db w)) -> Transaction.id r = Transaction.id t ->
    Transaction.user_id r <> v.
Proof.
  intros Hnd Hv Hfound r Hr E.
  destruct (first_or_404_found w user tid t Hfound) as (Hin & _ & Hu).
  rewrite (NoDup_map_eq Transaction.id _ r t Hnd Hr Hin E). congruence.
Qed.

Lemma add_transaction_db (user : Z) (req : request) (uuid4 : N) (new_id now : Z) (w : world) :
  db (snd (add_transaction user req uuid4 new_id now w)) = db w
  \/ exists row, Transaction.user_id row = user
       /\ db (snd (add_transaction user req uuid4 new_id now w))
          = mkdb (categories (db w)) (transactions (db w) ++ [row]).
Proof.
  destruct (validate_on_submit req (choices_of (db w) user)) eqn:Hvalid.
  - destruct (add_transaction_valid user req uuid4 new_id now w Hvalid)
      as (w1 & name & _ & _ & ->).
    right. eexists. split; [|reflexivity]. reflexivity.
  - left. now rewrite add_transaction_invalid.
Qed.

Lemma others_rows_kept (user tid : Z) (req : request) (uuid4 : N) (new_id now : Z)
    (w : world) (v : Z) :
  NoDup (map Transaction.id (transactions (db w))) -> v <> user ->
  forall w',
    w' = snd (edit_transaction user tid req uuid4 w)
    \/ w' = snd (delete_transaction user tid w)
    \/ w' = snd (add_transaction user req uuid4 new_id now w) ->
    categories (db w') = categories (db w) /\ owned v (db w') = owned v (db w).
Proof.
  intros Hnd Hv w' [->|[->| ->]].
  - destruct (edit_transaction_db user tid req uuid4 w) as [->|(t & rf & Hfound & _ & _ & ->)];
      [now split|].
    split; [reflexivity|]. unfold owned. cbn [transactions].
    apply owned_after_update.
    + now apply (same_id_same_owner w user tid).
    + destruct (first_or_404_found w user tid t Hfound) as (_ & _ & Hu). cbn. congruence.
  - destruct (delete_transaction_db user tid w) as [->|(t & Hfound & _ & ->)]; [now split|].
    split; [reflexivity|]. unfold owned. cbn [transactions].
    apply owned_after_delete. now apply (same_id_same_owner w user tid).
  - destruct (add_transaction_db user req uuid4 new_id now w) as [->|(row & Hrow & ->)];
      [now split|].
    split; [reflexivity|]. unfold owned. cbn [transactions].
    rewrite List.filter_app. cbn [List.filter].
    replace (Transaction.user_id row =? v) with false
      by (symmetry; apply Z.eqb_neq; congruence).
    apply app_nil_r.
Qed.

(** X22.  With unique transaction identifiers, nothing a user does through
    [add_transaction], [edit_transaction] or [delete_transaction] shows on
    the pages of another user, whatever the request and whatever the
    route answers: the dashboard and every page of the transaction list of
    the other user are as before. *)
Theorem routes_touch_only_own_rows (user tid : Z) (req : request) (uuid4 : N)
    (new_id now : Z) (w : world) (v : Z) :
  NoDup (map Transaction.id (transactions (db w))) -> v <> user ->
  forall day arg,
    view (db (snd (edit_transaction user tid req uuid4 w))) v day arg = view (db w) v day arg
    /\ view (db (snd (delete_transaction user tid w))) v day arg = view (db w) v day arg
    /\ view (db (snd (add_transaction user req uuid4 new_id now w))) v day arg
       = view (db w) v day arg.
Proof.
  intros Hnd Hv day arg.
  pose proof (others_rows_kept user tid req uuid4 new_id now w v Hnd Hv) as Hkept.
  assert (Hview : forall w', categories (db w') = categories (db w)
                             /\ owned v (db w') = owned v (db w) ->
                             view (db w') v day arg = view (db w) v day arg).
  { intros w' [Hc Ho].
    destruct (aggregates_of_owned (db w') (db w) v Hc Ho) as (Hm & Hcat & Hb & Hr & Hp).
    unfold view, dashboard, monthly_income, monthly_expenses.
    now rewrite Hr, !Hm, Hcat, Hb, Hp. }
  split; [|split]; apply Hview, Hkept; auto.
Qed.

End App.

(** ** The examples, evaluated *)

(** The receipt and the thumbnail of [receipt_world] are the ones
    [save_receipt_file] writes for [photo]. *)
Lemma receipt_world_stored :
  fst (save_receipt_file example_root werkzeug_secure_filename photo 1 example_uuid
         (mkworld (db receipt_world) ∅ ∅ [] []))
  = Ok (Some "1_abcdef12.png")
  /\ map_to_list
       (files (snd (save_receipt_file example_root werkzeug_secure_filename photo 1
                      example_uuid (mkworld (db receipt_world) ∅ ∅ [] []))))
     = map_to_list (files receipt_world)
  /\ elements
       (dirs (snd (save_receipt_file example_root werkzeug_secure_filename photo 1
                     example_uuid (mkworld (db receipt_world) ∅ ∅ [] []))))
     = elements (dirs receipt_world).
Proof. vm_compute. repeat split. Qed.

(** C4, as stated, fails: the thumbnail of a stored picture is not under the
    generated name in the thumbnails directory, where nothing is written;
    a file named like a picture that PIL cannot open gets no thumbnail at
    all; and neither does a picture whose name is its extension alone, as
    the sanitized name has no extension left. *)
Lemma thumbnail_not_under_generated_name :
  (let out :=
     save_receipt_file example_root werkzeug_secure_filename photo 1 example_uuid
       empty_world in
   fst out = Ok (Some "1_abcdef12.png")
   /\ files (snd out) !! "/srv/uploads/1/1_abcdef12.png" = Some (Picture 400 300 true)
   /\ files (snd out) !! "/srv/uploads/1/thumbnails/1_abcdef12.png" = None
   /\ files (snd out) !! "/srv/uploads/1/thumbnails/1_abcdef12_thumb.png"
      = Some (Picture 200 150 true))
  /\ (let out :=
        save_receipt_file example_root werkzeug_secure_filename broken_photo 1
          example_uuid empty_world in
      fst out = Ok (Some "1_abcdef12.png")
      /\ map_to_list (files (snd out))
         = [("/srv/uploads/1/1_abcdef12.png", Data "not a picture")])
  /\ (let out :=
        save_receipt_file example_root werkzeug_secure_filename nameless_photo 1
          example_uuid empty_world in
      allowed_file (filename nameless_photo) = true
      /\ fst out = Ok (Some "1_abcdef12")
      /\ map_to_list (files (snd out))
         = [("/srv/uploads/1/1_abcdef12", Picture 400 300 true)]).
Proof. vm_compute. repeat split. Qed.


(** C5.  Deleting the row of [receipt_world] removes the original of its
    receipt and the row, after which a download is answered with not
    found; the thumbnail [save_receipt_file] wrote for the receipt stays
    on disk, because [delete_transaction] looks for it under the name of
    the receipt while [create_thumbnail] wrote it under the name with
    "_thumb" before the extension. *)
Theorem delete_transaction_leaves_thumbnail :
  files receipt_world !! "/srv/uploads/1/thumbnails/1_abcdef12_thumb.png"
  = Some (Picture 200 150 true)
  /\ fst (delete_transaction example_root 1 7 receipt_world)
     = Ok (redirect "main.transactions")
  /\ transactions (db (snd (delete_transaction example_root 1 7 receipt_world)))
     = [other_row]
  /\ files (snd (delete_transaction example_root 1 7 receipt_world))
       !! "/srv/uploads/1/1_abcdef12.png" = None
  /\ files (snd (delete_transaction example_root 1 7 receipt_world))
       !! "/srv/uploads/1/thumbnails/1_abcdef12_thumb.png"
     = Some (Picture 200 150 true)
  /\ fst (download_receipt example_root 1 7
            (snd (delete_transaction example_root 1 7 receipt_world)))
     = Raise NotFound.
Proof. vm_compute. repeat split. Qed.

(** C6.  Editing the row of [receipt_world] with a new upload removes the
    original of the old receipt before the new one is stored, and the row
    gets a new reference; the thumbnail of the old receipt stays on disk,
    as [edit_transaction] removes no thumbnail. *)
Theorem edit_transaction_leaves_old_thumbnail :
  fst (edit_transaction example_root werkzeug_secure_filename 1 7
         (edit_request (Some photo)) example_uuid' receipt_world)
  = Ok (redirect "main.transactions")
  /\ map Transaction.receipt_filename
       (transactions (db (snd (edit_transaction example_root werkzeug_secure_filename 1 7
                                 (edit_request (Some photo)) example_uuid' receipt_world))))
     = [Some "1_0badcafe.png"; None]
  /\ map_to_list
       (files (snd (edit_transaction example_root werkzeug_secure_filename 1 7
                      (edit_request (Some photo)) example_uuid' receipt_world)))
     = [("/srv/uploads/1/1_0badcafe.png", Picture 400 300 true);
        ("/srv/uploads/1/thumbnails/1_abcdef12_thumb.png", Picture 200 150 true);
        ("/srv/uploads/1/thumbnails/1_0badcafe_thumb.png", Picture 200 150 true)].
Proof. vm_compute. repeat split. Qed.

(** ** The statements at the examples *)

(** The balance in the example database: 3000 - 450 - 80 - 20 for user 1,
    0 for a user without rows, the same on the reversed table. *)
Lemma computeBalance_signed_total_witness :
  computeBalance example_db 1 = Q2Qc 2450
  /\ computeBalance example_db 3 = 0%Qc
  /\ computeBalance (with_transactions example_db (rev (transactions example_db))) 1
     = computeBalance example_db 1.
Proof.
  destruct (computeBalance_signed_total example_db 1) as (Hsum & _ & _ & Hperm).
  destruct (computeBalance_signed_total example_db 3) as (_ & _ & Hnone & _).
  split; [rewrite Hsum; qc_eq|]. split.
  - apply Hnone. intros t Ht. simpl in Ht.
    destruct Ht as [<-|[<-|[<-|[<-|[<-|[]]]]]]; discriminate.
  - apply Hperm, Permutation_rev.
Defined.

(** January 2024 of user 1, with and without the row of February, and the
    empty month of March. *)
Lemma computeMonthlySummary_by_date_witness :
  computeMonthlySummary example_db 1 1 2024 = (Q2Qc 3000, Q2Qc 470)
  /\ computeMonthlySummary
       (with_transactions example_db [salary_row; food_row; cash_row; other_row]) 1 1 2024
     = computeMonthlySummary example_db 1 1 2024
  /\ computeMonthlySummary example_db 1 3 2024 = (0%Qc, 0%Qc).
Proof.
  destruct (computeMonthlySummary_by_date example_db 1 1 2024) as (Hsum & Hdrop & _ & _).
  destruct (computeMonthlySummary_by_date example_db 1 3 2024) as (_ & _ & _ & Hnone).
  split; [rewrite Hsum; f_equal; qc_eq|]. split.
  - apply (Hdrop [salary_row; food_row] transport_row [cash_row; other_row]).
    + reflexivity.
    + left. discriminate.
  - apply Hnone. intros t Ht _. simpl in Ht.
    destruct Ht as [<-|[<-|[<-|[<-|[<-|[]]]]]]; left; discriminate.
Defined.

(** January 2024 of user 1 by category: Food alone, the expense without
    category being counted in the monthly total only. *)
Lemma computeCategoryBreakdown_per_category_witness :
  In ("Food", Q2Qc 450) (computeCategoryBreakdown example_db 1 1 2024)
  /\ computeCategoryBreakdown
       (with_transactions example_db [salary_row; food_row; transport_row; other_row])
       1 1 2024
     = computeCategoryBreakdown example_db 1 1 2024
  /\ snd (computeMonthlySummary example_db 1 1 2024)
     = (snd (computeMonthlySummary
               (with_transactions example_db
                  [salary_row; food_row; transport_row; other_row]) 1 1 2024)
        + Q2Qc 20)%Qc.
Proof.
  destruct (computeCategoryBreakdown_per_category example_db 1 1 2024)
    as (_ & _ & Hsum & Hnull).
  split.
  - replace (Q2Qc 450)
      with (total (amounts (List.filter
                     (fun t => dated 1 "expense" 1 2024 t && in_category food t)
                     (transactions example_db)))) by qc_eq.
    apply (fun H1 H2 H3 => Hsum H1 H2 H3 food).
    + simpl. apply NoDup_ListNoDup. repeat constructor; simpl; intuition discriminate.
    + intros c1 c2 H1 H2 _ Hn. simpl in H1, H2.
      destruct H1 as [<-|[<-|[]]], H2 as [<-|[<-|[]]]; first [reflexivity|discriminate].
    + intros c1 t H1 Ht E. simpl in H1, Ht.
      destruct H1 as [<-|[<-|[]]], Ht as [<-|[<-|[<-|[<-|[<-|[]]]]]];
        first [reflexivity|discriminate].
    + now left.
    + exists food_row. split; [simpl; tauto|]. split; reflexivity.
  - destruct (Hnull [salary_row; food_row; transport_row] cash_row [other_row]
                eq_refl eq_refl) as [Hsame Hcount].
    split; [exact Hsame|]. exact (Hcount eq_refl).
Defined.

(** setup.exe is refused and nothing changes. *)
Lemma save_receipt_file_disallowed_witness :
  save_receipt_file example_root werkzeug_secure_filename program 1 example_uuid
    receipt_world
  = (Ok None, receipt_world).
Proof.
  apply save_receipt_file_disallowed.
  intros stem ext E Hdot.
  pose proof (rsplit_at_last "." stem ext Hdot) as R.
  change (stem +:+ String "." ext) with (stem +:+ "." +:+ ext) in R.
  rewrite <- E in R. vm_compute in R. injection R as <- <-.
  simpl. intuition discriminate.
Defined.

(** receipt.png with content that is no picture: stored, no thumbnail, one
    line printed. *)
Lemma save_receipt_file_thumbnail_failure_witness :
  exists w',
    save_receipt_file example_root werkzeug_secure_filename broken_photo 1 example_uuid
      empty_world
    = (Ok (Some "1_abcdef12.png"), w')
    /\ files w' !! "/srv/uploads/1/1_abcdef12.png" = Some (Data "not a picture")
    /\ stdout w'
       = ["Error creating thumbnail: cannot identify image file /srv/uploads/1/1_abcdef12.png"].
Proof.
  destruct (save_receipt_file_thumbnail_failure example_root werkzeug_secure_filename
              broken_photo 1 example_uuid empty_world
              (saved example_root broken_photo 1 "1_abcdef12.png" empty_world)
              (UnidentifiedImageError "/srv/uploads/1/1_abcdef12.png"))
    as (w' & E & Hfile & _ & _ & Hout);
    [reflexivity|reflexivity|vm_compute; tauto|reflexivity|].
  exists w'. split; [exact E|]. split; [exact Hfile|exact Hout].
Defined.

(** A 400 x 300 receipt.png and a pdf. *)
Lemma save_receipt_file_thumbnail_witness :
  (exists w' t,
     save_receipt_file example_root werkzeug_secure_filename photo 1 example_uuid
       empty_world
     = (Ok (Some "1_abcdef12.png"), w')
     /\ files w' !! "/srv/uploads/1/1_abcdef12.png" = Some (Picture 400 300 true)
     /\ files w' !! "/srv/uploads/1/thumbnails/1_abcdef12_thumb.png"
        = Some (Picture (img_width t) (img_height t) true)
     /\ fits 200 t)
  /\ (exists w',
        save_receipt_file example_root werkzeug_secure_filename scan 1 example_uuid
          empty_world
        = (Ok (Some "1_abcdef12.PDF"), w')
        /\ map_to_list (files w') = [("/srv/uploads/1/1_abcdef12.PDF", Data "%PDF-1.4")]).
Proof.
  split.
  - destruct (save_receipt_file_thumbnail example_root werkzeug_secure_filename photo 1
                example_uuid empty_world eq_refl eq_refl) as [Hpic _].
    destruct (Hpic 400%positive 300%positive) as (w' & t & E & Ho & Ht & Hfit & _);
      [vm_compute; tauto|reflexivity|].
    exists w', t. repeat split; [exact E|exact Ho|exact Ht|apply Hfit..].
  - destruct (save_receipt_file_thumbnail example_root werkzeug_secure_filename scan 1
                example_uuid empty_world eq_refl eq_refl) as [_ Hpdf].
    destruct (Hpdf eq_refl) as (w' & E & Hfiles).
    exists w'. split; [exact E|]. rewrite Hfiles. reflexivity.
Defined.


(** User 1 edits row 7 without a new upload. *)
Lemma edit_transaction_without_upload_keeps_receipt_witness :
  files (snd (edit_transaction example_root werkzeug_secure_filename 1 7
                (edit_request None) example_uuid receipt_world))
  = files receipt_world
  /\ exists t',
       fst (first_or_404 7 1
              (snd (edit_transaction example_root werkzeug_secure_filename 1 7
                      (edit_request None) example_uuid receipt_world)))
       = Ok t'
       /\ Transaction.receipt_filename t' = Some "1_abcdef12.png"
       /\ Transaction.amount t' = Q2Qc 475.
Proof.
  destruct (edit_transaction_without_upload_keeps_receipt example_root
              werkzeug_secure_filename receipt_world 1 7 (edit_request None) example_uuid
              eq_refl) as (Hfiles & _ & Hrow & _).
  split; [exact Hfiles|].
  destruct (Hrow receipt_row eq_refl) as (t' & E & Hname & Hfields).
  destruct (Hfields eq_refl) as (Hamount & _).
  exists t'. split; [now rewrite E|]. split; [exact Hname|].
  simpl in Hamount. now injection Hamount as <-.
Defined.
(** ** Further statements at the examples *)

Lemma receipt_world_well_formed : well_formed (db receipt_world).
Proof.
  split; [|split; [|split]].
  - apply (bool_decide_unpack _). vm_compute. exact I.
  - apply (bool_decide_unpack _). vm_compute. exact I.
  - intros t Ht. simpl in Ht. destruct Ht as [<-|[<-|[]]];
      (split; [intros H; vm_compute in H; discriminate|simpl; tauto]).
  - intros c t Hc Ht E. simpl in Hc, Ht.
    destruct Hc as [<-|[<-|[]]], Ht as [<-|[<-|[]]]; first [reflexivity|discriminate].
Qed.

Lemma receipt_world_ids : NoDup (map Transaction.id (transactions (db receipt_world))).
Proof. apply (bool_decide_unpack _). vm_compute. exact I. Qed.

(** receipt.png passes both checks. *)
Lemma FileAllowed_allowed_file_witness :
  FileAllowed ["jpg"; "jpeg"; "png"; "pdf"] (Some photo) = allowed_file (filename photo).
Proof. apply FileAllowed_allowed_file. reflexivity. Defined.

(** The pdf stored beside the receipt of row 7, which stays. *)
Lemma save_receipt_file_writes_only_its_own_witness :
  exists w',
    save_receipt_file example_root werkzeug_secure_filename scan 1 example_uuid'
      receipt_world
    = (Ok (Some "1_0badcafe.PDF"), w')
    /\ files w' !! "/srv/uploads/1/1_0badcafe.PDF" = Some (Data "%PDF-1.4")
    /\ files w' !! "/srv/uploads/1/1_abcdef12.png" = Some (Picture 400 300 true).
Proof.
  destruct (save_receipt_file_writes_only_its_own example_root werkzeug_secure_filename
              scan 1 example_uuid' receipt_world eq_refl eq_refl)
    as (w' & E & Hfile & _ & Hframe & _).
  exists w'. split; [exact E|]. split; [exact Hfile|].
  rewrite Hframe; [reflexivity|intros H; vm_compute in H; discriminate..].
Defined.

(** User 1 adds an expense of 475 dated 11 January 2024 to the 450 of the
    month. *)
Lemma add_transaction_monthly_summary_witness :
  computeMonthlySummary
    (db (snd (add_transaction example_root werkzeug_secure_filename 1 (edit_request None)
                example_uuid' 8 200 receipt_world))) 1 1 2024
  = (0%Qc, Q2Qc 925).
Proof.
  rewrite (add_transaction_monthly_summary example_root werkzeug_secure_filename 1
             (edit_request None) example_uuid' 8 200 receipt_world (Q2Qc 475)
             (mkdate 2024 1 11) eq_refl eq_refl eq_refl 1 1 2024).
  f_equal; qc_eq.
Defined.

(** The three routes on the world of row 7. *)
Lemma routes_keep_data_model_witness :
  well_formed (db (snd (edit_transaction example_root werkzeug_secure_filename 1 7
                          (edit_request None) example_uuid' receipt_world)))
  /\ well_formed (db (snd (delete_transaction example_root 1 7 receipt_world)))
  /\ well_formed (db (snd (add_transaction example_root werkzeug_secure_filename 1
                             (edit_request None) example_uuid' 8 200 receipt_world))).
Proof.
  destruct (routes_keep_data_model example_root werkzeug_secure_filename 1 7
              (edit_request None) example_uuid' 8 200 receipt_world
              receipt_world_well_formed) as (He & Hd & Ha).
  split; [exact He|]. split; [exact Hd|]. apply Ha.
  intros t Ht. simpl in Ht. destruct Ht as [<-|[<-|[]]]; discriminate.
Defined.

(** Row 7 edited with a new receipt: the rows are 7 of user 1 and 5 of
    user 2 as before. *)
Lemma edit_transaction_keeps_identity_witness :
  map (fun t => (Transaction.id t, Transaction.user_id t, Transaction.created_at t))
    (transactions (db (snd (edit_transaction example_root werkzeug_secure_filename 1 7
                              (edit_request (Some scan)) example_uuid' receipt_world))))
  = [(7, 1, 105); (5, 2, 104)].
Proof.
  destruct (edit_transaction_keeps_identity example_root werkzeug_secure_filename 1 7
              (edit_request (Some scan)) example_uuid' receipt_world receipt_world_ids)
    as [E _].
  rewrite E. reflexivity.
Defined.

(** Row 7 deleted: row 5 remains and the receipt is gone; the thumbnail
    lies under another name than the one looked for. *)
Lemma delete_transaction_removes_row_witness :
  exists w',
    delete_transaction example_root 1 7 receipt_world
    = (Ok (redirect "main.transactions"), w')
    /\ transactions (db w') = [other_row]
    /\ map_to_list (files w')
       = [("/srv/uploads/1/thumbnails/1_abcdef12_thumb.png", Picture 200 150 true)].
Proof.
  destruct (delete_transaction_removes_row example_root 1 7 receipt_world receipt_row
              eq_refl) as (w' & E & Hrows & _ & _ & Hfiles & _).
  - intros _. split; apply (bool_decide_eq_false_1 _); vm_compute; reflexivity.
  - exists w'. split; [exact E|]. split; [exact Hrows|]. rewrite Hfiles.
    vm_compute. reflexivity.
Defined.


(** Row 7 gets the pdf in place of the picture. *)
Lemma edit_transaction_replaces_receipt_witness :
  exists w' t',
    edit_transaction example_root werkzeug_secure_filename 1 7 (edit_request (Some scan))
      example_uuid' receipt_world
    = (Ok (redirect "main.transactions"), w')
    /\ first_or_404 7 1 w' = (Ok t', w')
    /\ Transaction.receipt_filename t' = Some "1_0badcafe.PDF"
    /\ files w' !! "/srv/uploads/1/1_0badcafe.PDF" = Some (Data "%PDF-1.4")
    /\ files w' !! "/srv/uploads/1/1_abcdef12.png" = None.
Proof.
  destruct (edit_transaction_replaces_receipt example_root werkzeug_secure_filename 1 7
              (edit_request (Some scan)) example_uuid' receipt_world receipt_row scan
              eq_refl eq_refl eq_refl) as (w' & t' & E & Hfound & Hname & Hnew & Hold).
  - intros _. apply (bool_decide_eq_false_1 _). vm_compute. reflexivity.
  - exists w', t'. split; [exact E|]. split; [exact Hfound|]. split; [exact Hname|].
    split; [exact Hnew|]. apply Hold; [reflexivity|reflexivity|discriminate].
Defined.

(** User 1 sees the same with and without the row of user 2. *)
Lemma dashboard_only_own_rows_witness :
  dashboard example_db 1 (mkdate 2024 1 15) = dashboard example_db_of_1 1 (mkdate 2024 1 15)
  /\ transactions_page example_db 1 None = transactions_page example_db_of_1 1 None.
Proof.
  destruct (dashboard_only_own_rows example_db example_db_of_1 1 (mkdate 2024 1 15)
              eq_refl eq_refl) as [Hd Hp].
  split; [exact Hd|apply Hp].
Defined.

(** January 2024 of user 1: 450 by category and 20 without. *)
Lemma category_expenses_add_up_witness :
  monthly_expenses example_db 1 1 2024
  = (total (map snd (category_expenses example_db 1 1 2024))
     + total (amounts (List.filter
                         (fun t => dated 1 "expense" 1 2024 t
                                   && negb (categorised example_db t))
                         (transactions example_db))))%Qc.
Proof.
  apply (category_expenses_add_up example_db 1 1 2024).
  apply (bool_decide_unpack _). vm_compute. exact I.
Defined.

(** carol registers as user 3 and finds the eight categories. *)
Lemma register_default_categories_witness :
  choices_of
    (db (state (snd (register example_hash example_Email carol_form 3 example_category_id
                       example_site)))) 3
  = [(10, "Food & Dining"); (11, "Transportation"); (12, "Shopping");
     (13, "Entertainment"); (14, "Bills & Utilities"); (15, "Healthcare");
     (16, "Salary"); (17, "Other")].
Proof.
  destruct (register_default_categories example_hash example_Email carol_form 3
              example_category_id example_site eq_refl) as [E _].
  - intros c Hc. simpl in Hc. destruct Hc as [<-|[<-|[]]]; discriminate.
  - rewrite E. reflexivity.
Defined.

(** carol registers and logs in. *)
Lemma register_then_login_witness :
  session (snd (login example_check (login_with (sub_form carol_form))
                  (snd (register example_hash example_Email carol_form 3
                          example_category_id example_site))))
  = Some 3.
Proof.
  apply (register_then_login example_hash example_check example_Email carol_form 3
           example_category_id example_site).
  - intros p. apply String.eqb_refl.
  - reflexivity.
Defined.

(** What user 1 does to row 7 or adds does not show for user 2. *)
Lemma routes_touch_only_own_rows_witness :
  view (db (snd (edit_transaction example_root werkzeug_secure_filename 1 7
                   (edit_request None) example_uuid' receipt_world))) 2
    (mkdate 2024 1 15) None
  = view (db receipt_world) 2 (mkdate 2024 1 15) None
  /\ view (db (snd (delete_transaction example_root 1 7 receipt_world))) 2
       (mkdate 2024 1 15) None
     = view (db receipt_world) 2 (mkdate 2024 1 15) None.
Proof.
  destruct (routes_touch_only_own_rows example_root werkzeug_secure_filename 1 7
              (edit_request None) example_uuid' 8 200 receipt_world 2 receipt_world_ids)
    with (day := mkdate 2024 1 15) (arg := @None Z) as (He & Hd & _).
  - discriminate.
  - split; [exact He|exact Hd].
Defined.
